(** * Document-ingestion and analysis pipeline of the compliance dashboard

    A shallow embedding of the circular page (text extraction, OCR fallback,
    circular heuristic, analysis client) and of the Express backend (chat
    proxy with retry, development stub, upload/extract routes), followed by
    the properties of the specification stated over that embedding. *)

From Stdlib Require Import List NArith ZArith Bool Lia String Ascii PrimFloat.
From Stdlib Require Import DecimalString.
Import ListNotations.

Set Implicit Arguments.
Set Warnings "-register-all".
Set Warnings "-inexact-float".

(** ** JavaScript strings

    A JavaScript string is a sequence of UTF-16 code units; every operation
    the pipeline uses ([trim], [slice], [join], [length], [RegExp.test]) works
    code unit by code unit. *)

Module JsString.

Definition jsstring := list N.

(** A source literal made of ASCII characters. *)
Definition js (s : string) : jsstring := map N_of_ascii (list_ascii_of_string s).

Definition isLineTerminator (c : N) : bool :=
  (N.eqb c 10 || N.eqb c 13 || N.eqb c 0x2028 || N.eqb c 0x2029)%bool.

Definition isWhiteSpace (c : N) : bool :=
  (N.eqb c 9 || N.eqb c 11 || N.eqb c 12 || N.eqb c 32 || N.eqb c 0xA0
   || N.eqb c 0x1680 || (N.leb 0x2000 c && N.leb c 0x200A)
   || N.eqb c 0x202F || N.eqb c 0x205F || N.eqb c 0x3000 || N.eqb c 0xFEFF)%bool.

(** The code units [String.prototype.trim] strips: WhiteSpace and
    LineTerminator. *)
Definition isTrimmable (c : N) : bool := (isWhiteSpace c || isLineTerminator c)%bool.

Fixpoint trimStart (s : jsstring) : jsstring :=
  match s with
  | [] => []
  | c :: s' => if isTrimmable c then trimStart s' else s
  end.

Fixpoint trimEnd (s : jsstring) : jsstring :=
  match s with
  | [] => []
  | c :: s' =>
      match trimEnd s' with
      | [] => if isTrimmable c then [] else [c]
      | t => c :: t
      end
  end.

Definition trim (s : jsstring) : jsstring := trimEnd (trimStart s).

(** [Array.prototype.join] on an array of strings. *)
Fixpoint join (sep : jsstring) (parts : list jsstring) : jsstring :=
  match parts with
  | [] => []
  | p :: rest =>
      match rest with
      | [] => p
      | _ => p ++ sep ++ join sep rest
      end
  end.

(** [s.slice(0, n)] and [s.substring(0, n)] for a non-negative [n]. *)
Definition slice0 (n : nat) (s : jsstring) : jsstring := firstn n s.

Definition isEmpty (s : jsstring) : bool :=
  match s with [] => true | _ => false end.

Definition eqb (a b : jsstring) : bool :=
  if list_eq_dec N.eq_dec a b then true else false.

Fixpoint startsWith (p s : jsstring) : bool :=
  match p, s with
  | [], _ => true
  | a :: p', b :: s' => (N.eqb a b && startsWith p' s')%bool
  | _ :: _, [] => false
  end.

Definition endsWith (p s : jsstring) : bool := startsWith (rev p) (rev s).

Definition isAsciiUnit (c : N) : bool := N.ltb c 128.

Definition lowerAsciiUnit (c : N) : N :=
  if (N.leb 65 c && N.leb c 90)%bool then (c + 32)%N else c.

(** [String.prototype.toLowerCase].  On a string of ASCII code units it maps
    A-Z to a-z and leaves the rest; for any other string the result comes
    from the engine's Unicode case tables, which are not part of the
    repository and are taken as the parameter [unicodeLower]. *)
Definition toLowerCase (unicodeLower : jsstring -> jsstring) (s : jsstring) : jsstring :=
  if forallb isAsciiUnit s then map lowerAsciiUnit s else unicodeLower s.

End JsString.
Import JsString.

(** ** Regular expressions

    The patterns of the repository use literals, [.], character classes,
    alternation, [?] and bounded repetition, with or without the [i] flag.
    [RegExp.prototype.test] on such a (non-global) pattern answers whether the
    pattern matches at some start index; it is computed here with
    derivatives. *)

Module Regex.

Inductive charClass : Type :=
| Lit (c : N)            (* a pattern character, no [i] flag *)
| LitI (c : N)           (* an ASCII pattern character under the [i] flag *)
| Dot                    (* [.]: anything but a line terminator *)
| Range (lo hi : N)      (* [[A-Z]] *)
| Digit                  (* [\d] *)
| OneOf (cs : list N).   (* [[-/]] *)

(** Canonicalize of the [i] flag (no [u] flag): a code unit is upper-cased,
    except that a non-ASCII unit never becomes an ASCII one; against the
    ASCII pattern characters used here only a-z/A-Z are identified. *)
Definition canonicalize (c : N) : N :=
  if (N.leb 97 c && N.leb c 122)%bool then (c - 32)%N else c.

Definition classMatches (k : charClass) (c : N) : bool :=
  match k with
  | Lit p => N.eqb c p
  | LitI p => N.eqb (canonicalize c) (canonicalize p)
  | Dot => negb (isLineTerminator c)
  | Range lo hi => (N.leb lo c && N.leb c hi)%bool
  | Digit => (N.leb 48 c && N.leb c 57)%bool
  | OneOf cs => existsb (N.eqb c) cs
  end.

Inductive regex : Type :=
| Never
| Empty
| Char (k : charClass)
| Seq (r1 r2 : regex)
| Alt (r1 r2 : regex)
| Opt (r : regex).

Fixpoint nullable (r : regex) : bool :=
  match r with
  | Never => false
  | Empty => true
  | Char _ => false
  | Seq r1 r2 => (nullable r1 && nullable r2)%bool
  | Alt r1 r2 => (nullable r1 || nullable r2)%bool
  | Opt _ => true
  end.

Definition seq (r1 r2 : regex) : regex :=
  match r1, r2 with
  | Never, _ => Never
  | _, Never => Never
  | Empty, _ => r2
  | _, _ => Seq r1 r2
  end.

Definition alt (r1 r2 : regex) : regex :=
  match r1, r2 with
  | Never, _ => r2
  | _, Never => r1
  | _, _ => Alt r1 r2
  end.

Fixpoint deriv (c : N) (r : regex) : regex :=
  match r with
  | Never => Never
  | Empty => Never
  | Char k => if classMatches k c then Empty else Never
  | Seq r1 r2 =>
      if nullable r1 then alt (seq (deriv c r1) r2) (deriv c r2)
      else seq (deriv c r1) r2
  | Alt r1 r2 => alt (deriv c r1) (deriv c r2)
  | Opt r1 => deriv c r1
  end.

(** The pattern matches some prefix of [s]. *)
Fixpoint matchesPrefix (r : regex) (s : jsstring) : bool :=
  (nullable r ||
   match s with
   | [] => false
   | c :: s' => matchesPrefix (deriv c r) s'
   end)%bool.

(** [r.test(s)]: the pattern matches starting at some index of [s]. *)
Fixpoint test (r : regex) (s : jsstring) : bool :=
  (matchesPrefix r s ||
   match s with
   | [] => false
   | _ :: s' => test r s'
   end)%bool.

(** The pattern matches the whole of [w]. *)
Definition accepts (r : regex) (w : jsstring) : bool :=
  nullable (fold_left (fun q c => deriv c q) w r).

(** Pattern builders. *)
Definition strI (s : string) : regex :=
  fold_right (fun c r => Seq (Char (LitI c)) r) Empty (js s).

Fixpoint times (n : nat) (r : regex) (k : regex) : regex :=
  match n with
  | O => k
  | S n' => Seq r (times n' r k)
  end.

Fixpoint upTo (n : nat) (r : regex) (k : regex) : regex :=
  match n with
  | O => k
  | S n' => Seq (Opt r) (upTo n' r k)
  end.

(** [r{lo,hi}] followed by [k]. *)
Definition between (lo hi : nat) (r k : regex) : regex :=
  times lo r (upTo (hi - lo) r k).

Fixpoint anyOf (rs : list regex) : regex :=
  match rs with
  | [] => Never
  | [r] => r
  | r :: rest => Alt r (anyOf rest)
  end.

(** Every class of the pattern reads a code unit through [canonicalize]. *)
Fixpoint caseBlind (r : regex) : bool :=
  match r with
  | Never | Empty => true
  | Char (LitI _) => true
  | Char _ => false
  | Seq r1 r2 | Alt r1 r2 => (caseBlind r1 && caseBlind r2)%bool
  | Opt r1 => caseBlind r1
  end.

End Regex.
Import Regex.

(** ** Circular heuristic classifier (client) *)

Module Classifier.

Definition circularIndicators : list regex :=
  [ strI "circular";
    Seq (strI "reference no") (Opt (Char (LitI 46)));
    anyOf [strI "rbi"; strI "sebi"; strI "irdai"; strI "pfrda"; strI "nbfc";
           strI "banking"; strI "regulation"; strI "compliance"];
    Seq (strI "dear sir") (Seq (Opt (Char Dot)) (strI "madam"));
    anyOf [strI "all scheduled commercial banks"; strI "all banks";
           Seq (strI "all nbfc") (Opt (Char (LitI 115)))];
    anyOf [strI "master circular"; strI "master direction";
           strI "regulatory framework"];
    between 2 4 (Char (Range 65 90))
      (Seq (Char (Lit 47))
         (between 2 4 (Char Digit)
            (Seq (Char (OneOf [45; 47])) (between 2 4 (Char Digit) Empty)))) ]%N.

Definition referenceCodePattern : regex := nth 6 circularIndicators Never.

Section WithEngine.
Variable unicodeLower : jsstring -> jsstring.

Definition sampleText (text : jsstring) : jsstring :=
  toLowerCase unicodeLower (slice0 2000 text).

Definition isLikelyCircular (text : jsstring) : bool :=
  if isEmpty text then false
  else existsb (fun pattern => test pattern (sampleText text)) circularIndicators.

End WithEngine.

End Classifier.

(** ** JSON values

    Response bodies, parsed analysis results and the development stub are
    JavaScript values of the JSON fragment.  A missing property (JavaScript
    [undefined]) is [None] at the places that read one. *)

Module Json.

Inductive json : Type :=
| JNull
| JBool (b : bool)
| JNum (x : float)
| JStr (s : jsstring)
| JArr (items : list json)
| JObj (fields : list (jsstring * json)).

(** ToBoolean. *)
Definition truthy (v : json) : bool :=
  match v with
  | JNull => false
  | JBool b => b
  | JNum x => negb (PrimFloat.is_zero x || PrimFloat.is_nan x)
  | JStr s => negb (isEmpty s)
  | JArr _ | JObj _ => true
  end.

Fixpoint lookup (k : jsstring) (fields : list (jsstring * json)) : option json :=
  match fields with
  | [] => None
  | (k', v) :: rest => if JsString.eqb k k' then Some v else lookup k rest
  end.

(** [v.k] on a value that is neither [null] nor [undefined], for the property
    names the pipeline reads (none of which exists on arrays, strings,
    numbers or booleans). *)
Definition prop (k : jsstring) (v : json) : option json :=
  match v with
  | JObj fields => lookup k fields
  | _ => None
  end.

(** [v?.k]. *)
Definition optProp (k : jsstring) (v : option json) : option json :=
  match v with
  | None | Some JNull => None
  | Some v' => prop k v'
  end.

(** [v ?? d]. *)
Definition nullish (v : option json) (d : json) : json :=
  match v with
  | None | Some JNull => d
  | Some v' => v'
  end.

(** [v || d]. *)
Definition orElse (v : option json) (d : json) : json :=
  match v with
  | Some v' => if truthy v' then v' else d
  | None => d
  end.

Definition hexDigit (n : N) : N :=
  if N.ltb n 10 then (48 + n)%N else (87 + n)%N.

(** [\uXXXX] with lower-case hexadecimal digits. *)
Definition unicodeEscape (c : N) : jsstring :=
  [92; 117; hexDigit (N.shiftr c 12 mod 16); hexDigit (N.shiftr c 8 mod 16);
   hexDigit (N.shiftr c 4 mod 16); hexDigit (c mod 16)]%N.

Definition escapeUnit (c : N) : jsstring :=
  (if N.eqb c 34 then [92; 34]
   else if N.eqb c 92 then [92; 92]
   else if N.eqb c 8 then [92; 98]
   else if N.eqb c 12 then [92; 102]
   else if N.eqb c 10 then [92; 110]
   else if N.eqb c 13 then [92; 114]
   else if N.eqb c 9 then [92; 116]
   else if N.ltb c 32 then unicodeEscape c
   else [c])%N.

Definition isHighSurrogate (c : N) : bool := (N.leb 0xD800 c && N.leb c 0xDBFF)%bool.
Definition isLowSurrogate (c : N) : bool := (N.leb 0xDC00 c && N.leb c 0xDFFF)%bool.

Fixpoint quoteUnits (s : jsstring) : jsstring :=
  match s with
  | [] => []
  | c :: s' =>
      if isHighSurrogate c then
        match s' with
        | d :: s'' =>
            if isLowSurrogate d then c :: d :: quoteUnits s''
            else unicodeEscape c ++ quoteUnits s'
        | [] => unicodeEscape c
        end
      else if isLowSurrogate c then unicodeEscape c ++ quoteUnits s'
      else escapeUnit c ++ quoteUnits s'
  end.

(** QuoteJSONString of [JSON.stringify]. *)
Definition quote (s : jsstring) : jsstring := [34%N] ++ quoteUnits s ++ [34%N].

Section WithNumbers.
(** Number::toString, the engine's shortest round-trip printing of a
    double; not part of the repository. *)
Variable numberToString : float -> jsstring.

(** [JSON.stringify(v)] without indentation; the numbers of a JSON value
    are finite. *)
Fixpoint stringify (v : json) : jsstring :=
  match v with
  | JNull => js "null"
  | JBool b => if b then js "true" else js "false"
  | JNum x => numberToString x
  | JStr s => quote s
  | JArr items => js "[" ++ join (js ",") (map stringify items) ++ js "]"
  | JObj fields =>
      js "{" ++
      join (js ",")
        (map (fun kv => match kv with
                        | (k, v') => quote k ++ js ":" ++ stringify v'
                        end) fields) ++
      js "}"
  end.

(** [String(v)]. *)
Fixpoint toJsString (v : json) : jsstring :=
  match v with
  | JNull => js "null"
  | JBool b => if b then js "true" else js "false"
  | JNum x => numberToString x
  | JStr s => s
  | JArr items =>
      join (js ",")
        (map (fun e => match e with JNull => [] | _ => toJsString e end) items)
  | JObj _ => js "[object Object]"
  end.

End WithNumbers.

End Json.
Import Json.

(** ** HTTP exchanges between the page and the backend *)

Module Http.

Record chatMessage : Type := mkMessage { role : jsstring; content : jsstring }.

(** JSON body of [POST /api/openai/chat]; a field the body lacks is [None],
    and [messages] is [Some] exactly when it is an array. *)
Record chatRequest : Type := mkRequest {
  model : option jsstring;
  temperature : option float;
  messages : option (list chatMessage)
}.

Record response : Type := mkResponse { status : N; body : json }.

(** [res.ok]. *)
Definition isOk (st : N) : bool := (N.leb 200 st && N.leb st 299)%bool.

(** Decimal digits of a status code inside a template literal. *)
Definition decimal (n : N) : jsstring := js (NilZero.string_of_uint (N.to_uint n)).

End Http.
Import Http.

(** ** Circular page (client): extraction, OCR and analysis *)

Module Client.

(** A thrown [Error]; the handlers only ever read its [message]. *)
Record jsError : Type := mkError { message : jsstring }.

Inductive result (A : Type) : Type :=
| Ok (a : A)
| Err (e : jsError).
Arguments Ok {A} a.
Arguments Err {A} e.

(** What the extraction code asks of pdf.js and of the OCR engine, in the
    order it asks. *)
Inductive event : Type :=
| TextLayer (p : nat)               (* page.getTextContent() of page p *)
| RenderPage (p : nat) (scale : Z)  (* page.render at getViewport({scale}) *)
| OcrPage (p : nat).                (* Tesseract.recognize on the canvas of page p *)

(** Awaited code that performs requests and may throw. *)
Definition IO (A : Type) : Type := (list event * result A)%type.

Definition ret {A} (a : A) : IO A := ([], Ok a).
Definition throw {A} (e : jsError) : IO A := ([], Err e).
Definition emit (ev : event) : IO unit := ([ev], Ok tt).

Definition bind {A B} (m : IO A) (k : A -> IO B) : IO B :=
  match m with
  | (t, Ok a) => let (t', r) := k a in (t ++ t', r)
  | (t, Err e) => (t, Err e)
  end.

Definition tryCatch {A} (m : IO A) (handler : jsError -> IO A) : IO A :=
  match m with
  | (t, Ok a) => (t, Ok a)
  | (t, Err e) => let (t', r) := handler e in (t ++ t', r)
  end.

Notation "x <- m ;; k" := (bind m (fun x => k))
  (at level 61, m at next level, right associativity).
Notation "m ;;; k" := (bind m (fun _ => k))
  (at level 61, right associativity).

(** *** The uploaded file as pdf.js and the OCR engine see it *)

Record textItem : Type := mkItem {
  str : option jsstring;       (* the item has a [str] property *)
  unicode : option jsstring    (* otherwise its [unicode] property *)
}.

Record pdfPage : Type := mkPage {
  getPageOk : bool;                      (* pdf.getPage(p) resolves *)
  textContent : option (list textItem);  (* getTextContent(): items, or it rejects *)
  canvasContext : bool;                  (* canvas.getContext('2d') is not null *)
  renderOk : bool;                       (* page.render(...).promise resolves *)
  recognized : option jsstring           (* recognize(): result?.data?.text || '', or it rejects *)
}.

Record file : Type := mkFile {
  fileType : jsstring;
  fileName : jsstring;
  arrayBufferOk : bool;                  (* file.arrayBuffer() resolves *)
  document : option (list pdfPage)       (* getDocument(...).promise: the pages, or it rejects *)
}.

Definition rejected : jsError := mkError (js "rejected").

Definition arrayBuffer (f : file) : IO unit :=
  if arrayBufferOk f then ret tt else throw rejected.

Definition getDocument (f : file) : IO (list pdfPage) :=
  match document f with
  | Some pages => ret pages
  | None => throw rejected
  end.

Definition getPage (pg : pdfPage) : IO unit :=
  if getPageOk pg then ret tt else throw rejected.

Definition getTextContent (p : nat) (pg : pdfPage) : IO (list textItem) :=
  emit (TextLayer p) ;;;
  match textContent pg with
  | Some items => ret items
  | None => throw rejected
  end.

Definition render (p : nat) (scale : Z) (pg : pdfPage) : IO unit :=
  emit (RenderPage p scale) ;;;
  if renderOk pg then ret tt else throw rejected.

Definition nl2 : jsstring := [10; 10]%N.

Definition itemString (it : textItem) : jsstring :=
  match str it with
  | Some s => s
  | None => match unicode it with Some u => u | None => [] end
  end.

(** [strings.join(' ').trim()] of one page. *)
Definition pageTextOf (items : list textItem) : jsstring :=
  trim (join (js " ") (map itemString items)).

Section Extraction.
(** [window.Tesseract] is loaded. *)
Variable Tesseract : bool.

Definition ocrCanvas (p : nat) (pg : pdfPage) : IO jsstring :=
  if negb Tesseract then throw (mkError (js "OCR engine not ready"))
  else
    emit (OcrPage p) ;;;
    match recognized pg with
    | Some text => ret (trim text)
    | None => throw rejected
    end.

(** The page loop of [extractTextFromPdfViaOCR], from page [p] on. *)
Fixpoint ocrParts (p : nat) (pages : list pdfPage) (textParts : list jsstring)
  : IO (list jsstring) :=
  match pages with
  | [] => ret textParts
  | pg :: rest =>
      getPage pg ;;;
      if negb (canvasContext pg) then
        throw (mkError (js "Could not create canvas context"))
      else
        render p 2 pg ;;;
        ocrText <- ocrCanvas p pg ;;
        ocrParts (S p) rest
          (if isEmpty ocrText then textParts else textParts ++ [ocrText])
  end.

(** The [try] block of [extractTextFromPdfViaOCR]. *)
Definition ocrAllPages (f : file) : IO jsstring :=
  arrayBuffer f ;;;
  pages <- getDocument f ;;
  textParts <- ocrParts 1 pages [] ;;
  ret (trim (join nl2 textParts)).

Definition extractTextFromPdfViaOCR (f : file) : IO jsstring :=
  tryCatch (ocrAllPages f) (fun _ => ret []).

(** First pass of [extractPdfText], from page [p] on: the result is
    [(isScanned, fullText)] when the loop is left. *)
Fixpoint directPass (p : nat) (pages : list pdfPage) (fullText : jsstring)
  : IO (bool * jsstring) :=
  match pages with
  | [] => ret (false, fullText)
  | pg :: rest =>
      getPage pg ;;;
      items <- getTextContent p pg ;;
      let pageText := pageTextOf items in
      if Nat.ltb (List.length pageText) 50 then ret (true, fullText)
      else directPass (S p) rest (fullText ++ pageText ++ nl2)
  end.

(** Second pass of [extractPdfText], from page [p] on. *)
Fixpoint ocrPass (p : nat) (pages : list pdfPage) (fullText : jsstring)
  : IO jsstring :=
  match pages with
  | [] => ret fullText
  | pg :: rest =>
      getPage pg ;;;
      if negb (canvasContext pg) then ocrPass (S p) rest fullText
      else
        render p 2 pg ;;;
        pageText <- ocrCanvas p pg ;;
        ocrPass (S p) rest (fullText ++ pageText ++ nl2)
  end.

Definition extractPdfText (f : file) : IO jsstring :=
  tryCatch
    (pages <- getDocument f ;;
     first <- directPass 1 pages [] ;;
     let (isScanned, fullText) := first in
     if (negb isScanned && Nat.ltb 0 (List.length (trim fullText)))%bool then
       ret (trim fullText)
     else
       fullText' <- ocrPass 1 pages [] ;;
       ret (trim fullText'))
    (fun _ =>
       throw (mkError (js "Failed to extract text from PDF. The file might be corrupted or password protected."))).

End Extraction.

(** *** Page state (the [useState] cells the pipeline writes) *)

Record notification : Type := mkNote { noteTitle : jsstring; noteMessage : json }.

Record uiState : Type := mkState {
  extracted : jsstring;
  loading : bool;
  aiLoading : bool;
  aiResult : jsstring;
  error : jsstring;
  analysisJson : option json;
  applicable : json;
  notifications : list notification
}.

Definition setExtracted v st :=
  mkState v (loading st) (aiLoading st) (aiResult st) (error st)
    (analysisJson st) (applicable st) (notifications st).
Definition setLoading v st :=
  mkState (extracted st) v (aiLoading st) (aiResult st) (error st)
    (analysisJson st) (applicable st) (notifications st).
Definition setAiLoading v st :=
  mkState (extracted st) (loading st) v (aiResult st) (error st)
    (analysisJson st) (applicable st) (notifications st).
Definition setAiResult v st :=
  mkState (extracted st) (loading st) (aiLoading st) v (error st)
    (analysisJson st) (applicable st) (notifications st).
Definition setError v st :=
  mkState (extracted st) (loading st) (aiLoading st) (aiResult st) v
    (analysisJson st) (applicable st) (notifications st).
Definition setAnalysisJson v st :=
  mkState (extracted st) (loading st) (aiLoading st) (aiResult st) (error st)
    v (applicable st) (notifications st).
Definition setApplicable v st :=
  mkState (extracted st) (loading st) (aiLoading st) (aiResult st) (error st)
    (analysisJson st) v (notifications st).
Definition addNotification n st :=
  mkState (extracted st) (loading st) (aiLoading st) (aiResult st) (error st)
    (analysisJson st) (applicable st) (n :: notifications st).

(** [clearInputAndState()], the [onClick] handler of the file input, on
    the cells above ([resetInput] only touches the input element, the pending
    file and the file name). *)
Definition clearInputAndState (st : uiState) : uiState :=
  setAnalysisJson None (setAiResult [] (setExtracted [] (setError [] st))).

(** What [await fetch(...)] followed by [res.json().catch(...)] gives the
    caller: the request rejects, or a status with the parsed body ([None] when
    the body is not JSON). *)
Inductive fetchOutcome : Type :=
| FetchRejected (e : jsError)
| Fetched (status : N) (body : option json).

Definition bodyOrEmpty (body : option json) : json :=
  match body with Some d => d | None => JObj [] end.

Definition prepareTextForAI (text : jsstring) (maxChars : N) : jsstring :=
  if isEmpty text then []
  else if N.leb (N.of_nat (List.length text)) maxChars then text
  else slice0 (N.to_nat maxChars) text.

Definition buildAnalysisPrompts (text : jsstring) : jsstring * jsstring :=
  (js "You are an AI assistant that analyzes regulatory circulars.",
   js "Analyze this circular and extract key information: "
     ++ slice0 1000 text ++ js "...").

(** The request body [handleAnalyze] posts to [/api/openai/chat]. *)
Definition analysisPayload (contentToAnalyze : jsstring) : chatRequest :=
  let prepared := prepareTextForAI contentToAnalyze 8000 in
  let (system, userMsg) := buildAnalysisPrompts prepared in
  mkRequest (Some (js "gpt-4o-mini")) (Some 0.2%float)
    (Some [mkMessage (js "system") system; mkMessage (js "user") userMsg]).

(** [/stub on error|development stub|dev stub/i]. *)
Definition stubPattern : regex :=
  anyOf [strI "stub on error"; strI "development stub"; strI "dev stub"].

Section Page.
Variable Tesseract : bool.
(** Engine functions the repository does not define. *)
Variable unicodeLower : jsstring -> jsstring.
Variable numberToString : float -> jsstring.
(** [JSON.parse]: the value, or [None] when it throws. *)
Variable JSON_parse : jsstring -> option json.
(** The backend as the page reaches it. *)
Variable fetchChat : chatRequest -> fetchOutcome.
Variable fetchUploadExtract : file -> fetchOutcome.

Definition isWordFile (f : file) : bool :=
  let t := toLowerCase unicodeLower (fileType f) in
  let n := toLowerCase unicodeLower (fileName f) in
  (JsString.eqb t (js "application/vnd.openxmlformats-officedocument.wordprocessingml.document")
   || JsString.eqb t (js "application/msword")
   || endsWith (js ".docx") n
   || endsWith (js ".doc") n)%bool.

Definition extractWordViaServer (f : file) : IO jsstring :=
  match fetchUploadExtract f with
  | FetchRejected e => throw e
  | Fetched status body =>
      let data := bodyOrEmpty body in
      if negb (isOk status) then
        throw (mkError (toJsString numberToString
                 (orElse (optProp (js "error") (Some data))
                    (JStr (js "Upload extract failed (" ++ decimal status ++ js ")")))))
      else
        match orElse (optProp (js "text") (Some data)) (JStr []) with
        | JStr s => ret (trim s)
        | _ => throw (mkError (js "(data?.text || '').trim is not a function"))
        end
  end.

Definition parseJsonStrict (jsonString : jsstring) : json :=
  match JSON_parse jsonString with
  | Some v => v
  | None => JNull
  end.

(** The [try] block of [handleAnalyze]: the state it leaves and what it
    returns or throws. *)
Definition analyzeBody (text : option jsstring) (st : uiState) : uiState * result json :=
  let contentToAnalyze := trim (match text with Some t => t | None => extracted st end) in
  if isEmpty contentToAnalyze then
    (setError (js "No text to analyze") st, Ok (JStr []))
  else
    let st1 := setAiLoading true (setAiResult [] (setError [] st)) in
    match fetchChat (analysisPayload contentToAnalyze) with
    | FetchRejected e => (st1, Err e)
    | Fetched status body =>
        let data := bodyOrEmpty body in
        if N.eqb status 429 then
          let msg := orElse (optProp (js "error") (Some data))
                       (JStr (js "OpenAI rate limit or quota exceeded (429). Please check your OpenAI plan/billing or try again later.")) in
          (addNotification (mkNote (js "OpenAI rate limit") msg) st1,
           Err (mkError (toJsString numberToString msg)))
        else if negb (isOk status) then
          (st1,
           Err (mkError (toJsString numberToString
                  (orElse (optProp (js "error") (Some data))
                     (JStr (js "AI analyze failed (" ++ decimal status ++ js ")"))))))
        else
          let content :=
            match optProp (js "message") (Some data) with
            | Some m =>
                if truthy m then
                  match prop (js "content") m with
                  | Some c => if truthy c then toJsString numberToString c else []
                  | None => []
                  end
                else []
            | None => []
            end in
          let trimmed := trim content in
          if test stubPattern trimmed then
            (st1, Err (mkError (js "AI returned stubbed content. Please ensure OPENAI_API_KEY is set on the server.")))
          else
            let parsed := parseJsonStrict trimmed in
            if truthy parsed then
              (setApplicable
                 (nullish (optProp (js "applicable")
                             (optProp (js "bank_context")
                                (optProp (js "meta") (Some parsed)))) JNull)
                 (setAnalysisJson (Some parsed) st1),
               Ok (orElse (prop (js "summary") parsed) (JStr (js "Analysis complete"))))
            else
              (setAiResult trimmed (setAnalysisJson None st1),
               Ok (JStr (if isEmpty trimmed then js "Analysis complete (unstructured)"
                         else trimmed)))
    end.

(** [handleAnalyze(text)]: the [try] block, then [catch] and [finally]. *)
Definition handleAnalyze (text : option jsstring) (st : uiState) : uiState * json :=
  let (st1, r) := analyzeBody text st in
  let (st2, out) :=
    match r with
    | Ok v => (st1, v)
    | Err err =>
        let msg := if isEmpty (message err) then js "Failed to analyze document"
                   else message err in
        (addNotification (mkNote (js "AI analysis failed") (JStr msg))
           (setError msg (setApplicable JNull (setAnalysisJson None st1))),
         JStr (js "Analysis failed"))
    end in
  (setAiLoading false st2, out).

(** The extraction step of [processFile]. *)
Definition extractFor (f : file) : IO jsstring :=
  if isWordFile f then extractWordViaServer f
  else if JsString.eqb (fileType f) (js "application/pdf") then
    arrayBuffer f ;;;
    text <- extractPdfText Tesseract f ;;
    if Nat.ltb (List.length (trim text)) 100 then extractTextFromPdfViaOCR Tesseract f
    else ret text
  else ret [].

(** [processFile()] of the [pendingFile] effect: the state it leaves and the
    requests it made. *)
Definition processFile (f : file) (st : uiState) : uiState * list event :=
  let st1 := setApplicable JNull (setAnalysisJson None (setAiResult []
               (setError [] (setLoading true st)))) in
  let (trace, r) := extractFor f in
  let st2 :=
    match r with
    | Ok text => setExtracted text st1
    | Err _ => setError (js "Failed to process document") st1
    end in
  (setLoading false st2, trace).

End Page.

End Client.

(** ** Express backend: chat proxy, development stub, upload routes *)

Module Server.

(** A value of [e.code]: absent, a number or a string. *)
Inductive jsval : Type :=
| VUndefined
| VNumber (n : N)
| VString (s : jsstring).

(** What the provider call throws, as far as the handler reads it. *)
Record apiError : Type := mkApiError {
  errStatus : option N;             (* e.status *)
  errCode : jsval;                  (* e.code *)
  errMessage : option jsstring;     (* e.message *)
  errInnerMessage : option jsstring (* e.error?.message *)
}.

Record completion : Type := mkCompletion {
  choiceMessages : list json;  (* choices[i].message *)
  usage : option json;
  completionId : jsstring
}.

Inductive providerReply : Type :=
| Completed (c : completion)
| Failed (e : apiError).

Definition textOr (s : option jsstring) (d : jsstring) : jsstring :=
  match s with
  | Some t => if isEmpty t then d else t
  | None => d
  end.

(** [/rate limit|quota/i]. *)
Definition rateLimitPattern : regex := anyOf [strI "rate limit"; strI "quota"].

(** [status === 429] for [status = e && (e.status || e.code)]. *)
Definition statusIs429 (e : apiError) : bool :=
  match errStatus e with
  | Some n => if N.eqb n 0 then
                match errCode e with VNumber c => N.eqb c 429 | _ => false end
              else N.eqb n 429
  | None => match errCode e with VNumber c => N.eqb c 429 | _ => false end
  end.

Definition isRateLimit (e : apiError) : bool :=
  (statusIs429 e || test rateLimitPattern (textOr (errMessage e) []))%bool.

(** [Math.min(2000 * Math.pow(2, attempt), 8000)]. *)
Definition delayMs (attempt : nat) : N := N.min (2000 * 2 ^ N.of_nat attempt) 8000.

Section Proxy.
(** The reply of the [n]-th call of [openai.chat.completions.create] made
    for one request (counted from 0). *)
Variable provider : nat -> providerReply.

(** The [while] loop of [callOpenAIWithRetry], entered with the given
    [attempt] and [lastErr]; [fuel] bounds the iterations.  The result is
    the list of [setTimeout] delays awaited, in order, and the completion
    returned or the error thrown. *)
Fixpoint retryLoop (fuel maxRetries attempt : nat) (lastErr : option apiError)
  : list N * (completion + apiError) :=
  let exhausted :=
    match lastErr with
    | Some e => e
    | None => mkApiError None VUndefined (Some (js "OpenAI request failed")) None
    end in
  match fuel with
  | O => ([], inr exhausted)
  | S fuel' =>
      if Nat.leb attempt maxRetries then
        match provider attempt with
        | Completed c => ([], inl c)
        | Failed e =>
            if (negb (isRateLimit e) || Nat.eqb attempt maxRetries)%bool then ([], inr e)
            else
              let (delays, r) := retryLoop fuel' maxRetries (S attempt) (Some e) in
              (delayMs attempt :: delays, r)
        end
      else ([], inr exhausted)
  end.

Definition callOpenAIWithRetry (maxRetries : nat) : list N * (completion + apiError) :=
  retryLoop (S (S maxRetries)) maxRetries 0 None.

End Proxy.

Record env : Type := mkEnv {
  OPENAI_API_KEY : option jsstring;     (* process.env.OPENAI_API_KEY *)
  DEV_STUB_ON_ERROR : option jsstring;  (* process.env.DEV_STUB_ON_ERROR *)
  openai : bool;                        (* the client was created at startup *)
  lateInit : bool;                      (* [new OpenAI] succeeds when tried late *)
  nowIso : jsstring;                    (* new Date().toISOString() *)
  nowMs : N                             (* Date.now() *)
}.

Definition action (title description priority department : string)
  (due_in_days : float) (owner_role : string) (confidence : float) : json :=
  JObj [ (js "title", JStr (js title));
         (js "description", JStr (js description));
         (js "priority", JStr (js priority));
         (js "department", JStr (js department));
         (js "due_in_days", JNum due_in_days);
         (js "owner_role", JStr (js owner_role));
         (js "confidence", JNum confidence);
         (js "citation", JStr (js "N/A")) ].

(** The object literal [stubContent]. *)
Definition stubContent (circular_id now details : jsstring) : json :=
  JObj [
    (js "meta", JObj [
       (js "regulator", JStr (js "RBI"));
       (js "circular_id", JStr circular_id);
       (js "reference_no", JStr (js "DEV-STUB-ON-ERROR"));
       (js "date", JStr (slice0 10 now));
       (js "subject", JStr (js "Dev stub (OpenAI error): " ++ details));
       (js "bank_context", JObj [
          (js "bank_id", JStr []);
          (js "bank_name", JStr []);
          (js "bank_type", JStr []);
          (js "applicable", JBool true);
          (js "applicable_reason", JStr (js "Dev stub returned due to OpenAI error.")) ]) ]);
    (js "summary", JStr (js "Development fallback summary (stub on error)."));
    (js "key_points", JArr [
       JStr (js "Stubbed point " ++ [0xE2; 0x20AC; 0x201D]%N
             ++ js " replace with real analysis once OpenAI is configured.") ]);
    (js "actions", JArr [
       action "Review circular and prepare compliance note"
         "Create a short note summarizing obligations and proposed steps."
         "Medium" "Compliance" 7 "Maker" 0.5;
       action "Identify applicable sections for the default bank"
         "Map clauses to bank products/processes; mark not applicable items."
         "High" "Compliance" 5 "Maker" 0.6;
       action "Draft implementation plan"
         "List owners, milestones, and dependencies for each obligation."
         "Medium" "Operations" 10 "Maker" 0.6;
       action "Update internal SOPs/Policies"
         "Revise SOPs and policies impacted by this circular; route for approval."
         "Medium" "Policy" 14 "Checker" 0.5;
       action "Train relevant staff"
         "Conduct short training for impacted teams with examples and timelines."
         "Low" "HR/Training" 15 "Maker" 0.4;
       action "Set up compliance monitoring"
         "Define checks/alerts to monitor adherence and capture evidence."
         "High" "Compliance Monitoring" 12 "Checker" 0.5 ]);
    (js "risks", JArr [JStr (js "Potential non-compliance if ignored (dev-stub).")]);
    (js "notes", JStr (js "This payload is returned by the server when OpenAI fails in dev.")) ].

Definition errorBody (msg : jsstring) : json := JObj [(js "error", JStr msg)].

Section Handlers.
Variable unicodeLower : jsstring -> jsstring.
Variable numberToString : float -> jsstring.
(** First capture group of [String(userMsg).match(/Circular ID:\s*([^,\n]+)/i)],
    or [None] when there is no match. *)
Variable circularIdMatch : jsstring -> option jsstring.

(** [String(process.env.DEV_STUB_ON_ERROR).toLowerCase() === 'true']. *)
Definition allowStub (e : env) : bool :=
  JsString.eqb
    (toLowerCase unicodeLower
       (match DEV_STUB_ON_ERROR e with Some v => v | None => js "undefined" end))
    (js "true").

Definition userMessage (req : chatRequest) : jsstring :=
  match messages req with
  | Some msgs =>
      match find (fun m => JsString.eqb (role m) (js "user")) msgs with
      | Some m => content m
      | None => []
      end
  | None => []
  end.

(** The response of the [catch] block of the chat route. *)
Definition chatFailure (e : env) (req : chatRequest) (err : apiError) : response :=
  let details :=
    textOr (errInnerMessage err) (textOr (errMessage err) (js "OpenAI request failed")) in
  let status :=
    match errStatus err with
    | Some n => if N.eqb n 0 then 500%N else n
    | None => 500%N
    end in
  if allowStub e then
    let circular_id :=
      match circularIdMatch (userMessage req) with
      | Some g => trim g
      | None => js "unknown"
      end in
    mkResponse 200
      (JObj [ (js "message",
               JObj [ (js "role", JStr (js "assistant"));
                      (js "content",
                       JStr (stringify numberToString
                               (stubContent circular_id (nowIso e) details))) ]);
              (js "usage", JNull);
              (js "id", JStr (js "stub-" ++ decimal (nowMs e))) ])
  else mkResponse status (errorBody details).

Definition completionBody (c : completion) : json :=
  JObj ((match choiceMessages c with
         | m :: _ => [(js "message", m)]
         | [] => []
         end) ++
        [ (js "usage",
           match usage c with
           | Some u => if truthy u then u else JNull
           | None => JNull
           end);
          (js "id", JStr (completionId c)) ]).

(** [app.post('/api/openai/chat', ...)]: the delays awaited while serving the
    request and the response sent. *)
Definition chatHandler (e : env) (provider : nat -> providerReply) (req : chatRequest)
  : list N * response :=
  if isEmpty (textOr (OPENAI_API_KEY e) []) then
    ([], mkResponse 400
           (JObj [ (js "error", JStr (js "OpenAI API key is not configured"));
                   (js "message", JStr (js "Please set the OPENAI_API_KEY environment variable in your .env file")) ]))
  else
    match messages req with
    | None | Some [] =>
        ([], mkResponse 400 (errorBody (js "messages must be a non-empty array")))
    | Some _ =>
        if negb (openai e || lateInit e) then
          ([], mkResponse 500 (errorBody (js "OpenAI client not initialized")))
        else
          match callOpenAIWithRetry provider 2 with
          | (delays, inl c) => (delays, mkResponse 200 (completionBody c))
          | (delays, inr err) => (delays, chatFailure e req err)
          end
    end.

End Handlers.

(** *** [POST /api/upload/extract] *)

Record upload : Type := mkUpload {
  originalname : jsstring;
  mimetype : jsstring;
  pdfPages : option (list (option (list jsstring)));
    (* getDocument on the buffer: per page the [str] of its items, [None]
       where loading or a page rejects *)
  mammothText : option jsstring  (* mammoth.extractRawText: [value], or it rejects *)
}.

Fixpoint pdfPagesText (pages : list (option (list jsstring))) (text : jsstring)
  : option jsstring :=
  match pages with
  | [] => Some text
  | None :: _ => None
  | Some strings :: rest => pdfPagesText rest (text ++ join (js " ") strings ++ [10; 10]%N)
  end.

(** The backend's own [extractPdfText]; [None] when it throws. *)
Definition extractPdfText (u : upload) : option jsstring :=
  match pdfPages u with
  | Some pages => option_map trim (pdfPagesText pages [])
  | None => None
  end.

Definition docxMime : jsstring :=
  js "application/vnd.openxmlformats-officedocument.wordprocessingml.document".

Definition processFailure (details : jsstring) : response :=
  mkResponse 500
    (JObj [ (js "ok", JBool false);
            (js "error", JStr (js "Failed to process file"));
            (js "details", JStr details) ]).

Definition extractedBody (u : upload) (text : jsstring) : response :=
  mkResponse 200
    (JObj [ (js "ok", JBool true);
            (js "filename", JStr (originalname u));
            (js "text", JStr (if isEmpty text then js "No text could be extracted" else text));
            (js "mimetype", JStr (mimetype u)) ]).

(** The route registered first ("File upload endpoint for document
    processing"). *)
Definition uploadExtractFirst (reqFile : option upload) : option response :=
  match reqFile with
  | None => Some (mkResponse 400 (errorBody (js "No file uploaded")))
  | Some u =>
      if JsString.eqb (mimetype u) (js "application/pdf") then
        match extractPdfText u with
        | Some text => Some (extractedBody u text)
        | None => Some (processFailure (js "Failed to extract text from PDF"))
        end
      else if JsString.eqb (mimetype u) docxMime then
        match mammothText u with
        | Some text => Some (extractedBody u text)
        | None => Some (processFailure (js "rejected"))
        end
      else if startsWith (js "image/") (mimetype u) then
        Some (extractedBody u (js "Image OCR processing would happen here"))
      else
        Some (mkResponse 400 (errorBody (js "Unsupported file type: " ++ mimetype u)))
  end.

(** [/\.docx$/i] and [/\.doc$/i]. *)
Definition endsWithI (suffix name : jsstring) : bool :=
  endsWith (map canonicalize suffix) (map canonicalize name).

(** The route registered last ("Upload endpoint to extract text from Word
    documents"). *)
Definition uploadExtractSecond (reqFile : option upload) : option response :=
  match reqFile with
  | None => Some (mkResponse 400 (errorBody (js "No file uploaded")))
  | Some u =>
      let isDocx := (JsString.eqb (mimetype u) docxMime
                     || endsWithI (js ".docx") (originalname u))%bool in
      let isDoc := (JsString.eqb (mimetype u) (js "application/msword")
                    || endsWithI (js ".doc") (originalname u))%bool in
      if isDocx then
        match mammothText u with
        | Some text =>
            Some (mkResponse 200 (JObj [(js "ok", JBool true); (js "text", JStr (trim text))]))
        | None => Some (mkResponse 500 (errorBody (js "rejected")))
        end
      else if isDoc then
        Some (mkResponse 415
                (errorBody (js "DOC format not supported on server. Please convert to DOCX and retry.")))
      else
        Some (mkResponse 415 (errorBody (js "Unsupported file type for extraction")))
  end.

(** Express runs the handlers registered for a method and path in
    registration order; a handler that sends a response without calling
    [next()] ends the chain ([None] stands for [next()]). *)
Fixpoint dispatch {Req : Type} (handlers : list (Req -> option response)) (req : Req)
  : option response :=
  match handlers with
  | [] => None
  | h :: rest =>
      match h req with
      | Some r => Some r
      | None => dispatch rest req
      end
  end.

(** The handlers of [POST /api/upload/extract], in the order of the two
    [app.post] calls. *)
Definition uploadExtractRoute : list (option upload -> option response) :=
  [uploadExtractFirst; uploadExtractSecond].

Definition postUploadExtract (reqFile : option upload) : option response :=
  dispatch uploadExtractRoute reqFile.

End Server.

(** ** Circular page (client): file selection and task creation *)

Module Intake.
Import Client Classifier.

(** What [ocrImageBlob] asks of the browser and of the OCR engine. *)
Inductive urlEvent : Type :=
| CreateObjectURL
| RecognizeImage
| RevokeObjectURL.

(** The [pendingFile] and [fileName] cells. *)
Record selection : Type := mkSelection {
  pendingFile : option file;
  shownName : jsstring
}.

Record view : Type := mkView { cells : uiState; chosen : selection }.

Definition overCells (g : uiState -> uiState) (v : view) : view :=
  mkView (g (cells v)) (chosen v).
Definition setPendingFile (p : option file) (v : view) : view :=
  mkView (cells v) (mkSelection p (shownName (chosen v))).
Definition setFileName (n : jsstring) (v : view) : view :=
  mkView (cells v) (mkSelection (pendingFile (chosen v)) n).

(** [resetInput()]. *)
Definition resetInput (v : view) : view := setFileName [] (setPendingFile None v).

Definition validTypes : list jsstring :=
  [ js "application/pdf";
    js "application/msword";
    js "application/vnd.openxmlformats-officedocument.wordprocessingml.document";
    js "image/png"; js "image/jpeg"; js "image/jpg"; js "image/webp" ].

(** [/\.(pdf|docx?|png|jpe?g|webp)$/i.test(name)]: the name ends, in any
    letter case, with one of the seven extensions the pattern spells. *)
Definition hasUploadExtension (name : jsstring) : bool :=
  existsb (fun ext => endsWith (map canonicalize ext) (map canonicalize name))
    [js ".pdf"; js ".doc"; js ".docx"; js ".png"; js ".jpg"; js ".jpeg"; js ".webp"].

Definition notCircularMessage : jsstring :=
  js "The uploaded document does not appear to be a circular. Please upload a valid circular document.".

(** [createAiTasksNow()]. *)
Definition createAiTasksNow (st : uiState) : uiState :=
  if negb (match analysisJson st with Some v => truthy v | None => false end) then
    addNotification
      (mkNote (js "Run analysis first")
         (JStr (js "Click Action to analyze the document before creating tasks."))) st
  else
    match applicable st with
    | JBool true =>
        addNotification
          (mkNote (js "Ready to create tasks")
             (JStr (js "Use the analysis output to create tasks for the correct bank."))) st
    | _ =>
        addNotification
          (mkNote (js "Not Applicable") (JStr (js "Tasks will not be created."))) st
    end.

Section Selecting.
Variable Tesseract : bool.
Variable unicodeLower : jsstring -> jsstring.
Variable numberToString : float -> jsstring.
Variable fetchUploadExtract : file -> fetchOutcome.
(** [Tesseract.recognize] on the object URL of an image file:
    [result?.data?.text || ''], or [None] when it rejects. *)
Variable recognizeImage : file -> option jsstring.

(** [ocrImageBlob(blob)]: the URL is created before the [try] and revoked
    in its [finally]. *)
Definition ocrImageBlob (blob : file) : list urlEvent * result jsstring :=
  if negb Tesseract then ([], Err (mkError (js "OCR engine not ready")))
  else
    let body : list urlEvent * result jsstring :=
      match recognizeImage blob with
      | Some text => ([RecognizeImage], Ok (trim text))
      | None => ([RecognizeImage], Err rejected)
      end in
    (CreateObjectURL :: fst body ++ [RevokeObjectURL], snd body).

(** The extraction step of [onFileChange]. *)
Definition extractSelected (f : file) : (list event * list urlEvent) * result jsstring :=
  if JsString.eqb (fileType f) (js "application/pdf") then
    let (t, r) := (arrayBuffer f ;;; extractPdfText Tesseract f) in ((t, []), r)
  else if isWordFile unicodeLower f then
    let (t, r) := extractWordViaServer numberToString fetchUploadExtract f in ((t, []), r)
  else if startsWith (js "image/") (fileType f) then
    let (u, r) := ocrImageBlob f in (([], u), r)
  else (([], []), Ok []).

(** [onFileChange(e)] for [e.target.files?.[0] = selected]: the cells it
    leaves and the requests it made. *)
Definition onFileChange (selected : option file) (v : view)
  : view * (list event * list urlEvent) :=
  match selected with
  | None => (overCells (setError (js "No file selected")) v, ([], []))
  | Some f =>
      if (negb (existsb (JsString.eqb (fileType f)) validTypes)
          && negb (hasUploadExtension (fileName f)))%bool then
        (overCells (setError (js "Please upload a valid PDF, Word document, or image file")) v,
         ([], []))
      else
        let v1 := setFileName (fileName f) (overCells (setLoading true) v) in
        let (trace, r) := extractSelected f in
        let v2 :=
          match r with
          | Ok extractedText =>
              if negb (isLikelyCircular unicodeLower extractedText) then
                overCells
                  (addNotification
                     (mkNote (js "Invalid Circular Document") (JStr notCircularMessage)))
                  (overCells (setError notCircularMessage) v1)
              else
                overCells
                  (addNotification
                     (mkNote (js "Circular Detected")
                        (JStr (js "Processing circular document..."))))
                  (setPendingFile (Some f) v1)
          | Err err =>
              resetInput
                (overCells (setError (js "Error processing file: " ++ message err)) v1)
          end in
        (overCells (setLoading false) v2, trace)
  end.

End Selecting.

End Intake.

(** ** Express backend: banks and users *)

Module Backoffice.

(** [req.body || {}]. *)
Definition bodyOf (reqBody : option json) : json :=
  match reqBody with
  | Some v => if truthy v then v else JObj []
  | None => JObj []
  end.

Record bank : Type := mkBank {
  bankId : jsstring;
  bankName : jsstring;
  bankType : jsstring;
  bankState : jsstring
}.

(** The module variables [banks] and [defaultBankId]. *)
Record bankStore : Type := mkBankStore {
  banks : list bank;
  defaultBankId : option jsstring
}.

Definition bankJson (b : bank) : json :=
  JObj [ (js "id", JStr (bankId b)); (js "name", JStr (bankName b));
         (js "type", JStr (bankType b)); (js "state", JStr (bankState b)) ].

Definition failure (st : N) (msg : string) : response :=
  mkResponse st (JObj [(js "ok", JBool false); (js "error", JStr (js msg))]).

Definition hasId (id : jsstring) (b : bank) : bool := JsString.eqb (bankId b) id.

(** [banks[idx] = updated] for [idx = banks.findIndex(b => b.id === id)]:
    [None] when no bank has the id. *)
Fixpoint updateFirst (id : jsstring) (g : bank -> bank) (l : list bank)
  : option (list bank) :=
  match l with
  | [] => None
  | b :: rest =>
      if hasId id b then Some (g b :: rest)
      else option_map (cons b) (updateFirst id g rest)
  end.

Record user : Type := mkUser {
  userId : jsstring;
  userName : jsstring;
  userEmail : jsstring;
  userRole : jsstring;
  userAvatar : option jsstring
}.

Definition userJson (u : user) : json :=
  JObj ([ (js "id", JStr (userId u)); (js "name", JStr (userName u));
          (js "email", JStr (userEmail u)); (js "role", JStr (userRole u)) ]
        ++ match userAvatar u with
           | Some a => [(js "avatar", JStr a)]
           | None => []
           end).

(** Whether [String(v)] throws.  It throws a TypeError on an object with an
    own [toString] property: no value of a parsed JSON body is callable, so
    [OrdinaryToPrimitive] skips that property, and the inherited [valueOf]
    returns the object itself.  On an array, [Array.prototype.join] converts
    every element that is not [null], so it throws when one of them does. *)
Fixpoint stringThrows (v : json) : bool :=
  match v with
  | JObj fields =>
      match lookup (js "toString") fields with
      | Some _ => true
      | None => false
      end
  | JArr items => existsb stringThrows items
  | _ => false
  end.

(** The [message] of that TypeError in Node. *)
Definition cannotConvert : string := "Cannot convert object to primitive value".

Section Routes.
Variable unicodeLower : jsstring -> jsstring.
Variable numberToString : float -> jsstring.

(** Whether [safeString(x)] throws; [None] is [undefined]. *)
Definition safeStringThrows (x : option json) : bool :=
  match x with
  | None | Some JNull => false
  | Some v => stringThrows v
  end.

(** The value of [safeString(x, max)] when it does not throw; [None] is
    [undefined]. *)
Definition safeString (x : option json) (max : nat) : jsstring :=
  let s := match x with
           | None | Some JNull => []
           | Some v => toJsString numberToString v
           end in
  if Nat.ltb max (List.length s) then slice0 max s else s.

(** Whether [safeString(body.k || d)] throws. *)
Definition textFieldThrows (k : string) (d : jsstring) (body : json) : bool :=
  safeStringThrows (Some (orElse (prop (js k) body) (JStr d))).

(** The value of [safeString(body.k || d).trim()]. *)
Definition textField (k : string) (d : jsstring) (body : json) : jsstring :=
  trim (safeString (Some (orElse (prop (js k) body) (JStr d))) 4000).

(** Whether [body.k != null ? safeString(body.k) : old] throws. *)
Definition patchedThrows (k : string) (body : json) : bool :=
  safeStringThrows (prop (js k) body).

(** The value of [body.k != null ? safeString(body.k) : old]. *)
Definition patched (k : string) (old : jsstring) (body : json) : jsstring :=
  match prop (js k) body with
  | None | Some JNull => old
  | Some v => safeString (Some v) 4000
  end.

(** [app.get('/api/banks')]. *)
Definition listBanks (st : bankStore) : response :=
  mkResponse 200
    (JObj [ (js "ok", JBool true);
            (js "banks", JArr (map bankJson (banks st)));
            (js "defaultBankId",
             match defaultBankId st with Some d => JStr d | None => JNull end) ]).

(** [app.post('/api/banks')], with [newId] the value of [newBankId()].  A
    throw while the three fields are read ends in the handler's [catch],
    which answers 400 with the error's message. *)
Definition postBank (newId : jsstring) (reqBody : option json) (st : bankStore)
  : bankStore * response :=
  let body := bodyOf reqBody in
  let name := textField "name" [] body in
  let type := textField "type" [] body in
  let state := textField "state" [] body in
  if (textFieldThrows "name" [] body || textFieldThrows "type" [] body
      || textFieldThrows "state" [] body)%bool
  then (st, failure 400 cannotConvert)
  else if isEmpty name then (st, failure 400 "name is required")
  else if isEmpty type then (st, failure 400 "type is required")
  else if isEmpty state then (st, failure 400 "state is required")
  else
    let b := mkBank newId name type state in
    (mkBankStore (b :: banks st) (defaultBankId st),
     mkResponse 201 (JObj [(js "ok", JBool true); (js "bank", bankJson b)])).

(** [app.put('/api/banks/:id')].  Once the bank is found, a throw while
    [updated] is built ends in the handler's [catch], which answers 500 before
    anything is assigned. *)
Definition putBank (id : jsstring) (reqBody : option json) (st : bankStore)
  : bankStore * response :=
  let body := bodyOf reqBody in
  let update (b : bank) : bank :=
    mkBank (bankId b) (patched "name" (bankName b) body)
      (patched "type" (bankType b) body) (patched "state" (bankState b) body) in
  match updateFirst id update (banks st) with
  | None => (st, failure 404 "Not found")
  | Some banks' =>
      if (patchedThrows "name" body || patchedThrows "type" body
          || patchedThrows "state" body)%bool
      then (st, failure 500 "Failed to update bank")
      else
        (mkBankStore banks' (defaultBankId st),
         mkResponse 200
           (JObj [ (js "ok", JBool true);
                   (js "bank",
                    match find (hasId id) (banks st) with
                    | Some b => bankJson (update b)
                    | None => JNull
                    end) ]))
  end.

(** [app.delete('/api/banks/:id')]. *)
Definition deleteBank (id : jsstring) (st : bankStore) : bankStore * response :=
  let banks' := filter (fun b => negb (hasId id b)) (banks st) in
  if Nat.eqb (List.length banks') (List.length (banks st)) then
    (st, failure 404 "Not found")
  else
    (mkBankStore banks'
       (match defaultBankId st with
        | Some d => if JsString.eqb d id then None else Some d
        | None => None
        end),
     mkResponse 200 (JObj [(js "ok", JBool true)])).

(** [app.post('/api/banks/:id/default')]. *)
Definition setDefaultBank (id : jsstring) (st : bankStore) : bankStore * response :=
  if existsb (hasId id) (banks st) then
    (mkBankStore (banks st) (Some id),
     mkResponse 200 (JObj [(js "ok", JBool true); (js "defaultBankId", JStr id)]))
  else (st, failure 404 "Not found").

(** A request to the banks API. *)
Inductive bankRequest : Type :=
| PostBank (newId : jsstring) (reqBody : option json)
| PutBank (id : jsstring) (reqBody : option json)
| DeleteBank (id : jsstring)
| SetDefaultBank (id : jsstring).

Definition serveBank (r : bankRequest) (st : bankStore) : bankStore * response :=
  match r with
  | PostBank newId reqBody => postBank newId reqBody st
  | PutBank id reqBody => putBank id reqBody st
  | DeleteBank id => deleteBank id st
  | SetDefaultBank id => setDefaultBank id st
  end.

(** The store after the requests were served one after the other. *)
Definition serveBanks (rs : list bankRequest) (st : bankStore) : bankStore :=
  fold_left (fun s r => fst (serveBank r s)) rs st.

(** [bankSeed], the store the server starts with. *)
Definition bankSeed : bankStore :=
  mkBankStore
    [ mkBank (js "b1") (js "State Bank of India") (js "Public") (js "Maharashtra");
      mkBank (js "b2") (js "HDFC Bank") (js "Private") (js "Maharashtra");
      mkBank (js "b3") (js "DBS Bank") (js "Foreign") (js "Maharashtra") ]
    None.

(** [u.email.toLowerCase() === email.toLowerCase()]. *)
Definition sameEmail (email : jsstring) (u : user) : bool :=
  JsString.eqb (toLowerCase unicodeLower (userEmail u)) (toLowerCase unicodeLower email).

(** [app.post('/api/users')], with [newId] the value of [newUserId()].  A
    throw while the four fields are read ends in the handler's [catch],
    which answers 400 with the error's message. *)
Definition postUser (newId : jsstring) (reqBody : option json) (users : list user)
  : list user * response :=
  let body := bodyOf reqBody in
  let name := textField "name" [] body in
  let email := textField "email" [] body in
  let role := textField "role" (js "Maker") body in
  let avatar := textField "avatar" [] body in
  if (textFieldThrows "name" [] body || textFieldThrows "email" [] body
      || textFieldThrows "role" (js "Maker") body
      || textFieldThrows "avatar" [] body)%bool
  then (users, failure 400 cannotConvert)
  else if isEmpty name then (users, failure 400 "name is required")
  else if isEmpty email then (users, failure 400 "email is required")
  else if existsb (sameEmail email) users then (users, failure 409 "email already exists")
  else
    let u := mkUser newId name email role (if isEmpty avatar then None else Some avatar) in
    (u :: users, mkResponse 201 (JObj [(js "ok", JBool true); (js "user", userJson u)])).

(** [app.delete('/api/users/:id')]. *)
Definition deleteUser (id : jsstring) (users : list user) : list user * response :=
  let users' := filter (fun u => negb (JsString.eqb (userId u) id)) users in
  if Nat.eqb (List.length users') (List.length users) then (users, failure 404 "Not found")
  else (users', mkResponse 200 (JObj [(js "ok", JBool true)])).

End Routes.

End Backoffice.

(** * Vocabulary of the properties *)

Import Client.

(** [w] occurs in [s]. *)
Definition Infix (w s : jsstring) : Prop := exists a b, s = a ++ w ++ b.

Fixpoint includes (w s : jsstring) : bool :=
  (startsWith w s || match s with [] => false | _ :: s' => includes w s' end)%bool.

Definition headOk (s : jsstring) : Prop :=
  match s with [] => True | c :: _ => isTrimmable c = false end.

(** [s] has no leading and no trailing blank. *)
Definition Tight (s : jsstring) : Prop := headOk s /\ trimEnd s = s.

(** Each part followed by the separator, as the page loops build
    [fullText]. *)
Definition suffixed (sep : jsstring) (parts : list jsstring) : jsstring :=
  List.concat (map (fun t => t ++ sep) parts).

Definition pageText (pg : pdfPage) : jsstring :=
  match textContent pg with
  | Some items => pageTextOf items
  | None => []
  end.

(** The page loads and its text layer can be read. *)
Definition readable (pg : pdfPage) : bool :=
  (getPageOk pg && match textContent pg with Some _ => true | None => false end)%bool.

(** The page is readable and its text layer yields at least 50 characters. *)
Definition nativePage (pg : pdfPage) : bool :=
  (readable pg && Nat.leb 50 (List.length (pageText pg)))%bool.

(** The page loads, renders to a canvas and is recognized without a throw. *)
Definition scannable (pg : pdfPage) : bool :=
  (getPageOk pg && canvasContext pg && renderOk pg
   && match recognized pg with Some _ => true | None => false end)%bool.

(** What [ocrCanvas] returns for the page. *)
Definition ocrOutput (pg : pdfPage) : jsstring :=
  match recognized pg with
  | Some text => trim text
  | None => []
  end.

(** Render at scale 2 then recognize, page after page from page [p]. *)
Definition ocrRun (p : nat) (pages : list pdfPage) : list event :=
  flat_map (fun i => [RenderPage i 2; OcrPage i]) (List.seq p (List.length pages)).

Definition nonEmpty (s : jsstring) : bool := negb (isEmpty s).

Definition pdfMime : jsstring := js "application/pdf".

(** The aggregate of the direct pass: the page texts joined by blank
    lines, trimmed. *)
Definition directText (pages : list pdfPage) : jsstring :=
  trim (join nl2 (map pageText pages)).

(** Per-page OCR outputs, in page order, separated by blank lines and
    trimmed. *)
Definition ocrJoined (outputs : list jsstring) : jsstring := trim (join nl2 outputs).

Definition stubMarkers : list jsstring :=
  [js "stub on error"; js "development stub"; js "dev stub"].

Definition stubMessage : jsstring :=
  js "AI returned stubbed content. Please ensure OPENAI_API_KEY is set on the server.".

(** The text [handleAnalyze] works on. *)
Definition contentToAnalyze (text : option jsstring) (st : uiState) : jsstring :=
  trim (match text with Some t => t | None => extracted st end).

(** The state [handleAnalyze] leaves when its [try] block throws [msg]. *)
Definition failedWith (msg : jsstring) (st : uiState) : uiState :=
  setAiLoading false
    (addNotification (mkNote (js "AI analysis failed") (JStr msg))
       (setError msg (setApplicable JNull (setAnalysisJson None st)))).

Section Backend.
Variable unicodeLower : jsstring -> jsstring.
Variable numberToString : float -> jsstring.
Variable circularIdMatch : jsstring -> option jsstring.

(** The page talking to the chat route of a backend. *)
Definition viaBackend (e : Server.env) (provider : nat -> Server.providerReply)
  : chatRequest -> fetchOutcome :=
  fun req =>
    let (_, r) := Server.chatHandler unicodeLower numberToString circularIdMatch e provider req in
    Fetched (status r) (Some (body r)).

End Backend.

(** The key is set and a client exists when the request is served. *)
Definition configured (e : Server.env) : bool :=
  (negb (isEmpty (Server.textOr (Server.OPENAI_API_KEY e) [])) && (Server.openai e || Server.lateInit e))%bool.

(** ** Sample inputs *)

(** Engine functions for runs whose text is ASCII and carries no number. *)
Definition sameCase (s : jsstring) : jsstring := s.
Definition noNumbers (x : float) : jsstring := js "0".
Definition noCircularId (s : jsstring) : option jsstring := None.
Definition offline (f : file) : fetchOutcome := FetchRejected rejected.

(** A native page whose text layer is [n] letters, and what OCR would read
    on it. *)
Definition textPage (n : nat) (scan : string) : pdfPage :=
  mkPage true (Some [mkItem (Some (repeat 97%N n)) None]) true true (Some (js scan)).

(** A scanned page: no text layer items. *)
Definition scannedPage (scan : string) : pdfPage :=
  mkPage true (Some []) true true (Some (js scan)).

Definition pdfOf (pages : list pdfPage) : file :=
  mkFile pdfMime (js "circular.pdf") true (Some pages).

Definition freshState : uiState := mkState [] false false [] [] None JNull [].

Definition resetFor (st : uiState) : uiState :=
  setApplicable JNull (setAnalysisJson None (setAiResult []
    (setError [] (setLoading true st)))).

Definition twoNativePages : list pdfPage := [textPage 60 "x"; textPage 70 "y"].

Definition threeScannedPages : list pdfPage :=
  [scannedPage "page one"; scannedPage " "; scannedPage "page three"].

(** Scanned pages with long OCR outputs around a blank page. *)
Definition longScannedPages : list pdfPage :=
  [ scannedPage "Reserve Bank of India circular to all scheduled commercial banks";
    scannedPage " ";
    scannedPage "Banks shall report compliance with these directions by 31 March" ].

(** A chat reply whose body is [{ message: { role, content } }]. *)
Definition replyWith (st : N) (content : jsstring) : chatRequest -> fetchOutcome :=
  fun _ =>
    Fetched st
      (Some (JObj [ (js "message",
                     JObj [ (js "role", JStr (js "assistant"));
                            (js "content", JStr content) ]) ])).

Definition analysisOf (applicable : bool) (summary : string) : json :=
  JObj [ (js "meta", JObj [ (js "bank_context", JObj [ (js "applicable", JBool applicable) ]) ]);
         (js "summary", JStr (js summary)) ].

(** A parser that knows one document. *)
Definition parseOnly (v : json) : jsstring -> option json :=
  fun s => if JsString.eqb s (stringify noNumbers v) then Some v else None.

Definition devEnv (stub : string) : Server.env :=
  Server.mkEnv (Some (js "sk-test")) (Some (js stub)) true false
    (js "2025-01-01T00:00:00.000Z") 1735689600000.

Definition tooManyRequests : Server.apiError :=
  Server.mkApiError (Some 429%N) Server.VUndefined (Some (js "Too Many Requests")) None.

Definition serverError : Server.apiError :=
  Server.mkApiError (Some 500%N) Server.VUndefined (Some (js "Internal error")) None.

Definition answer : Server.completion :=
  Server.mkCompletion
    [JObj [(js "role", JStr (js "assistant")); (js "content", JStr (js "{}"))]]
    None (js "chatcmpl-1").

Definition limitedOnce (n : nat) : Server.providerReply :=
  match n with
  | O => Server.Failed tooManyRequests
  | _ => Server.Completed answer
  end.

Definition alwaysDown (n : nat) : Server.providerReply := Server.Failed serverError.

(** An error recognized as a rate limit by its message alone. *)
Definition quotaExceeded : Server.apiError :=
  Server.mkApiError None Server.VUndefined
    (Some (js "You exceeded your current quota, please check your plan")) None.

Definition quotaOnce (n : nat) : Server.providerReply :=
  match n with
  | O => Server.Failed quotaExceeded
  | _ => Server.Completed answer
  end.

(** The page talking to the upload route of a backend that receives the
    file as [toUpload f]. *)
Definition viaUploadRoute (toUpload : file -> Server.upload) : file -> fetchOutcome :=
  fun f =>
    match Server.postUploadExtract (Some (toUpload f)) with
    | Some r => Fetched (status r) (Some (body r))
    | None => Fetched 404 None
    end.

(** Every rendering in the trace is at scale 2, and every recognition of
    a page comes directly after the rendering of that page. *)
Definition ocrBacked (t : list event) : Prop :=
  (forall p s, In (RenderPage p s) t -> s = 2%Z)
  /\ (forall before p after,
        t = before ++ OcrPage p :: after ->
        exists earlier, before = earlier ++ [RenderPage p 2]).

(** No page is recognized in the trace. *)
Definition noOcr (t : list event) : Prop := forall p, ~ In (OcrPage p) t.

(** How many pages from the first on are native. *)
Fixpoint leadingNative (pages : list pdfPage) : nat :=
  match pages with
  | [] => 0
  | pg :: rest => if nativePage pg then S (leadingNative rest) else 0
  end.

(** Words each of which one of the indicators spells out. *)
Definition circularKeywords : list jsstring :=
  [ js "circular"; js "reference no"; js "rbi"; js "sebi"; js "irdai"; js "pfrda";
    js "nbfc"; js "banking"; js "regulation"; js "compliance";
    js "all scheduled commercial banks"; js "all banks"; js "all nbfc";
    js "master circular"; js "master direction"; js "regulatory framework" ].

Definition isAsciiLetter (c : N) : bool :=
  ((N.leb 65 c && N.leb c 90) || (N.leb 97 c && N.leb c 122))%bool.

(** Every match of the pattern starts with an ASCII letter. *)
Fixpoint opensWithLetter (r : regex) : bool :=
  match r with
  | Never => true
  | Empty => false
  | Char (LitI p) => isAsciiLetter p
  | Char (Range lo hi) => (N.leb 65 lo && N.leb hi 90)%bool
  | Char _ => false
  | Seq r1 _ => opensWithLetter r1
  | Alt r1 r2 => (opensWithLetter r1 && opensWithLetter r2)%bool
  | Opt _ => false
  end.

(** The default bank, when there is one, is a bank of the store. *)
Definition defaultExists (st : Backoffice.bankStore) : Prop :=
  match Backoffice.defaultBankId st with
  | Some d => existsb (Backoffice.hasId d) (Backoffice.banks st) = true
  | None => True
  end.

(** A field as [POST /api/banks] stores it: not empty, without surrounding
    blanks, at most 4000 code units. *)
Definition storedField (x : jsstring) : Prop :=
  x <> [] /\ trim x = x /\ List.length x <= 4000.

(** The key under which [POST /api/users] compares e-mail addresses. *)
Definition emailKey (unicodeLower : jsstring -> jsstring) (u : Backoffice.user) : jsstring :=
  toLowerCase unicodeLower (Backoffice.userEmail u).

(** ** Further sample inputs *)

Definition emptyView : Intake.view :=
  Intake.mkView freshState (Intake.mkSelection None []).

Definition circularPage : pdfPage :=
  mkPage true
    (Some [mkItem (Some (js "Reserve Bank circular RBI/2025/12 addressed to all banks in India")) None])
    true true None.

Definition legacyDoc : file := mkFile (js "application/msword") (js "circular.doc") true None.

Definition emptyDocx : file := mkFile Server.docxMime (js "circular.docx") true None.

Definition untypedPdf : file := mkFile [] (js "scan.pdf") true None.

(** The backend receives the name and type the browser declares; mammoth
    finds no text. *)
Definition asUpload (f : file) : Server.upload :=
  Server.mkUpload (fileName f) (fileType f) None (Some []).

Definition noImages (f : file) : option jsstring := None.

Definition keylessEnv : Server.env :=
  Server.mkEnv None None false false (js "2025-01-01T00:00:00.000Z") 1735689600000.

Definition alwaysLimited (n : nat) : Server.providerReply := Server.Failed tooManyRequests.

Definition rejecting : chatRequest -> fetchOutcome :=
  fun _ => FetchRejected (mkError (js "Failed to fetch")).

Definition oneUser : list Backoffice.user :=
  [Backoffice.mkUser (js "u-1") (js "Nilesh Patil") (js "nilesh@patil.io") (js "Admin") None].

(** * Properties *)

Unset Implicit Arguments.

(** ** Facts about [trim], [join] and substrings *)

Section StringFacts.

Lemma startsWith_app w s : startsWith w s = true -> exists b, s = w ++ b.
Proof.
  revert s; induction w as [|c w IH]; intros s H.
  - exists s; reflexivity.
  - destruct s as [|d s]; simpl in H; [discriminate|].
    apply andb_true_iff in H as [Hc Hw].
    apply N.eqb_eq in Hc; subst d.
    destruct (IH _ Hw) as [b ->]. exists b; reflexivity.
Qed.

Lemma includes_Infix w s : includes w s = true -> Infix w s.
Proof.
  induction s as [|c s IH]; simpl; intros H.
  - rewrite orb_false_r in H. destruct (startsWith_app _ _ H) as [b Hb].
    exists [], b; exact Hb.
  - apply orb_true_iff in H as [H|H].
    + destruct (startsWith_app _ _ H) as [b Hb]. exists [], b; exact Hb.
    + destruct (IH H) as (a & b & ->). exists (c :: a), b; reflexivity.
Qed.

Lemma Infix_app_l w s x : Infix w s -> Infix w (x ++ s).
Proof. intros (a & b & ->). exists (x ++ a), b. now rewrite app_assoc. Qed.

Lemma Infix_app_r w s y : Infix w s -> Infix w (s ++ y).
Proof.
  intros (a & b & ->). exists a, (b ++ y). now rewrite <- !app_assoc.
Qed.

Lemma Infix_trans w m s : Infix w m -> Infix m s -> Infix w s.
Proof.
  intros Hw (a & b & ->). apply Infix_app_l, Infix_app_r, Hw.
Qed.

Lemma trimStart_headOk s : headOk (trimStart s).
Proof.
  induction s as [|c s IH]; simpl; [exact I|].
  destruct (isTrimmable c) eqn:E; [exact IH | exact E].
Qed.

Lemma trimStart_fixed s : headOk s -> trimStart s = s.
Proof. destruct s as [|c s]; simpl; intros H; [reflexivity | now rewrite H]. Qed.

Lemma trimEnd_cons c s : isTrimmable c = false -> trimEnd (c :: s) = c :: trimEnd s.
Proof. intros H; simpl. rewrite H. now destruct (trimEnd s). Qed.

Lemma trimEnd_idem s : trimEnd (trimEnd s) = trimEnd s.
Proof.
  induction s as [|c s IH]; simpl; [reflexivity|].
  destruct (trimEnd s) as [|d t] eqn:E.
  - destruct (isTrimmable c) eqn:Ec; simpl; [reflexivity | now rewrite Ec].
  - change (trimEnd (c :: d :: t)) with
      (match trimEnd (d :: t) with [] => if isTrimmable c then [] else [c] | u => c :: u end).
    now rewrite IH.
Qed.

Lemma trimEnd_headOk s : headOk s -> headOk (trimEnd s).
Proof.
  destruct s as [|c s]; simpl; intros H; [exact I|].
  rewrite H. now destruct (trimEnd s).
Qed.

Lemma trim_Tight s : Tight (trim s).
Proof.
  split; unfold trim.
  - apply trimEnd_headOk, trimStart_headOk.
  - apply trimEnd_idem.
Qed.

Lemma Tight_trim s : Tight s -> trim s = s.
Proof. intros [H1 H2]. unfold trim. now rewrite (trimStart_fixed _ H1). Qed.

Lemma trim_idem s : trim (trim s) = trim s.
Proof. apply Tight_trim, trim_Tight. Qed.

Lemma trimEnd_app_fixed x b : b <> [] -> trimEnd b = b -> trimEnd (x ++ b) = x ++ b.
Proof.
  intros Hb Hf. induction x as [|c x IH]; simpl; [exact Hf|].
  rewrite IH. destruct (x ++ b) eqn:E; [|reflexivity].
  apply app_eq_nil in E as [_ E]. contradiction.
Qed.

Lemma Tight_app a m b : Tight a -> a <> [] -> Tight b -> b <> [] -> Tight (a ++ m ++ b).
Proof.
  intros [Ha _] Hna [_ Hb] Hnb. split.
  - destruct a; [contradiction | exact Ha].
  - rewrite app_assoc. now apply trimEnd_app_fixed.
Qed.

Lemma trimEnd_blank ws : forallb isTrimmable ws = true -> trimEnd ws = [].
Proof.
  induction ws as [|c ws IH]; simpl; [reflexivity|].
  intros H. apply andb_true_iff in H as [Hc Hw]. now rewrite (IH Hw), Hc.
Qed.

Lemma trimEnd_app_blank s ws : forallb isTrimmable ws = true -> trimEnd (s ++ ws) = trimEnd s.
Proof.
  intros H. induction s as [|c s IH]; simpl.
  - now apply trimEnd_blank.
  - now rewrite IH.
Qed.

Lemma trimStart_blank ws : forallb isTrimmable ws = true -> trimStart ws = [].
Proof.
  induction ws as [|c ws IH]; simpl; [reflexivity|].
  intros H. apply andb_true_iff in H as [Hc Hw]. now rewrite Hc, IH.
Qed.

Lemma trimStart_app x y :
  trimStart (x ++ y) = if isEmpty (trimStart x) then trimStart y else trimStart x ++ y.
Proof.
  induction x as [|c x IH]; simpl.
  - now destruct (trimStart y).
  - destruct (isTrimmable c); [exact IH | reflexivity].
Qed.

(** Trailing blanks do not change [trim]. *)
Lemma trim_app_blank s ws : forallb isTrimmable ws = true -> trim (s ++ ws) = trim s.
Proof.
  intros H. unfold trim. rewrite trimStart_app.
  destruct (trimStart s) as [|c t] eqn:E; cbn [isEmpty].
  - now rewrite (trimStart_blank _ H).
  - now apply trimEnd_app_blank.
Qed.

(** A word with no blank at either end survives [trim]. *)
Lemma trimStart_keeps a c t : isTrimmable c = false ->
  exists a', trimStart (a ++ c :: t) = a' ++ c :: t.
Proof.
  intros H. induction a as [|x a IH]; simpl.
  - exists []. now rewrite H.
  - destruct (isTrimmable x); [exact IH | now exists (x :: a)].
Qed.

Lemma trimEnd_keeps t c b : isTrimmable c = false ->
  exists b', trimEnd (t ++ c :: b) = t ++ c :: b'.
Proof.
  intros H. induction t as [|x t [b' IH]].
  - exists (trimEnd b). now apply trimEnd_cons.
  - exists b'. simpl. rewrite IH.
    destruct (t ++ c :: b') eqn:E; [destruct t; discriminate | reflexivity].
Qed.

Lemma trim_keeps_infix w s :
  w <> [] -> isTrimmable (hd 0%N w) = false -> isTrimmable (last w 0%N) = false ->
  Infix w s -> Infix w (trim s).
Proof.
  intros Hn Hh Hl (a & b & ->).
  destruct (exists_last Hn) as (u & d & Hu).
  assert (Hd : isTrimmable d = false) by (now rewrite Hu, last_last in Hl).
  destruct w as [|c t]; [contradiction|]. simpl in Hh.
  destruct (@trimStart_keeps a c (t ++ b) Hh) as [a' Ha].
  unfold trim. change (a ++ (c :: t) ++ b) with (a ++ c :: t ++ b). rewrite Ha.
  change (a' ++ c :: t ++ b) with (a' ++ (c :: t) ++ b).
  rewrite Hu, <- app_assoc. simpl. rewrite app_assoc.
  destruct (@trimEnd_keeps (a' ++ u) d b Hd) as [b' Hb]. rewrite Hb.
  exists a', b'. now rewrite <- !app_assoc.
Qed.

End StringFacts.

Section JoinFacts.

Lemma join_cons sep p q rest : join sep (p :: q :: rest) = p ++ sep ++ join sep (q :: rest).
Proof. reflexivity. Qed.

Lemma suffixed_join sep parts : parts <> [] -> suffixed sep parts = join sep parts ++ sep.
Proof.
  induction parts as [|p rest IH]; [contradiction|]. intros _.
  destruct rest as [|q rest].
  - unfold suffixed; simpl. now rewrite app_nil_r.
  - rewrite join_cons. unfold suffixed in *. simpl map. simpl List.concat.
    change (List.concat (map (fun t => t ++ sep) (q :: rest)))
      with ((q ++ sep) ++ List.concat (map (fun t => t ++ sep) rest)).
    simpl in IH. rewrite IH by discriminate. now rewrite <- !app_assoc.
Qed.

Lemma trim_suffixed sep parts :
  forallb isTrimmable sep = true -> trim (suffixed sep parts) = trim (join sep parts).
Proof.
  intros H. destruct parts as [|p rest]; [reflexivity|].
  rewrite suffixed_join by discriminate. now apply trim_app_blank.
Qed.

Lemma suffixed_app sep xs ys : suffixed sep (xs ++ ys) = suffixed sep xs ++ suffixed sep ys.
Proof. unfold suffixed. now rewrite map_app, List.concat_app. Qed.

Lemma Tight_join sep parts :
  Forall (fun t => Tight t /\ t <> []) parts -> parts <> [] ->
  Tight (join sep parts) /\ join sep parts <> [].
Proof.
  induction 1 as [|p rest [Hp Hn] Hrest IH]; [contradiction|]. intros _.
  destruct rest as [|q rest]; [now split|].
  destruct IH as [IH1 IH2]; [discriminate|].
  rewrite join_cons. split.
  - now apply Tight_app.
  - destruct p; [contradiction | discriminate].
Qed.

Lemma join_trimmed sep parts :
  Forall (fun t => Tight t /\ t <> []) parts -> trim (join sep parts) = join sep parts.
Proof.
  intros H. destruct parts as [|p rest]; [reflexivity|].
  apply Tight_trim, Tight_join; [exact H | discriminate].
Qed.

End JoinFacts.

(** ** Facts about the pattern matcher *)

Section RegexFacts.

Lemma accepts_matchesPrefix w : forall r b,
  accepts r w = true -> matchesPrefix r (w ++ b) = true.
Proof.
  unfold accepts. induction w as [|c w IH]; intros r b H; simpl in *.
  - destruct b; simpl; now rewrite H.
  - rewrite (IH _ b H). apply orb_true_r.
Qed.

Lemma matchesPrefix_test r a s : matchesPrefix r s = true -> test r (a ++ s) = true.
Proof.
  intros H. induction a as [|x a IH]; simpl.
  - destruct s; simpl in *; now rewrite H.
  - rewrite IH. apply orb_true_r.
Qed.

(** A pattern that matches a word matches every string the word occurs in. *)
Lemma test_Infix r w s : accepts r w = true -> Infix w s -> test r s = true.
Proof.
  intros H (a & b & ->). now apply matchesPrefix_test, accepts_matchesPrefix.
Qed.

Lemma canonicalize_idem c : canonicalize (canonicalize c) = canonicalize c.
Proof.
  unfold canonicalize.
  destruct (N.leb 97 c && N.leb c 122)%bool eqn:E; [|now rewrite E].
  apply andb_true_iff in E as [E1 E2].
  apply N.leb_le in E1, E2.
  assert (H : (N.leb 97 (c - 32) && N.leb (c - 32) 122)%bool = false).
  { apply andb_false_iff. left. apply N.leb_gt. lia. }
  now rewrite H.
Qed.

Lemma canonicalize_trimmable c : isTrimmable (canonicalize c) = isTrimmable c.
Proof.
  unfold canonicalize.
  destruct (N.leb 97 c && N.leb c 122)%bool eqn:E; [|reflexivity].
  apply andb_true_iff in E as [E1 E2].
  apply N.leb_le in E1, E2.
  assert (Hc : isTrimmable c = false).
  { unfold isTrimmable, isWhiteSpace, isLineTerminator.
    repeat match goal with
           | |- context [N.eqb c ?k] =>
               replace (N.eqb c k) with false by (symmetry; apply N.eqb_neq; lia)
           end.
    replace (N.leb 0x2000 c) with false by (symmetry; apply N.leb_gt; lia).
    reflexivity. }
  rewrite Hc.
  unfold isTrimmable, isWhiteSpace, isLineTerminator.
  repeat match goal with
         | |- context [N.eqb (c - 32) ?k] =>
             replace (N.eqb (c - 32) k) with false by (symmetry; apply N.eqb_neq; lia)
         end.
  replace (N.leb 0x2000 (c - 32)) with false by (symmetry; apply N.leb_gt; lia).
  reflexivity.
Qed.

Lemma caseBlind_seq r1 r2 : caseBlind r1 = true -> caseBlind r2 = true ->
  caseBlind (seq r1 r2) = true.
Proof.
  intros H1 H2. destruct r1, r2; simpl in *; try reflexivity; try assumption;
    rewrite ?H1, ?H2; reflexivity.
Qed.

Lemma caseBlind_alt r1 r2 : caseBlind r1 = true -> caseBlind r2 = true ->
  caseBlind (alt r1 r2) = true.
Proof.
  intros H1 H2. destruct r1, r2; simpl in *; try reflexivity; try assumption;
    rewrite ?H1, ?H2; reflexivity.
Qed.

Lemma caseBlind_deriv c r : caseBlind r = true -> caseBlind (deriv c r) = true.
Proof.
  induction r as [| |k|r1 IH1 r2 IH2|r1 IH1 r2 IH2|r1 IH1]; simpl; intros H;
    try reflexivity.
  - now destruct (classMatches k c).
  - apply andb_true_iff in H as [H1 H2].
    destruct (nullable r1).
    + apply caseBlind_alt; [apply caseBlind_seq|]; auto.
    + apply caseBlind_seq; auto.
  - apply andb_true_iff in H as [H1 H2]. apply caseBlind_alt; auto.
  - auto.
Qed.

Lemma deriv_canonicalize c r : caseBlind r = true ->
  deriv (canonicalize c) r = deriv c r.
Proof.
  induction r as [| |k|r1 IH1 r2 IH2|r1 IH1 r2 IH2|r1 IH1]; simpl; intros H;
    try reflexivity.
  - destruct k; try discriminate. simpl. now rewrite canonicalize_idem.
  - apply andb_true_iff in H as [H1 H2]. now rewrite IH1, IH2.
  - apply andb_true_iff in H as [H1 H2]. now rewrite IH1, IH2.
  - auto.
Qed.

(** Under the [i] flag only the canonical form of the word matters. *)
Lemma accepts_canonical w : forall r, caseBlind r = true ->
  accepts r (map canonicalize w) = accepts r w.
Proof.
  unfold accepts. induction w as [|c w IH]; intros r H; simpl; [reflexivity|].
  rewrite deriv_canonicalize by exact H. apply IH, caseBlind_deriv, H.
Qed.

Lemma accepts_same_case r w w0 : caseBlind r = true ->
  map canonicalize w = map canonicalize w0 -> accepts r w0 = true -> accepts r w = true.
Proof.
  intros Hr Hw H0. rewrite <- (@accepts_canonical w r Hr), Hw, (@accepts_canonical w0 r Hr).
  exact H0.
Qed.

Lemma matchesPrefix_Never s : matchesPrefix Never s = false.
Proof. induction s as [|c s IH]; simpl; [reflexivity | exact IH]. Qed.

End RegexFacts.

(** ** Facts about the page loops *)


Section ExtractionFacts.

Lemma bind_ok A B (m : IO A) (k : A -> IO B) t a t' r :
  m = (t, Ok a) -> k a = (t', r) -> bind m k = (t ++ t', r).
Proof. intros -> Hk. simpl. now rewrite Hk. Qed.

Lemma directPass_native pages : forall p acc,
  forallb nativePage pages = true ->
  directPass p pages acc =
    (map TextLayer (List.seq p (List.length pages)),
     Ok (false, acc ++ suffixed nl2 (map pageText pages))).
Proof.
  induction pages as [|pg rest IH]; intros p acc H; simpl.
  - unfold ret, suffixed. simpl. now rewrite app_nil_r.
  - apply andb_true_iff in H as [Hpg Hrest].
    unfold nativePage, readable, pageText in Hpg.
    apply andb_true_iff in Hpg as [Hr Hlen].
    apply andb_true_iff in Hr as [Hg Ht].
    unfold getPage, getTextContent. rewrite Hg.
    destruct (textContent pg) as [items|] eqn:Et; [|discriminate].
    simpl. apply Nat.leb_le in Hlen.
    destruct (Nat.ltb_spec (List.length (pageTextOf items)) 50) as [Hlt|_]; [lia|].
    rewrite (IH (S p) _ Hrest). unfold suffixed, pageText. simpl. rewrite Et.
    now rewrite <- !app_assoc.
Qed.

Lemma ocrPass_scannable pages : forall p acc,
  forallb scannable pages = true ->
  ocrPass true p pages acc =
    (ocrRun p pages, Ok (acc ++ suffixed nl2 (map ocrOutput pages))).
Proof.
  induction pages as [|pg rest IH]; intros p acc H; simpl.
  - unfold ret, suffixed. simpl. now rewrite app_nil_r.
  - apply andb_true_iff in H as [Hpg Hrest].
    unfold scannable in Hpg.
    apply andb_true_iff in Hpg as [Hpg Hrec].
    apply andb_true_iff in Hpg as [Hpg Hren].
    apply andb_true_iff in Hpg as [Hg Hctx].
    unfold getPage, render, ocrCanvas. rewrite Hg, Hctx, Hren.
    destruct (recognized pg) as [text|] eqn:Er; [|discriminate].
    simpl. rewrite (IH (S p) _ Hrest). unfold ocrRun, suffixed, ocrOutput. simpl.
    rewrite Er. now rewrite <- !app_assoc.
Qed.

Lemma ocrParts_scannable pages : forall p parts,
  forallb scannable pages = true ->
  ocrParts true p pages parts =
    (ocrRun p pages, Ok (parts ++ filter nonEmpty (map ocrOutput pages))).
Proof.
  induction pages as [|pg rest IH]; intros p parts H; simpl.
  - unfold ret. now rewrite app_nil_r.
  - apply andb_true_iff in H as [Hpg Hrest].
    unfold scannable in Hpg.
    apply andb_true_iff in Hpg as [Hpg Hrec].
    apply andb_true_iff in Hpg as [Hpg Hren].
    apply andb_true_iff in Hpg as [Hg Hctx].
    unfold getPage, render, ocrCanvas. rewrite Hg, Hctx, Hren.
    destruct (recognized pg) as [text|] eqn:Er; [|discriminate].
    simpl. rewrite (IH (S p) _ Hrest). unfold ocrRun, ocrOutput, nonEmpty. simpl.
    rewrite Er. destruct (isEmpty (trim text)); simpl.
    + reflexivity.
    + now rewrite <- app_assoc.
Qed.

Lemma directPass_first_short pages : forall p acc,
  forallb readable pages = true ->
  directPass p pages acc =
    (map TextLayer (List.seq p (Nat.min (List.length pages) (S (leadingNative pages)))),
     Ok (negb (forallb nativePage pages),
         acc ++ suffixed nl2 (map pageText (firstn (leadingNative pages) pages)))).
Proof.
  induction pages as [|pg rest IH]; intros p acc H; cbn [directPass].
  - cbn. unfold ret, suffixed. cbn. now rewrite app_nil_r.
  - apply andb_true_iff in H as [Hpg Hrest].
    pose proof Hpg as Hr. unfold readable in Hpg.
    apply andb_true_iff in Hpg as [Hg Ht].
    unfold getPage, getTextContent. rewrite Hg.
    destruct (textContent pg) as [items|] eqn:Et; [|discriminate].
    cbn [bind ret emit app].
    assert (Hn : nativePage pg = negb (Nat.ltb (List.length (pageTextOf items)) 50)).
    { unfold nativePage, pageText. rewrite Hr, Et. cbn [andb].
      destruct (Nat.leb_spec 50 (List.length (pageTextOf items)));
        destruct (Nat.ltb_spec (List.length (pageTextOf items)) 50); try lia; reflexivity. }
    cbn [forallb leadingNative]. rewrite Hn.
    destruct (Nat.ltb (List.length (pageTextOf items)) 50); cbn [negb andb].
    + replace (Nat.min (List.length (pg :: rest)) 1) with 1 by (cbn [List.length]; lia).
      cbn. unfold suffixed. cbn. now rewrite app_nil_r.
    + rewrite (IH (S p) _ Hrest). cbn [List.length firstn map].
      unfold suffixed, pageText at 2. cbn [map List.concat]. rewrite Et.
      rewrite <- !app_assoc.
      replace (Nat.min (S (List.length rest)) (S (S (leadingNative rest))))
        with (S (Nat.min (List.length rest) (S (leadingNative rest)))) by lia.
      reflexivity.
Qed.

Lemma leadingNative_all pages :
  forallb nativePage pages = true -> leadingNative pages = List.length pages.
Proof.
  induction pages as [|pg rest IH]; [reflexivity|]. cbn [forallb leadingNative List.length].
  intros H. apply andb_true_iff in H as [Hpg Hrest]. rewrite Hpg. now rewrite IH.
Qed.

Lemma filter_all A (g : A -> bool) l : forallb g l = true -> filter g l = l.
Proof.
  induction l as [|a l IH]; [reflexivity|]. cbn [forallb filter].
  intros H. apply andb_true_iff in H as [Ha Hl]. rewrite Ha. now rewrite IH.
Qed.

End ExtractionFacts.

(** ** Text extraction (C1, C2, C10) *)

Section ExtractionProperties.
Variable unicodeLower : jsstring -> jsstring.
Variable numberToString : float -> jsstring.
Variable fetchUploadExtract : file -> fetchOutcome.

Lemma nl2_blank : forallb isTrimmable nl2 = true.
Proof. reflexivity. Qed.

Lemma pageText_Tight pg : Tight (pageText pg).
Proof.
  unfold pageText. destruct (textContent pg); [apply trim_Tight | now split].
Qed.

Lemma native_parts pages : forallb nativePage pages = true ->
  Forall (fun t => Tight t /\ t <> []) (map pageText pages).
Proof.
  induction pages as [|pg rest IH]; simpl; intros H; constructor.
  - apply andb_true_iff in H as [H _]. unfold nativePage in H.
    apply andb_true_iff in H as [_ H]. apply Nat.leb_le in H.
    split; [apply pageText_Tight|]. intros E. rewrite E in H. simpl in H. lia.
  - apply andb_true_iff in H as [_ H]. now apply IH.
Qed.

(** On a document of native pages [extractPdfText] reads every text layer,
    asks for no rendering and no recognition, and returns the page texts
    joined by blank lines. *)
Lemma extractPdfText_native Tesseract f pages :
  document f = Some pages -> pages <> [] -> forallb nativePage pages = true ->
  extractPdfText Tesseract f =
    (map TextLayer (List.seq 1 (List.length pages)), Ok (join nl2 (map pageText pages))).
Proof.
  intros Hdoc Hne Hnat. unfold extractPdfText, getDocument. rewrite Hdoc.
  cbn [bind ret app]. rewrite (directPass_native pages 1 [] Hnat). cbn [bind app negb andb].
  rewrite (trim_suffixed nl2 _ nl2_blank), (join_trimmed nl2 _ (native_parts _ Hnat)).
  destruct (Tight_join nl2 _ (native_parts _ Hnat)) as [_ Hj].
  { destruct pages; [contradiction | discriminate]. }
  destruct (join nl2 (map pageText pages)) as [|c t] eqn:E; [contradiction|].
  cbn. now rewrite app_nil_r.
Qed.

(** C1, amended: when every page's text layer yields at least 50 characters
    and the page texts joined by blank lines have at least 100 characters,
    [processFile] asks only for the text layers, page after page (no page is
    rendered or recognized, neither by the scanned fallback of
    [extractPdfText] nor by [extractTextFromPdfViaOCR]), and the extracted
    text is the page texts in page order, joined by blank lines. *)
Theorem C1_native_pdf_no_ocr Tesseract f st pages :
  isWordFile unicodeLower f = false ->
  fileType f = pdfMime ->
  arrayBufferOk f = true ->
  document f = Some pages ->
  forallb nativePage pages = true ->
  100 <= List.length (join nl2 (map pageText pages)) ->
  processFile Tesseract unicodeLower numberToString fetchUploadExtract f st =
    (setLoading false
       (setExtracted (join nl2 (map pageText pages))
          (setApplicable JNull (setAnalysisJson None (setAiResult []
             (setError [] (setLoading true st)))))),
     map TextLayer (List.seq 1 (List.length pages))).
Proof.
  intros Hword Htype Hbuf Hdoc Hnat Hlen.
  assert (Hne : pages <> []).
  { intros ->. simpl in Hlen. lia. }
  unfold processFile, extractFor. rewrite Hword, Htype.
  change (JsString.eqb pdfMime (js "application/pdf")) with true. cbv iota.
  unfold arrayBuffer. rewrite Hbuf.
  rewrite (extractPdfText_native Tesseract f pages Hdoc Hne Hnat).
  cbn [bind ret app].
  rewrite (Tight_trim _ (proj1 (Tight_join nl2 _ (native_parts _ Hnat) ltac:(destruct pages; [contradiction | discriminate])))).
  destruct (Nat.ltb_spec (List.length (join nl2 (map pageText pages))) 100) as [Hlt|_];
    [lia|].
  cbn. now rewrite app_nil_r.
Qed.

Lemma ocrHelper_scannable f pages :
  arrayBufferOk f = true -> document f = Some pages ->
  forallb scannable pages = true ->
  extractTextFromPdfViaOCR true f =
    (ocrRun 1 pages, Ok (ocrJoined (filter nonEmpty (map ocrOutput pages)))).
Proof.
  intros Hbuf Hdoc Hscan.
  unfold extractTextFromPdfViaOCR, ocrAllPages, arrayBuffer, getDocument.
  rewrite Hbuf, Hdoc. cbn [bind ret app].
  rewrite (ocrParts_scannable pages 1 [] Hscan). cbn. now rewrite app_nil_r.
Qed.

Lemma extractPdfText_scanned f pages :
  document f = Some pages ->
  forallb readable pages = true -> forallb scannable pages = true ->
  forallb nativePage pages = false ->
  extractPdfText true f =
    (map TextLayer (List.seq 1 (Nat.min (List.length pages) (S (leadingNative pages))))
       ++ ocrRun 1 pages,
     Ok (ocrJoined (map ocrOutput pages))).
Proof.
  intros Hdoc Hread Hscan Hnat.
  unfold extractPdfText, getDocument. rewrite Hdoc.
  cbn [bind ret app]. rewrite (directPass_first_short pages 1 [] Hread), Hnat.
  cbn [bind app negb andb].
  rewrite (ocrPass_scannable pages 1 [] Hscan). cbn [bind ret app].
  rewrite (trim_suffixed nl2 _ nl2_blank). cbn. now rewrite !app_nil_r.
Qed.

(** C2, amended: when the direct text of the whole document has fewer
    than 100 characters (and pdf.js and the OCR engine answer every request),
    [processFile] renders every page at scale 2 and recognizes it, page after
    page in page order: once through [extractTextFromPdfViaOCR] when every
    page is native, otherwise once through the scanned pass of
    [extractPdfText] and a second time through [extractTextFromPdfViaOCR] when
    that pass stayed under 100 characters.  The extracted text is the per-page
    OCR outputs in page order, joined by blank lines and trimmed, where the
    empty outputs are left out whenever the text comes from
    [extractTextFromPdfViaOCR] and kept when it comes from [extractPdfText];
    so when no output is empty it is the join of all the outputs. *)
Theorem C2_short_pdf_ocr_every_page f st pages :
  isWordFile unicodeLower f = false ->
  fileType f = pdfMime ->
  arrayBufferOk f = true ->
  document f = Some pages ->
  forallb readable pages = true ->
  forallb scannable pages = true ->
  List.length (directText pages) < 100 ->
  let outputs := map ocrOutput pages in
  let native := forallb nativePage pages in
  let short := Nat.ltb (List.length (ocrJoined outputs)) 100 in
  let run := processFile true unicodeLower numberToString fetchUploadExtract f st in
  run =
    (setLoading false
       (setExtracted
          (if (native || short)%bool then ocrJoined (filter nonEmpty outputs)
           else ocrJoined outputs)
          (setApplicable JNull (setAnalysisJson None (setAiResult []
             (setError [] (setLoading true st)))))),
     map TextLayer (List.seq 1 (Nat.min (List.length pages) (S (leadingNative pages))))
       ++ ocrRun 1 pages
       ++ (if (negb native && short)%bool then ocrRun 1 pages else []))
  /\ (forallb nonEmpty outputs = true -> extracted (fst run) = ocrJoined outputs).
Proof.
  intros Hword Htype Hbuf Hdoc Hread Hscan Hshort outputs native short run.
  assert (H : run =
    (setLoading false
       (setExtracted
          (if (native || short)%bool then ocrJoined (filter nonEmpty outputs)
           else ocrJoined outputs)
          (setApplicable JNull (setAnalysisJson None (setAiResult []
             (setError [] (setLoading true st)))))),
     map TextLayer (List.seq 1 (Nat.min (List.length pages) (S (leadingNative pages))))
       ++ ocrRun 1 pages
       ++ (if (negb native && short)%bool then ocrRun 1 pages else []))).
  { subst run. unfold processFile, extractFor. rewrite Hword, Htype.
    change (JsString.eqb pdfMime (js "application/pdf")) with true. cbv iota.
    unfold arrayBuffer. rewrite Hbuf.
    pose proof (ocrHelper_scannable f pages Hbuf Hdoc Hscan) as Hhelper.
    fold outputs in Hhelper.
    destruct (forallb nativePage pages) eqn:Hnat; subst native; cbn [orb negb andb].
    - rewrite (leadingNative_all pages Hnat).
      replace (Nat.min (List.length pages) (S (List.length pages)))
        with (List.length pages) by lia.
      destruct (list_eq_dec N.eq_dec (directText pages) []) as [Hempty|Hfull].
      + assert (Hnil : pages = []).
        { destruct pages as [|pg rest]; [reflexivity|]. exfalso.
          pose proof (native_parts _ Hnat) as Hparts.
          destruct (Tight_join nl2 _ Hparts ltac:(discriminate)) as [Ht Hj].
          unfold directText in Hempty. rewrite (Tight_trim _ Ht) in Hempty.
          exact (Hj Hempty). }
        subst pages. unfold extractPdfText, getDocument. rewrite Hdoc.
        cbn [bind ret app directPass ocrPass]. cbn.
        rewrite Hhelper. reflexivity.
      + assert (Hne : pages <> []) by (intros ->; apply Hfull; reflexivity).
        rewrite (extractPdfText_native true f pages Hdoc Hne Hnat).
        cbn [bind ret app]. fold (directText pages).
        destruct (Nat.ltb_spec (List.length (directText pages)) 100) as [_|Hge]; [|lia].
        rewrite Hhelper. now rewrite app_nil_r.
    - rewrite (extractPdfText_scanned f pages Hdoc Hread Hscan Hnat).
      cbn [bind ret app]. fold outputs.
      unfold ocrJoined at 1. rewrite trim_idem. fold (ocrJoined outputs). fold short.
      destruct short.
      + rewrite Hhelper. now rewrite <- app_assoc.
      + cbn. now rewrite !app_nil_r. }
  split; [exact H|].
  intros Hall. rewrite H. cbn [fst extracted setLoading setExtracted].
  rewrite (filter_all _ _ _ Hall). now destruct (native || short)%bool.
Qed.

(** C10: [extractTextFromPdfViaOCR] never throws: it returns a string for
    every file, and the empty string whenever loading, rendering or
    recognition throws inside it; so when [extractPdfText] returned fewer than
    100 characters and the helper fails, [processFile] stores the empty text
    and sets no error. *)
Theorem C10_ocr_helper_swallows_errors Tesseract f st :
  (exists trace text,
     extractTextFromPdfViaOCR Tesseract f = (trace, Ok text)
     /\ (forall e, snd (ocrAllPages Tesseract f) = Err e -> text = []))
  /\ (forall trace text e,
        isWordFile unicodeLower f = false ->
        fileType f = pdfMime ->
        arrayBufferOk f = true ->
        extractPdfText Tesseract f = (trace, Ok text) ->
        List.length (trim text) < 100 ->
        snd (ocrAllPages Tesseract f) = Err e ->
        let st' :=
          fst (processFile Tesseract unicodeLower numberToString fetchUploadExtract f st) in
        extracted st' = [] /\ error st' = []).
Proof.
  split.
  - unfold extractTextFromPdfViaOCR.
    destruct (ocrAllPages Tesseract f) as [t [text|e]]; cbn.
    + exists t, text. split; [reflexivity | discriminate].
    + exists (t ++ []), []. split; reflexivity.
  - intros trace text e Hword Htype Hbuf Hx Hlen Hocr.
    unfold processFile, extractFor. rewrite Hword, Htype.
    change (JsString.eqb pdfMime (js "application/pdf")) with true. cbv iota.
    unfold arrayBuffer. rewrite Hbuf, Hx. cbn [bind ret app].
    destruct (Nat.ltb_spec (List.length (trim text)) 100) as [_|Hge]; [|lia].
    unfold extractTextFromPdfViaOCR.
    destruct (ocrAllPages Tesseract f) as [t [text'|e']]; [discriminate|].
    cbn. split; reflexivity.
Qed.

End ExtractionProperties.

(** ** Analysis client (C4, C8, C9) *)

Section AnalysisProperties.
Variable Tesseract : bool.
Variable unicodeLower : jsstring -> jsstring.
Variable numberToString : float -> jsstring.
Variable JSON_parse : jsstring -> option json.
Variable fetchChat : chatRequest -> fetchOutcome.
Variable fetchUploadExtract : file -> fetchOutcome.

Lemma canonical_ends w : forall w0,
  map canonicalize w = map canonicalize w0 ->
  isTrimmable (hd 0%N w) = isTrimmable (hd 0%N w0)
  /\ isTrimmable (last w 0%N) = isTrimmable (last w0 0%N)
  /\ (w0 <> [] -> w <> []).
Proof.
  induction w as [|c w IH]; intros [|c0 w0] H; try discriminate.
  - repeat split; auto.
  - simpl in H. injection H as Hc Hw. destruct (IH w0 Hw) as (_ & Hl & Hn).
    split; [|split; [|discriminate]].
    + simpl. now rewrite <- (canonicalize_trimmable c), Hc, canonicalize_trimmable.
    + destruct w as [|d w]; destruct w0 as [|d0 w0]; try discriminate.
      * simpl. now rewrite <- (canonicalize_trimmable c), Hc, canonicalize_trimmable.
      * exact Hl.
Qed.

(** Content in which a stub marker occurs, in any letter case, matches the
    stub pattern after [trim]. *)
Lemma stub_marker_detected content marker w :
  In marker stubMarkers ->
  map canonicalize w = map canonicalize marker ->
  Infix w content ->
  test stubPattern (trim content) = true /\ content <> [].
Proof.
  intros Hin Hw Hinf.
  assert (Hacc : accepts stubPattern marker = true
                 /\ marker <> []
                 /\ isTrimmable (hd 0%N marker) = false
                 /\ isTrimmable (last marker 0%N) = false).
  { destruct Hin as [<-|[<-|[<-|[]]]]; (split; [vm_compute; reflexivity|]);
      (split; [discriminate|]); split; vm_compute; reflexivity. }
  destruct Hacc as (Hacc & Hne & Hh & Hl).
  destruct (canonical_ends w marker Hw) as (Hh' & Hl' & Hne').
  split.
  - apply (test_Infix _ w).
    + apply (accepts_same_case stubPattern w marker); [reflexivity | exact Hw | exact Hacc].
    + apply trim_keeps_infix; [auto | congruence | congruence | exact Hinf].
  - intros ->. destruct Hinf as (a & b & E).
    destruct a; [|discriminate]. destruct w; [now apply Hne' | discriminate].
Qed.

Lemma isOk_not_429 status : isOk status = true -> N.eqb status 429 = false.
Proof.
  unfold isOk. intros H. apply andb_true_iff in H as [_ H]. apply N.leb_le in H.
  apply N.eqb_neq. lia.
Qed.

(** What the [try] block reads as [content] from a body whose
    [message.content] is the string [content]. *)
Lemma analyzeBody_content text st status data m content :
  contentToAnalyze text st <> [] ->
  fetchChat (analysisPayload (contentToAnalyze text st)) = Fetched status (Some data) ->
  isOk status = true ->
  prop (js "message") data = Some m ->
  prop (js "content") m = Some (JStr content) ->
  analyzeBody numberToString JSON_parse fetchChat text st =
    let st1 := setAiLoading true (setAiResult [] (setError [] st)) in
    let trimmed := trim content in
    if test stubPattern trimmed then (st1, Err (mkError stubMessage))
    else
      let parsed := parseJsonStrict JSON_parse trimmed in
      if truthy parsed then
        (setApplicable
           (nullish (optProp (js "applicable")
                       (optProp (js "bank_context")
                          (optProp (js "meta") (Some parsed)))) JNull)
           (setAnalysisJson (Some parsed) st1),
         Ok (orElse (prop (js "summary") parsed) (JStr (js "Analysis complete"))))
      else
        (setAiResult trimmed (setAnalysisJson None st1),
         Ok (JStr (if isEmpty trimmed then js "Analysis complete (unstructured)"
                   else trimmed))).
Proof.
  intros Hne Hfetch Hok Hm Hc. unfold analyzeBody. fold (contentToAnalyze text st).
  destruct (contentToAnalyze text st) as [|c0 t0] eqn:E; [contradiction|].
  cbn [isEmpty]. rewrite Hfetch, (isOk_not_429 _ Hok), Hok. cbn [negb bodyOrEmpty].
  destruct data as [| | | | |fields]; try discriminate.
  cbn [optProp]. rewrite Hm.
  destruct m as [| | | | |mfields]; try discriminate.
  cbn [truthy]. rewrite Hc. cbn [truthy toJsString].
  destruct content as [|c1 t1]; reflexivity.
Qed.

(** Every throwing path of the [try] block starts after the raw result was
    cleared. *)
Lemma analyzeBody_throws text st st1 err :
  analyzeBody numberToString JSON_parse fetchChat text st = (st1, Err err) ->
  aiResult st1 = [] /\ analysisJson st1 = analysisJson st
  /\ extracted st1 = extracted st.
Proof.
  unfold analyzeBody.
  destruct (isEmpty _); [discriminate|].
  destruct (fetchChat _) as [e|status body].
  - intros H; injection H as <- _. cbn. auto.
  - destruct (N.eqb status 429).
    + intros H; injection H as <- _. cbn. auto.
    + destruct (negb (isOk status)).
      * intros H; injection H as <- _. cbn. auto.
      * destruct (test stubPattern _).
        -- intros H; injection H as <- _. cbn. auto.
        -- destruct (truthy _); discriminate.
Qed.

(** The failures of an analysis run: the request rejects, the status is
    429, or the status is another failure; each makes the [try] block throw. *)
Lemma analyzeBody_failures text st :
  contentToAnalyze text st <> [] ->
  match fetchChat (analysisPayload (contentToAnalyze text st)) with
  | FetchRejected e =>
      exists st1, analyzeBody numberToString JSON_parse fetchChat text st = (st1, Err e)
  | Fetched status body =>
      status = 429%N \/ isOk status = false ->
      exists st1 err,
        analyzeBody numberToString JSON_parse fetchChat text st = (st1, Err err)
  end.
Proof.
  intros Hne. unfold analyzeBody. fold (contentToAnalyze text st).
  destruct (contentToAnalyze text st) as [|c0 t0] eqn:E; [contradiction|].
  cbn [isEmpty].
  destruct (fetchChat _) as [e|status body]; [eexists; reflexivity|].
  intros [->|Hbad].
  - cbn [N.eqb Pos.eqb]. eexists; eexists; reflexivity.
  - destruct (N.eqb status 429); [eexists; eexists; reflexivity|].
    rewrite Hbad. cbn [negb]. eexists; eexists; reflexivity.
Qed.

(** What [handleAnalyze] does when its [try] block throws. *)
Lemma handleAnalyze_throws text st st1 err :
  analyzeBody numberToString JSON_parse fetchChat text st = (st1, Err err) ->
  handleAnalyze numberToString JSON_parse fetchChat text st =
    (failedWith (if isEmpty (message err) then js "Failed to analyze document"
                 else message err) st1,
     JStr (js "Analysis failed")).
Proof. intros H. unfold handleAnalyze. now rewrite H. Qed.

(** C4: an analysis response whose message content contains a stub marker
    ("stub on error", "development stub" or "dev stub") in any letter case
    makes [handleAnalyze] fail: it returns "Analysis failed" with a non-empty
    error message, the structured result and the applicability null and the
    raw result empty; and when the response is a successful one the error is
    the stub-content error, whose message tells the operator to set the
    server key. *)
Theorem C4_stub_content_rejected text st status data m content marker w :
  contentToAnalyze text st <> [] ->
  fetchChat (analysisPayload (contentToAnalyze text st)) = Fetched status (Some data) ->
  prop (js "message") data = Some m ->
  prop (js "content") m = Some (JStr content) ->
  In marker stubMarkers ->
  map canonicalize w = map canonicalize marker ->
  Infix w content ->
  let run := handleAnalyze numberToString JSON_parse fetchChat text st in
  snd run = JStr (js "Analysis failed")
  /\ error (fst run) <> [] /\ analysisJson (fst run) = None
  /\ applicable (fst run) = JNull /\ aiResult (fst run) = []
  /\ (isOk status = true ->
      run = (failedWith stubMessage
               (setAiLoading true (setAiResult [] (setError [] st))),
             JStr (js "Analysis failed"))
      /\ error (fst run) = stubMessage).
Proof.
  intros Hne Hfetch Hm Hc Hin Hw Hinf run. subst run.
  destruct (stub_marker_detected content marker w Hin Hw Hinf) as [Htest _].
  assert (Hok : isOk status = true ->
                analyzeBody numberToString JSON_parse fetchChat text st =
                  (setAiLoading true (setAiResult [] (setError [] st)),
                   Err (mkError stubMessage))).
  { intros Hok.
    rewrite (analyzeBody_content text st status data m content Hne Hfetch Hok Hm Hc).
    cbv zeta. now rewrite Htest. }
  assert (Hthrow : exists st1 err,
            analyzeBody numberToString JSON_parse fetchChat text st = (st1, Err err)).
  { destruct (isOk status) eqn:E.
    - eexists; eexists; exact (Hok eq_refl).
    - generalize (analyzeBody_failures text st Hne). rewrite Hfetch.
      intros H. apply H. now right. }
  destruct Hthrow as (st1 & err & Hbody).
  destruct (analyzeBody_throws text st st1 err Hbody) as (Hai & _ & _).
  rewrite (handleAnalyze_throws text st st1 err Hbody). cbn.
  repeat split; auto.
  - destruct (message err); cbn; discriminate.
  - rewrite (Hok H) in Hbody. injection Hbody as <- <-. reflexivity.
  - rewrite (Hok H) in Hbody. injection Hbody as <- <-. reflexivity.
Qed.

(** C8, amended: a successful analysis response whose content does not match
    the stub pattern and parses as JSON with [meta.bank_context.applicable]
    equal to [false] leaves the applicability state exactly [false], with the
    parsed value as the structured result. *)
Theorem C8_applicable_false_kept text st status data m content parsed :
  contentToAnalyze text st <> [] ->
  fetchChat (analysisPayload (contentToAnalyze text st)) = Fetched status (Some data) ->
  isOk status = true ->
  prop (js "message") data = Some m ->
  prop (js "content") m = Some (JStr content) ->
  test stubPattern (trim content) = false ->
  JSON_parse (trim content) = Some parsed ->
  optProp (js "applicable")
    (optProp (js "bank_context") (optProp (js "meta") (Some parsed))) = Some (JBool false) ->
  let st' := fst (handleAnalyze numberToString JSON_parse fetchChat text st) in
  applicable st' = JBool false /\ analysisJson st' = Some parsed /\ error st' = [].
Proof.
  intros Hne Hfetch Hok Hm Hc Hstub Hparse Happ.
  unfold handleAnalyze.
  rewrite (analyzeBody_content text st status data m content Hne Hfetch Hok Hm Hc).
  cbv zeta. rewrite Hstub. unfold parseJsonStrict. rewrite Hparse.
  destruct parsed as [| | | | |fields]; try discriminate.
  cbn [truthy]. rewrite Happ. cbn. auto.
Qed.

(** C9, amended: whenever the [try] block of [handleAnalyze] throws (the
    request rejects, the status is 429 or another failure, stub content), the
    call ends with the structured result null, the applicability null, the raw
    result empty, one non-empty error message (also pushed as a
    notification) and the value "Analysis failed"; and whenever extraction
    throws in [processFile], the state ends with the fixed error message and
    the analysis outputs reset, but the extracted text is not reset: nothing
    of the failed extraction is stored and the text extracted before stays,
    so it is empty only if it was, as after [clearInputAndState]. *)
Theorem C9_errors_reset_state :
  (forall text st st1 err,
     analyzeBody numberToString JSON_parse fetchChat text st = (st1, Err err) ->
     let msg := if isEmpty (message err) then js "Failed to analyze document"
                else message err in
     let st' := fst (handleAnalyze numberToString JSON_parse fetchChat text st) in
     handleAnalyze numberToString JSON_parse fetchChat text st
       = (failedWith msg st1, JStr (js "Analysis failed"))
     /\ analysisJson st' = None /\ applicable st' = JNull /\ aiResult st' = []
     /\ error st' = msg /\ msg <> [] /\ aiLoading st' = false
     /\ extracted st' = extracted st)
  /\ (forall f st trace e,
        extractFor Tesseract unicodeLower numberToString fetchUploadExtract f = (trace, Err e) ->
        let st' :=
          fst (processFile Tesseract unicodeLower numberToString fetchUploadExtract f st) in
        error st' = js "Failed to process document"
        /\ extracted st' = extracted st
        /\ aiResult st' = [] /\ analysisJson st' = None /\ applicable st' = JNull
        /\ loading st' = false
        /\ extracted
             (fst (processFile Tesseract unicodeLower numberToString fetchUploadExtract f
                     (clearInputAndState st))) = []).
Proof.
  split.
  - intros text st st1 err Hbody msg st'.
    destruct (analyzeBody_throws text st st1 err Hbody) as (Hai & _ & Hex).
    assert (H : handleAnalyze numberToString JSON_parse fetchChat text st
                = (failedWith msg st1, JStr (js "Analysis failed"))).
    { unfold handleAnalyze. rewrite Hbody. reflexivity. }
    subst st'. rewrite H. cbn. repeat split; auto.
    subst msg. destruct (message err) as [|c t] eqn:E; cbn; discriminate.
  - intros f st trace e Hx st'. subst st'. unfold processFile. rewrite Hx. cbn.
    repeat split; reflexivity.
Qed.

End AnalysisProperties.

(** ** Circular heuristic (C6) *)

Import Classifier.

Section ClassifierProperties.
Variable unicodeLower : jsstring -> jsstring.

Lemma lowerAsciiUnit_not_upper c : classMatches (Range 65 90) (lowerAsciiUnit c) = false.
Proof.
  unfold lowerAsciiUnit, classMatches.
  destruct (N.leb 65 c && N.leb c 90)%bool eqn:E.
  - apply andb_true_iff in E as [E1 E2]. apply N.leb_le in E1, E2.
    apply andb_false_iff. right. apply N.leb_gt. lia.
  - exact E.
Qed.

(** The reference-code pattern starts with an upper-case letter, so it
    matches nowhere in a string without A-Z. *)
Lemma referenceCode_needs_upper s :
  (forall c, In c s -> classMatches (Range 65 90) c = false) ->
  test referenceCodePattern s = false.
Proof.
  assert (Hshape : exists rest, referenceCodePattern = Seq (Char (Range 65 90)) rest)
    by (eexists; reflexivity).
  destruct Hshape as [rest Hshape]. rewrite Hshape.
  induction s as [|c s IH]; intros H; [reflexivity|].
  cbn [test matchesPrefix nullable deriv andb orb].
  rewrite (H c (or_introl eq_refl)). cbn [seq].
  rewrite matchesPrefix_Never. apply IH. intros d Hd. apply H. now right.
Qed.

(** On ASCII text the sample is lower-cased, so the reference-code
    indicator never fires. *)
Lemma referenceCode_dead_on_ascii text :
  forallb isAsciiUnit (slice0 2000 text) = true ->
  test referenceCodePattern (sampleText unicodeLower text) = false.
Proof.
  intros H. unfold sampleText, toLowerCase. rewrite H.
  apply referenceCode_needs_upper. intros c Hc.
  apply in_map_iff in Hc as (d & <- & _). apply lowerAsciiUnit_not_upper.
Qed.

Example isLikelyCircular_empty : isLikelyCircular unicodeLower [] = false.
Proof. reflexivity. Qed.

Example isLikelyCircular_letter :
  isLikelyCircular unicodeLower
    (js "Dear Sir/Madam, RBI/2024/01 ... all scheduled commercial banks ...") = true.
Proof. vm_compute. reflexivity. Qed.

Example isLikelyCircular_resume :
  isLikelyCircular unicodeLower (js "Curriculum vitae - ten years at ACME/2020/01") = false.
Proof. vm_compute. reflexivity. Qed.

(** C6, on the input "XY/2024/01": the text contains a reference code (the
    pattern matches the text as written), yet [isLikelyCircular] answers
    [false], because the pattern is tested against the lower-cased sample. *)
Theorem C6_reference_code_alone_rejected :
  test referenceCodePattern (js "XY/2024/01") = true
  /\ test referenceCodePattern (sampleText unicodeLower (js "XY/2024/01")) = false
  /\ isLikelyCircular unicodeLower (js "XY/2024/01") = false.
Proof. repeat split; vm_compute; reflexivity. Qed.

End ClassifierProperties.

(** ** Backend (C3, C5, C7) *)

Import Server.

Section ServerProperties.
Variable unicodeLower : jsstring -> jsstring.
Variable numberToString : float -> jsstring.
Variable JSON_parse : jsstring -> option json.
Variable circularIdMatch : jsstring -> option jsstring.

Example delayMs_values : map delayMs [0; 1; 2; 3] = [2000; 4000; 8000; 8000]%N.
Proof. reflexivity. Qed.

Lemma retry_outcomes provider :
  exists k,
    k <= 2
    /\ fst (callOpenAIWithRetry provider 2) = map delayMs (List.seq 0 k)
    /\ (forall i, i < k -> exists e, provider i = Failed e /\ isRateLimit e = true)
    /\ match provider k with
       | Completed c => snd (callOpenAIWithRetry provider 2) = inl c
       | Failed e => snd (callOpenAIWithRetry provider 2) = inr e
                     /\ (isRateLimit e = false \/ k = 2)
       end.
Proof.
  unfold callOpenAIWithRetry. cbn [retryLoop Nat.leb Nat.eqb].
  destruct (provider 0) as [c0|e0] eqn:P0.
  { exists 0. rewrite P0. cbn. repeat split; auto. intros i Hi; lia. }
  destruct (isRateLimit e0) eqn:R0; cbn [negb orb].
  2:{ exists 0. rewrite P0. cbn. repeat split; auto. intros i Hi; lia. }
  destruct (provider 1) as [c1|e1] eqn:P1.
  { exists 1. rewrite P1. cbn. repeat split; auto.
    intros i Hi. assert (i = 0) as -> by lia. eauto. }
  destruct (isRateLimit e1) eqn:R1; cbn [negb orb].
  2:{ exists 1. rewrite P1. cbn. repeat split; auto.
      intros i Hi. assert (i = 0) as -> by lia. eauto. }
  exists 2. destruct (provider 2) as [c2|e2] eqn:P2.
  - cbn. repeat split; auto.
    intros i Hi. assert (i = 0 \/ i = 1) as [-> | ->] by lia; eauto.
  - rewrite orb_true_r. cbn. repeat split; auto.
    intros i Hi. assert (i = 0 \/ i = 1) as [-> | ->] by lia; eauto.
Qed.

(** C3: [callOpenAIWithRetry(2)] waits only after rate-limit failures
    (status or code 429, or a message matching "rate limit" or "quota"),
    at most twice, 2000 ms after the first attempt and 4000 ms after the
    second, i.e. [min(2000 * 2^attempt, 8000)]; a failure that is not a
    rate limit is thrown at once, with no wait and no further attempt; and
    when the first attempt fails with a rate-limit error and the second
    succeeds, the second attempt's completion is returned after a single wait
    of 2000 ms; so when the first attempt fails with status 429 and the second
    succeeds, the chat route answers 200 after that one wait, and the body
    carries the provider's result (the [message] of its first choice, its
    [usage] or null, and its [id]) and no [error] field. *)
Theorem C3_retry_only_on_rate_limit :
  (forall provider,
     (fst (callOpenAIWithRetry provider 2) = []
      \/ fst (callOpenAIWithRetry provider 2) = [2000%N]
      \/ fst (callOpenAIWithRetry provider 2) = [2000%N; 4000%N])
     /\ exists k,
          k <= 2
          /\ fst (callOpenAIWithRetry provider 2) = map delayMs (List.seq 0 k)
          /\ (forall i, i < k -> exists e, provider i = Failed e /\ isRateLimit e = true)
          /\ match provider k with
             | Completed c => snd (callOpenAIWithRetry provider 2) = inl c
             | Failed e => snd (callOpenAIWithRetry provider 2) = inr e
                           /\ (isRateLimit e = false \/ k = 2)
             end)
  /\ (forall provider e,
        provider 0 = Failed e -> isRateLimit e = false ->
        callOpenAIWithRetry provider 2 = ([], inr e))
  /\ (forall provider e c,
        provider 0 = Failed e -> isRateLimit e = true ->
        provider 1 = Completed c ->
        callOpenAIWithRetry provider 2 = ([2000%N], inl c))
  /\ (forall env provider req err c,
        configured env = true ->
        (exists m rest, messages req = Some (m :: rest)) ->
        provider 0 = Failed err -> errStatus err = Some 429%N ->
        provider 1 = Completed c ->
        let sent := snd (chatHandler unicodeLower numberToString circularIdMatch
                           env provider req) in
        chatHandler unicodeLower numberToString circularIdMatch env provider req
          = ([2000%N], mkResponse 200 (completionBody c))
        /\ status sent = 200%N
        /\ prop (js "message") (body sent) = hd_error (choiceMessages c)
        /\ prop (js "usage") (body sent)
           = Some (match usage c with
                   | Some u => if truthy u then u else JNull
                   | None => JNull
                   end)
        /\ prop (js "id") (body sent) = Some (JStr (completionId c))
        /\ prop (js "error") (body sent) = None).
Proof.
  split; [|split; [|split]].
  - intros provider. destruct (retry_outcomes provider) as (k & Hk & Hd & Hr & Hl).
    split; [|exists k; auto].
    rewrite Hd. destruct k as [|[|[|k]]]; [auto | auto | auto | lia].
  - intros provider e P0 R0. unfold callOpenAIWithRetry. cbn [retryLoop Nat.leb].
    now rewrite P0, R0.
  - intros provider e c P0 R0 P1. unfold callOpenAIWithRetry.
    cbn [retryLoop Nat.leb Nat.eqb]. now rewrite P0, R0, P1.
  - intros e provider req err c Hconf (m & rest & Hmsg) P0 Hst P1 sent.
    unfold configured in Hconf. apply andb_true_iff in Hconf as [Hkey Hcli].
    apply negb_true_iff in Hkey.
    assert (Hrl : isRateLimit err = true).
    { unfold isRateLimit, statusIs429. now rewrite Hst. }
    assert (H : chatHandler unicodeLower numberToString circularIdMatch e provider req
                = ([2000%N], mkResponse 200 (completionBody c))).
    { unfold chatHandler. rewrite Hkey, Hmsg, Hcli. cbn [negb].
      unfold callOpenAIWithRetry. cbn [retryLoop Nat.leb Nat.eqb].
      rewrite P0, Hrl, P1. reflexivity. }
    subst sent. rewrite H. cbn [snd status body]. unfold completionBody.
    split; [reflexivity|]. split; [reflexivity|].
    destruct (choiceMessages c) as [|m0 ms]; repeat split; reflexivity.
Qed.

(** Serialized objects contain the serialization of each of their fields. *)
Lemma join_Infix sep y parts : In y parts -> Infix y (join sep parts).
Proof.
  induction parts as [|p rest IH]; [contradiction|]. intros [->|H].
  - destruct rest as [|q rest].
    + exists [], []. simpl. now rewrite app_nil_r.
    + rewrite join_cons. exists [], (sep ++ join sep (q :: rest)). reflexivity.
  - destruct rest as [|q rest]; [contradiction|].
    rewrite join_cons. apply Infix_app_l, Infix_app_l, IH, H.
Qed.

Lemma stringify_field k v fields :
  In (k, v) fields ->
  Infix (stringify numberToString v) (stringify numberToString (JObj fields)).
Proof.
  intros H.
  change (stringify numberToString (JObj fields)) with
    (js "{" ++
     join (js ",")
       (map (fun kv => match kv with
                       | (k', v') => quote k' ++ js ":" ++ stringify numberToString v'
                       end) fields) ++
     js "}").
  apply Infix_app_l, Infix_app_r.
  apply (Infix_trans _ (quote k ++ js ":" ++ stringify numberToString v)).
  - apply Infix_app_l, Infix_app_l. exists [], []. now rewrite app_nil_r.
  - apply join_Infix.
    apply (in_map (fun kv => match kv with
                             | (k', v') => quote k' ++ js ":" ++ stringify numberToString v'
                             end) fields (k, v) H).
Qed.

(** The serialized stub always carries the marker "stub on error" (in its
    [summary]). *)
Lemma stub_has_marker circular_id now details :
  Infix (js "stub on error")
    (stringify numberToString (stubContent circular_id now details)).
Proof.
  apply (Infix_trans _
           (stringify numberToString
              (JStr (js "Development fallback summary (stub on error).")))).
  - apply includes_Infix. vm_compute. reflexivity.
  - apply (stringify_field (js "summary")). unfold stubContent. right; left; reflexivity.
Qed.

(** C5: whenever the chat route answers through its stub path
    ([DEV_STUB_ON_ERROR] is "true" and the provider call failed), the answer
    is a 200 whose message content matches the stub pattern of the page, and
    [handleAnalyze] run against that backend ends with the stub-content
    error and no analysis result. *)
Theorem C5_dev_stub_always_rejected :
  (forall e req err,
     allowStub unicodeLower e = true ->
     let r := chatFailure unicodeLower numberToString circularIdMatch e req err in
     status r = 200%N
     /\ exists m content,
          prop (js "message") (body r) = Some m
          /\ prop (js "content") m = Some (JStr content)
          /\ test stubPattern (trim content) = true)
  /\ (forall e provider err text st,
        configured e = true ->
        allowStub unicodeLower e = true ->
        snd (callOpenAIWithRetry provider 2) = inr err ->
        contentToAnalyze text st <> [] ->
        handleAnalyze numberToString JSON_parse (viaBackend unicodeLower numberToString circularIdMatch e provider) text st =
          (failedWith stubMessage (setAiLoading true (setAiResult [] (setError [] st))),
           JStr (js "Analysis failed"))).
Proof.
  assert (Hstub : forall e req err,
            allowStub unicodeLower e = true ->
            exists content,
              chatFailure unicodeLower numberToString circularIdMatch e req err =
                mkResponse 200
                  (JObj [ (js "message",
                           JObj [ (js "role", JStr (js "assistant"));
                                  (js "content", JStr content) ]);
                          (js "usage", JNull);
                          (js "id", JStr (js "stub-" ++ decimal (nowMs e))) ])
              /\ test stubPattern (trim content) = true).
  { intros e req err Hallow. unfold chatFailure. rewrite Hallow.
    eexists. split; [reflexivity|].
    apply (stub_marker_detected _ (js "stub on error") (js "stub on error")).
    - left; reflexivity.
    - reflexivity.
    - apply stub_has_marker. }
  split.
  - intros e req err Hallow r. subst r.
    destruct (Hstub e req err Hallow) as (content & -> & Htest).
    split; [reflexivity|].
    eexists; exists content.
    split; [reflexivity | split; [reflexivity | exact Htest]].
  - intros e provider err text st Hconf Hallow Hfail Hne.
    unfold configured in Hconf. apply andb_true_iff in Hconf as [Hkey Hcli].
    apply negb_true_iff in Hkey.
    destruct (Hstub e (analysisPayload (contentToAnalyze text st)) err Hallow)
      as (content & Hresp & Htest).
    assert (Hfetch : viaBackend unicodeLower numberToString circularIdMatch e provider (analysisPayload (contentToAnalyze text st))
                     = Fetched 200
                         (Some (JObj [ (js "message",
                                        JObj [ (js "role", JStr (js "assistant"));
                                               (js "content", JStr content) ]);
                                       (js "usage", JNull);
                                       (js "id", JStr (js "stub-" ++ decimal (nowMs e))) ]))).
    { unfold viaBackend, chatHandler. rewrite Hkey, Hcli.
      cbn [analysisPayload buildAnalysisPrompts messages negb].
      destruct (callOpenAIWithRetry provider 2) as [delays [c|err']];
        [discriminate|]. simpl in Hfail. injection Hfail as ->.
      cbn [analysisPayload buildAnalysisPrompts] in Hresp. rewrite Hresp. reflexivity. }
    unfold handleAnalyze.
    rewrite (analyzeBody_content numberToString JSON_parse (viaBackend unicodeLower numberToString circularIdMatch e provider)
               text st 200 _ _ content Hne Hfetch eq_refl eq_refl eq_refl).
    cbv zeta. rewrite Htest. reflexivity.
Qed.

(** C7, on a legacy [.doc] upload: Express serves
    [POST /api/upload/extract] with the handler registered first, which
    answers 400 "Unsupported file type: application/msword"; the handler
    that answers 415 with the conversion instruction is registered second
    and is never reached. *)
Theorem C7_doc_upload_gets_400 :
  (forall name pages mammoth,
     postUploadExtract (Some (mkUpload name (js "application/msword") pages mammoth))
       = Some (mkResponse 400
                 (errorBody (js "Unsupported file type: application/msword"))))
  /\ uploadExtractSecond
       (Some (mkUpload (js "circular.doc") (js "application/msword") None None))
     = Some (mkResponse 415
               (errorBody (js "DOC format not supported on server. Please convert to DOCX and retry."))).
Proof.
  split.
  - intros name pages mammoth. reflexivity.
  - vm_compute. reflexivity.
Qed.

End ServerProperties.

(** ** The properties on concrete runs *)

Section Runs.

Lemma C1_witness :
  processFile true sameCase noNumbers offline (pdfOf twoNativePages) freshState =
    (setLoading false
       (setExtracted (join nl2 (map pageText twoNativePages)) (resetFor freshState)),
     map TextLayer (List.seq 1 (List.length twoNativePages))).
Proof.
  apply (C1_native_pdf_no_ocr sameCase noNumbers offline true
           (pdfOf twoNativePages) freshState twoNativePages);
    try reflexivity.
  vm_compute. lia.
Defined.

(** C1 as stated fails on a one-page document of 60 characters: every page
    yields at least 50 characters, yet [processFile] has page 1 recognized
    and stores the OCR output instead of the page text. *)
Lemma C1_counterexample :
  let pages := [textPage 60 "scanned words"] in
  let run := processFile true sameCase noNumbers offline (pdfOf pages) freshState in
  forallb nativePage pages = true
  /\ snd run = [TextLayer 1; RenderPage 1 2; OcrPage 1]
  /\ extracted (fst run) = js "scanned words"
  /\ extracted (fst run) <> join nl2 (map pageText pages).
Proof.
  cbv zeta. split; [reflexivity|]. split; [vm_compute; reflexivity|].
  split; [vm_compute; reflexivity|]. vm_compute. discriminate.
Qed.

Lemma C2_witness :
  let pages := threeScannedPages in
  let run := processFile true sameCase noNumbers offline (pdfOf pages) freshState in
  run =
    (setLoading false
       (setExtracted (js "page one" ++ nl2 ++ js "page three") (resetFor freshState)),
     [TextLayer 1] ++ ocrRun 1 pages ++ ocrRun 1 pages)
  /\ (forallb nonEmpty (map ocrOutput pages) = true ->
      extracted (fst run) = ocrJoined (map ocrOutput pages)).
Proof.
  cbv zeta.
  apply (C2_short_pdf_ocr_every_page sameCase noNumbers offline
           (pdfOf threeScannedPages) freshState threeScannedPages);
    try reflexivity.
  vm_compute. lia.
Defined.

(** C2 as stated fails whichever way the empty outputs are counted.  On a
    scanned document with a blank second page and little text the helper
    [extractTextFromPdfViaOCR] has the last word and leaves the empty output
    out, so the text is not the join of all the per-page outputs; on one with
    a blank second page and long outputs the scanned pass of [extractPdfText]
    has the last word and keeps the empty output, so the text is not the
    join of the non-empty outputs. *)
Lemma C2_counterexample :
  let little := processFile true sameCase noNumbers offline
                  (pdfOf threeScannedPages) freshState in
  let long := processFile true sameCase noNumbers offline
                (pdfOf longScannedPages) freshState in
  (List.length (directText threeScannedPages) < 100
   /\ extracted (fst little) = js "page one" ++ nl2 ++ js "page three"
   /\ extracted (fst little) <> ocrJoined (map ocrOutput threeScannedPages))
  /\ (List.length (directText longScannedPages) < 100
      /\ extracted (fst long) = ocrJoined (map ocrOutput longScannedPages)
      /\ extracted (fst long) <> ocrJoined (filter nonEmpty (map ocrOutput longScannedPages))).
Proof.
  cbv zeta. split; (split; [vm_compute; lia|]); (split; [vm_compute; reflexivity|]);
    vm_compute; discriminate.
Qed.

Lemma C3_witness :
  let sent := snd (chatHandler sameCase noNumbers noCircularId (devEnv "false") limitedOnce
                     (analysisPayload (js "RBI circular"))) in
  callOpenAIWithRetry alwaysDown 2 = ([], inr serverError)
  /\ callOpenAIWithRetry quotaOnce 2 = ([2000%N], inl answer)
  /\ chatHandler sameCase noNumbers noCircularId (devEnv "false") limitedOnce
       (analysisPayload (js "RBI circular"))
     = ([2000%N], mkResponse 200 (completionBody answer))
  /\ status sent = 200%N
  /\ prop (js "message") (body sent) = hd_error (choiceMessages answer)
  /\ prop (js "usage") (body sent) = Some JNull
  /\ prop (js "id") (body sent) = Some (JStr (completionId answer))
  /\ prop (js "error") (body sent) = None.
Proof.
  cbv zeta.
  destruct (C3_retry_only_on_rate_limit sameCase noNumbers noCircularId)
    as (_ & Hthrow & Hquota & Hretry).
  split; [apply Hthrow; reflexivity|].
  split; [apply (Hquota quotaOnce quotaExceeded answer); reflexivity|].
  apply (Hretry (devEnv "false") limitedOnce (analysisPayload (js "RBI circular"))
           tooManyRequests answer); try reflexivity.
  eexists; eexists; reflexivity.
Defined.

Lemma C4_witness :
  let fetch := replyWith 200 (js " This is a Development STUB reply ") in
  let run := handleAnalyze noNumbers (fun _ => None) fetch (Some (js "RBI circular")) freshState in
  snd run = JStr (js "Analysis failed")
  /\ error (fst run) <> [] /\ analysisJson (fst run) = None
  /\ applicable (fst run) = JNull /\ aiResult (fst run) = []
  /\ (isOk 200 = true ->
      run = (failedWith stubMessage
               (setAiLoading true (setAiResult [] (setError [] freshState))),
             JStr (js "Analysis failed"))
      /\ error (fst run) = stubMessage).
Proof.
  cbv zeta.
  apply (C4_stub_content_rejected noNumbers (fun _ => None)
           (replyWith 200 (js " This is a Development STUB reply "))
           (Some (js "RBI circular")) freshState 200
           (JObj [ (js "message",
                    JObj [ (js "role", JStr (js "assistant"));
                           (js "content", JStr (js " This is a Development STUB reply ")) ]) ])
           (JObj [ (js "role", JStr (js "assistant"));
                   (js "content", JStr (js " This is a Development STUB reply ")) ])
           (js " This is a Development STUB reply ")
           (js "development stub") (js "Development STUB"));
    try reflexivity.
  - vm_compute. discriminate.
  - right; left; reflexivity.
  - exists (js " This is a "), (js " reply "). reflexivity.
Defined.

Lemma C5_witness :
  status (chatFailure sameCase noNumbers noCircularId (devEnv "TRUE")
            (analysisPayload (js "RBI circular")) serverError) = 200%N
  /\ handleAnalyze noNumbers (fun _ => None)
       (viaBackend sameCase noNumbers noCircularId (devEnv "TRUE") alwaysDown)
       (Some (js "RBI circular")) freshState =
     (failedWith stubMessage
        (setAiLoading true (setAiResult [] (setError [] freshState))),
      JStr (js "Analysis failed")).
Proof.
  destruct (C5_dev_stub_always_rejected sameCase noNumbers (fun _ => None) noCircularId)
    as (Hstub & Hclient).
  split.
  - apply (Hstub (devEnv "TRUE") (analysisPayload (js "RBI circular")) serverError).
    reflexivity.
  - apply (Hclient (devEnv "TRUE") alwaysDown serverError); try reflexivity.
    vm_compute. discriminate.
Defined.

Lemma C8_witness :
  let v := analysisOf false "Not applicable to co-operative banks" in
  let st' := fst (handleAnalyze noNumbers (parseOnly v) (replyWith 200 (stringify noNumbers v))
                    (Some (js "RBI circular")) freshState) in
  applicable st' = JBool false /\ analysisJson st' = Some v /\ error st' = [].
Proof.
  cbv zeta.
  apply (C8_applicable_false_kept noNumbers
           (parseOnly (analysisOf false "Not applicable to co-operative banks"))
           (replyWith 200 (stringify noNumbers
                             (analysisOf false "Not applicable to co-operative banks")))
           (Some (js "RBI circular")) freshState 200
           (JObj [ (js "message",
                    JObj [ (js "role", JStr (js "assistant"));
                           (js "content",
                            JStr (stringify noNumbers
                                    (analysisOf false "Not applicable to co-operative banks"))) ]) ])
           (JObj [ (js "role", JStr (js "assistant"));
                   (js "content",
                    JStr (stringify noNumbers
                            (analysisOf false "Not applicable to co-operative banks"))) ])
           (stringify noNumbers (analysisOf false "Not applicable to co-operative banks")));
    try reflexivity.
  vm_compute. discriminate.
Defined.

(** C8 as stated fails on an answer whose JSON has
    [meta.bank_context.applicable = false] and a summary mentioning "dev
    stub": the stub guard throws before parsing and the applicability state
    ends null. *)
Lemma C8_counterexample :
  let v := analysisOf false "dev stub" in
  let content := stringify noNumbers v in
  let st' := fst (handleAnalyze noNumbers (parseOnly v) (replyWith 200 content)
                    (Some (js "RBI circular")) freshState) in
  parseOnly v (trim content) = Some v
  /\ optProp (js "applicable")
       (optProp (js "bank_context") (optProp (js "meta") (Some v))) = Some (JBool false)
  /\ applicable st' = JNull
  /\ applicable st' <> JBool false.
Proof.
  cbv zeta. split; [vm_compute; reflexivity|]. split; [reflexivity|].
  split; [vm_compute; reflexivity|]. vm_compute. discriminate.
Qed.

Lemma C9_witness :
  let down : chatRequest -> fetchOutcome :=
    fun _ => FetchRejected (mkError (js "Failed to fetch")) in
  let st := setAiResult (js "old raw result") (setAnalysisJson (Some (JObj [])) freshState) in
  let st' := fst (handleAnalyze noNumbers (fun _ => None) down (Some (js "RBI circular")) st) in
  let broken := mkFile pdfMime (js "broken.pdf") true None in
  let st2 := fst (processFile true sameCase noNumbers offline broken st) in
  (analysisJson st' = None /\ applicable st' = JNull /\ aiResult st' = []
   /\ error st' = js "Failed to fetch")
  /\ (error st2 = js "Failed to process document" /\ extracted st2 = extracted st
      /\ aiResult st2 = [] /\ analysisJson st2 = None /\ applicable st2 = JNull).
Proof.
  cbv zeta.
  destruct (C9_errors_reset_state true sameCase noNumbers (fun _ => None)
              (fun _ => FetchRejected (mkError (js "Failed to fetch"))) offline)
    as (Hanalyze & Hprocess).
  split.
  - destruct (Hanalyze (Some (js "RBI circular"))
                (setAiResult (js "old raw result")
                   (setAnalysisJson (Some (JObj [])) freshState))
                (setAiLoading true (setAiResult [] (setError []
                   (setAiResult (js "old raw result")
                      (setAnalysisJson (Some (JObj [])) freshState)))))
                (mkError (js "Failed to fetch")) eq_refl)
      as (_ & H1 & H2 & H3 & H4 & _).
    repeat split; assumption.
  - destruct (Hprocess (mkFile pdfMime (js "broken.pdf") true None)
                (setAiResult (js "old raw result")
                   (setAnalysisJson (Some (JObj [])) freshState))
                [] (mkError (js "Failed to extract text from PDF. The file might be corrupted or password protected."))
                eq_refl)
      as (H1 & H2 & H3 & H4 & H5 & _).
    repeat split; assumption.
Defined.

(** C9 as stated fails for the file-processing stage: when a document
    was extracted before and the extraction of the next file throws,
    [processFile] sets its error message and keeps the text of the earlier
    document instead of resetting it. *)
Lemma C9_counterexample :
  let st := setExtracted (js "Text of the previous circular") freshState in
  let broken := mkFile pdfMime (js "broken.pdf") true None in
  let run := processFile true sameCase noNumbers offline broken st in
  (exists trace e, extractFor true sameCase noNumbers offline broken = (trace, Err e))
  /\ error (fst run) = js "Failed to process document"
  /\ extracted (fst run) = js "Text of the previous circular"
  /\ extracted (fst run) <> [].
Proof.
  cbv zeta. split; [eexists; eexists; reflexivity|].
  split; [reflexivity|]. split; [reflexivity|]. discriminate.
Qed.

Lemma C10_witness :
  let f := pdfOf [textPage 60 "scanned words"] in
  (exists trace text, extractTextFromPdfViaOCR false f = (trace, Ok text) /\ text = [])
  /\ (let st' := fst (processFile false sameCase noNumbers offline f freshState) in
      extracted st' = [] /\ error st' = []).
Proof.
  cbv zeta.
  destruct (C10_ocr_helper_swallows_errors sameCase noNumbers offline false
              (pdfOf [textPage 60 "scanned words"]) freshState) as (Hhelper & Hprocess).
  split.
  - destruct Hhelper as (trace & text & Hrun & Hempty).
    exists trace, text. split; [exact Hrun|].
    apply (Hempty (mkError (js "OCR engine not ready"))). reflexivity.
  - apply (Hprocess [TextLayer 1] (repeat 97%N 60) (mkError (js "OCR engine not ready")));
      try reflexivity.
    vm_compute. lia.
Defined.

End Runs.

(** * Further properties of the analysis client *)

Section AnalysisMore.
Variable numberToString : float -> jsstring.
Variable JSON_parse : jsstring -> option json.
Variable fetchChat : chatRequest -> fetchOutcome.

Lemma prepareTextForAI_firstn text maxChars :
  prepareTextForAI text maxChars = firstn (N.to_nat maxChars) text
  /\ List.length (prepareTextForAI text maxChars) <= N.to_nat maxChars
  /\ prepareTextForAI (prepareTextForAI text maxChars) maxChars
     = prepareTextForAI text maxChars.
Proof.
  assert (H : forall t, prepareTextForAI t maxChars = firstn (N.to_nat maxChars) t).
  { intros t. unfold prepareTextForAI, slice0.
    destruct t as [|c t']; [now rewrite firstn_nil|]. cbn [isEmpty].
    destruct (N.leb_spec (N.of_nat (List.length (c :: t'))) maxChars) as [Hle|Hgt];
      [|reflexivity].
    symmetry. apply firstn_all2. lia. }
  split; [apply H|]. split.
  - rewrite H. rewrite length_firstn. lia.
  - rewrite !H. rewrite firstn_firstn. now rewrite Nat.min_id.
Qed.

(** [prepareTextForAI] is a hard cut: it returns the first [maxChars] code
    units of the text, so its result never exceeds the budget, is the text
    itself when the text fits, and preparing twice changes nothing. *)
Theorem prepareTextForAI_hard_cut text maxChars :
  prepareTextForAI text maxChars = firstn (N.to_nat maxChars) text
  /\ List.length (prepareTextForAI text maxChars) <= N.to_nat maxChars
  /\ prepareTextForAI (prepareTextForAI text maxChars) maxChars
     = prepareTextForAI text maxChars.
Proof.
  exact (prepareTextForAI_firstn text maxChars).
Qed.

(** The request [handleAnalyze] posts carries exactly a system and a user
    message; the user message quotes only the first 1000 code units of the
    text and is at most 1054 code units long, so two texts that agree on
    their first 1000 code units produce the same request. *)
Theorem analysisPayload_first_1000 c :
  (exists system userMsg,
     messages (analysisPayload c)
       = Some [mkMessage (js "system") system; mkMessage (js "user") userMsg]
     /\ userMsg = js "Analyze this circular and extract key information: "
                    ++ firstn 1000 c ++ js "..."
     /\ List.length userMsg <= 1054)
  /\ (forall c', firstn 1000 c = firstn 1000 c' -> analysisPayload c = analysisPayload c').
Proof.
  assert (H : forall t, slice0 1000 (prepareTextForAI t 8000) = firstn 1000 t).
  { intros t. destruct (prepareTextForAI_firstn t 8000) as (-> & _ & _).
    unfold slice0. rewrite firstn_firstn. f_equal. }
  split.
  - eexists; eexists. unfold analysisPayload, buildAnalysisPrompts. cbn [messages].
    rewrite H. split; [reflexivity|]. split; [reflexivity|].
    rewrite !length_app, length_firstn.
    change (List.length (js "...")) with 3.
    change (List.length (js "Analyze this circular and extract key information: ")) with 51.
    lia.
  - intros c' Hc. unfold analysisPayload, buildAnalysisPrompts. now rewrite !H, Hc.
Qed.

(** With nothing to analyze (the text is empty or blank) [handleAnalyze]
    sends no request: whatever the backend would answer, it only sets the
    error "No text to analyze" and returns the empty string; the earlier
    analysis results stay as they were. *)
Theorem handleAnalyze_blank_text text st :
  contentToAnalyze text st = [] ->
  handleAnalyze numberToString JSON_parse fetchChat text st
    = (setAiLoading false (setError (js "No text to analyze") st), JStr []).
Proof.
  intros H. unfold handleAnalyze, analyzeBody. fold (contentToAnalyze text st).
  now rewrite H.
Qed.

(** Whatever the backend answers, [handleAnalyze] ends with the busy flag
    cleared, never touches the extracted text or the extraction busy flag,
    and only adds notifications (at most two) in front of the earlier ones. *)
Theorem handleAnalyze_frame text st :
  let st' := fst (handleAnalyze numberToString JSON_parse fetchChat text st) in
  aiLoading st' = false
  /\ extracted st' = extracted st
  /\ loading st' = loading st
  /\ exists added, notifications st' = added ++ notifications st
                   /\ List.length added <= 2.
Proof.
  cbv zeta. unfold handleAnalyze, analyzeBody.
  destruct (isEmpty _).
  { cbn. repeat split. exists []. split; [reflexivity | cbn; lia]. }
  destruct (fetchChat _) as [e|status body].
  { cbn. repeat split. eexists [_]. split; [reflexivity | cbn; lia]. }
  destruct (N.eqb status 429).
  { cbn. repeat split. eexists [_; _]. split; [reflexivity | cbn; lia]. }
  destruct (negb (isOk status)).
  { cbn. repeat split. eexists [_]. split; [reflexivity | cbn; lia]. }
  destruct (test stubPattern _).
  { cbn. repeat split. eexists [_]. split; [reflexivity | cbn; lia]. }
  destruct (truthy _); cbn; repeat split; exists []; (split; [reflexivity | cbn; lia]).
Qed.

(** When a successful answer is neither stub content nor JSON (or parses to
    a falsy value), [handleAnalyze] falls back to the raw text: the
    structured result is null, the raw result is the trimmed content, no
    error is set, and the applicability of an earlier run is left in
    place. *)
Theorem handleAnalyze_unstructured text st status data m content :
  contentToAnalyze text st <> [] ->
  fetchChat (analysisPayload (contentToAnalyze text st)) = Fetched status (Some data) ->
  isOk status = true ->
  prop (js "message") data = Some m ->
  prop (js "content") m = Some (JStr content) ->
  test stubPattern (trim content) = false ->
  truthy (parseJsonStrict JSON_parse (trim content)) = false ->
  let run := handleAnalyze numberToString JSON_parse fetchChat text st in
  analysisJson (fst run) = None
  /\ aiResult (fst run) = trim content
  /\ error (fst run) = []
  /\ applicable (fst run) = applicable st
  /\ snd run = JStr (if isEmpty (trim content) then js "Analysis complete (unstructured)"
                     else trim content).
Proof.
  intros Hne Hfetch Hok Hm Hc Hstub Hfalsy. cbv zeta. unfold handleAnalyze.
  rewrite (analyzeBody_content numberToString JSON_parse fetchChat
             text st status data m content Hne Hfetch Hok Hm Hc).
  cbv zeta. rewrite Hstub, Hfalsy. cbn. repeat split.
Qed.

(** After an analysis run that failed, [createAiTasksNow] never announces
    task creation: it only asks to run the analysis first, on top of the
    failure notification. *)
Theorem createAiTasksNow_after_failure text st st1 err :
  analyzeBody numberToString JSON_parse fetchChat text st = (st1, Err err) ->
  let st' := fst (handleAnalyze numberToString JSON_parse fetchChat text st) in
  exists failure,
    noteTitle failure = js "AI analysis failed"
    /\ notifications (Intake.createAiTasksNow st')
       = mkNote (js "Run analysis first")
           (JStr (js "Click Action to analyze the document before creating tasks."))
         :: failure :: notifications st1
    /\ analysisJson (Intake.createAiTasksNow st') = None.
Proof.
  intros Hbody. cbv zeta.
  rewrite (handleAnalyze_throws numberToString JSON_parse fetchChat text st st1 err Hbody).
  eexists. split; [|split]; [|reflexivity|reflexivity]. reflexivity.
Qed.

(** [createAiTasksNow] announces task creation exactly when there is a
    structured result and the applicability is the boolean [true]; in every
    case it only adds one notification. *)
Theorem createAiTasksNow_gate st :
  exists note,
    Intake.createAiTasksNow st = addNotification note st
    /\ (noteTitle note = js "Ready to create tasks"
        <-> (exists v, analysisJson st = Some v /\ truthy v = true)
            /\ applicable st = JBool true).
Proof.
  unfold Intake.createAiTasksNow.
  destruct (analysisJson st) as [v|] eqn:Ej.
  - destruct (truthy v) eqn:Ev; cbn [negb].
    + destruct (applicable st) as [|[|]| | | |] eqn:Ea;
        eexists; (split; [reflexivity|]); cbn [noteTitle];
        (split; [intros H; try discriminate H | intros [_ H]; try discriminate H]);
        try reflexivity.
      split; [exists v; auto | reflexivity].
    + eexists. split; [reflexivity|]. cbn [noteTitle].
      split; [discriminate|]. intros [(v' & Hv & Ht) _]. congruence.
  - eexists. split; [reflexivity|]. cbn [noteTitle negb].
    split; [discriminate|]. intros [(v' & Hv & _) _]. discriminate.
Qed.

End AnalysisMore.

(** * Further properties of the chat proxy *)

Section ProxyMore.
Variable unicodeLower : jsstring -> jsstring.
Variable numberToString : float -> jsstring.
Variable JSON_parse : jsstring -> option json.
Variable circularIdMatch : jsstring -> option jsstring.

Lemma delayMs_bounds attempt :
  (2000 <= delayMs attempt)%N /\ (delayMs attempt <= 8000)%N
  /\ delayMs (S attempt) = N.min (2 * delayMs attempt) 8000
  /\ (2 <= attempt -> delayMs attempt = 8000%N).
Proof.
  unfold delayMs.
  assert (Hpos : (1 <= 2 ^ N.of_nat attempt)%N).
  { change 1%N with (2 ^ 0)%N. apply N.pow_le_mono_r; lia. }
  assert (Hs : (2 ^ N.of_nat (S attempt) = 2 * 2 ^ N.of_nat attempt)%N).
  { rewrite Nat2N.inj_succ. apply N.pow_succ_r'. }
  repeat split.
  - lia.
  - lia.
  - rewrite Hs. lia.
  - intros H2.
    assert (H4 : (2 ^ 2 <= 2 ^ N.of_nat attempt)%N) by (apply N.pow_le_mono_r; lia).
    change (2 ^ 2)%N with 4%N in H4. lia.
Qed.

Lemma retryLoop_outcome provider maxRetries : forall n attempt fuel lastErr,
  attempt + n = maxRetries -> n < fuel ->
  exists j,
    j <= n
    /\ fst (retryLoop provider fuel maxRetries attempt lastErr)
       = map delayMs (List.seq attempt j)
    /\ (forall i, attempt <= i < attempt + j ->
          exists e, provider i = Failed e /\ isRateLimit e = true)
    /\ match provider (attempt + j) with
       | Completed c => snd (retryLoop provider fuel maxRetries attempt lastErr) = inl c
       | Failed e => snd (retryLoop provider fuel maxRetries attempt lastErr) = inr e
                     /\ (isRateLimit e = false \/ attempt + j = maxRetries)
       end.
Proof.
  induction n as [|n IH]; intros attempt fuel lastErr Hsum Hfuel;
    (destruct fuel as [|fuel]; [lia|]); cbn [retryLoop];
    (destruct (Nat.leb_spec attempt maxRetries) as [_|Hgt]; [|lia]).
  - assert (He : Nat.eqb attempt maxRetries = true) by (apply Nat.eqb_eq; lia).
    exists 0. rewrite Nat.add_0_r.
    destruct (provider attempt) as [c|e] eqn:P.
    + cbn. repeat split; auto; try lia; intros i Hi; lia.
    + rewrite He, orb_true_r. cbn. repeat split; auto; try lia; intros i Hi; lia.
  - assert (He : Nat.eqb attempt maxRetries = false) by (apply Nat.eqb_neq; lia).
    destruct (provider attempt) as [c|e] eqn:P.
    + exists 0. rewrite Nat.add_0_r, P. cbn. repeat split; auto; try lia; intros i Hi; lia.
    + rewrite He, orb_false_r.
      destruct (isRateLimit e) eqn:R; cbn [negb].
      * destruct (IH (S attempt) fuel (Some e)) as (j & Hj & Hd & Hr & Hl); [lia | lia |].
        exists (S j).
        destruct (retryLoop provider fuel maxRetries (S attempt) (Some e)) as [ds r].
        cbn [fst snd] in *. rewrite Hd.
        replace (attempt + S j) with (S attempt + j) by lia.
        repeat split; auto; try lia.
        intros i Hi. destruct (Nat.eq_dec i attempt) as [->|Hne]; [eauto|].
        apply Hr. lia.
      * exists 0. rewrite Nat.add_0_r, P. cbn. repeat split; auto; try lia; intros i Hi; lia.
Qed.

Lemma callOpenAIWithRetry_attempts provider maxRetries :
  exists k,
    k <= maxRetries
    /\ fst (callOpenAIWithRetry provider maxRetries) = map delayMs (List.seq 0 k)
    /\ (forall d, In d (fst (callOpenAIWithRetry provider maxRetries)) ->
          (2000 <= d <= 8000)%N)
    /\ (forall i, i < k -> exists e, provider i = Failed e /\ isRateLimit e = true)
    /\ match provider k with
       | Completed c => snd (callOpenAIWithRetry provider maxRetries) = inl c
       | Failed e => snd (callOpenAIWithRetry provider maxRetries) = inr e
                     /\ (isRateLimit e = false \/ k = maxRetries)
       end.
Proof.
  unfold callOpenAIWithRetry.
  destruct (retryLoop_outcome provider maxRetries maxRetries 0 (S (S maxRetries)) None)
    as (k & Hk & Hd & Hr & Hl); [reflexivity | lia |].
  exists k. cbn [Nat.add] in Hl. repeat split; auto.
  - rewrite Hd in H. apply in_map_iff in H as (a & <- & _).
    apply (delayMs_bounds a).
  - rewrite Hd in H. apply in_map_iff in H as (a & <- & _).
    apply (delayMs_bounds a).
  - intros i Hi. apply Hr. lia.
Qed.

(** For every retry bound, [callOpenAIWithRetry] ends with the reply of
    some attempt [k <= maxRetries] (the completion, or that attempt's own
    error), after waiting once for each of the [k] earlier attempts, all of
    them rate-limit failures; every wait is between 2000 and 8000 ms; the
    closing [throw lastErr] after the loop is never reached. *)
Theorem callOpenAIWithRetry_bounded provider maxRetries :
  exists k,
    k <= maxRetries
    /\ fst (callOpenAIWithRetry provider maxRetries) = map delayMs (List.seq 0 k)
    /\ (forall d, In d (fst (callOpenAIWithRetry provider maxRetries)) ->
          (2000 <= d <= 8000)%N)
    /\ (forall i, i < k -> exists e, provider i = Failed e /\ isRateLimit e = true)
    /\ match provider k with
       | Completed c => snd (callOpenAIWithRetry provider maxRetries) = inl c
       | Failed e => snd (callOpenAIWithRetry provider maxRetries) = inr e
                     /\ (isRateLimit e = false \/ k = maxRetries)
       end.
Proof.
  exact (callOpenAIWithRetry_attempts provider maxRetries).
Qed.

(** Without a configured key the chat route answers 400 at once, whatever
    the request and the provider, and the page shows the route's message
    "OpenAI API key is not configured" as its error, with the analysis state
    reset. *)
Theorem missing_key_reaches_page e provider text st :
  isEmpty (textOr (OPENAI_API_KEY e) []) = true ->
  contentToAnalyze text st <> [] ->
  (forall req,
     fst (chatHandler unicodeLower numberToString circularIdMatch e provider req) = []
     /\ status (snd (chatHandler unicodeLower numberToString circularIdMatch e provider req))
        = 400%N)
  /\ handleAnalyze numberToString JSON_parse
       (viaBackend unicodeLower numberToString circularIdMatch e provider) text st
     = (failedWith (js "OpenAI API key is not configured")
          (setAiLoading true (setAiResult [] (setError [] st))),
        JStr (js "Analysis failed")).
Proof.
  intros Hkey Hne. split.
  - intros req. unfold chatHandler. rewrite Hkey. split; reflexivity.
  - unfold handleAnalyze, analyzeBody. fold (contentToAnalyze text st).
    destruct (contentToAnalyze text st) as [|c0 t0] eqn:E; [contradiction|].
    cbn [isEmpty]. unfold viaBackend, chatHandler. rewrite Hkey. reflexivity.
Qed.

(** When the provider keeps answering with rate-limit errors, the chat
    route gives up after the third attempt, having waited 2000 and then 4000
    ms; with the stub off it passes the last error on with its 429 status,
    and the page reports that message as its error and raises both the
    rate-limit and the failure notification. *)
Theorem rate_limit_exhausted_reaches_page e provider e0 e1 e2 text st :
  configured e = true ->
  allowStub unicodeLower e = false ->
  provider 0 = Failed e0 -> isRateLimit e0 = true ->
  provider 1 = Failed e1 -> isRateLimit e1 = true ->
  provider 2 = Failed e2 -> errStatus e2 = Some 429%N ->
  contentToAnalyze text st <> [] ->
  let details :=
    textOr (errInnerMessage e2) (textOr (errMessage e2) (js "OpenAI request failed")) in
  chatHandler unicodeLower numberToString circularIdMatch e provider
    (analysisPayload (contentToAnalyze text st))
    = ([2000%N; 4000%N], mkResponse 429 (errorBody details))
  /\ handleAnalyze numberToString JSON_parse
       (viaBackend unicodeLower numberToString circularIdMatch e provider) text st
     = (failedWith details
          (addNotification (mkNote (js "OpenAI rate limit") (JStr details))
             (setAiLoading true (setAiResult [] (setError [] st)))),
        JStr (js "Analysis failed")).
Proof.
  intros Hconf Hstub P0 R0 P1 R1 P2 H429 Hne details.
  unfold configured in Hconf. apply andb_true_iff in Hconf as [Hkey Hcli].
  apply negb_true_iff in Hkey.
  assert (Hd : details <> []).
  { subst details. unfold textOr.
    destruct (errInnerMessage e2) as [[|? ?]|]; destruct (errMessage e2) as [[|? ?]|];
      cbn; discriminate. }
  assert (Hh : chatHandler unicodeLower numberToString circularIdMatch e provider
                 (analysisPayload (contentToAnalyze text st))
               = ([2000%N; 4000%N], mkResponse 429 (errorBody details))).
  { unfold chatHandler. rewrite Hkey, Hcli.
    cbn [analysisPayload buildAnalysisPrompts messages negb].
    unfold callOpenAIWithRetry. cbn [retryLoop Nat.leb Nat.eqb].
    rewrite P0, R0, P1, R1, P2. cbn [negb orb]. rewrite orb_true_r.
    unfold chatFailure. rewrite Hstub, H429. reflexivity. }
  split; [exact Hh|].
  unfold handleAnalyze, analyzeBody. fold (contentToAnalyze text st).
  destruct (contentToAnalyze text st) as [|c0 t0] eqn:E; [contradiction|].
  cbn [isEmpty]. unfold viaBackend. rewrite Hh.
  cbn [status body N.eqb Pos.eqb bodyOrEmpty errorBody optProp prop lookup].
  change (JsString.eqb (js "error") (js "error")) with true. cbv iota.
  unfold orElse. cbn [truthy toJsString].
  destruct details as [|d0 dt]; [contradiction|]. reflexivity.
Qed.

(** With the stub off, and a provider whose errors never carry status 200,
    the chat route answers 200 only with a completion of the provider: the
    body is built from the completion of some attempt [k <= 2]. *)
Theorem ok_only_with_completion e provider req :
  allowStub unicodeLower e = false ->
  (forall i err, provider i = Failed err -> errStatus err <> Some 200%N) ->
  status (snd (chatHandler unicodeLower numberToString circularIdMatch e provider req))
    = 200%N ->
  exists k c,
    k <= 2 /\ provider k = Completed c
    /\ body (snd (chatHandler unicodeLower numberToString circularIdMatch e provider req))
       = completionBody c.
Proof.
  intros Hstub Herr. unfold chatHandler.
  destruct (isEmpty (textOr (OPENAI_API_KEY e) [])); [discriminate|].
  destruct (messages req) as [[|m rest]|]; try discriminate.
  destruct (negb (openai e || lateInit e)); [discriminate|].
  destruct (callOpenAIWithRetry_attempts provider 2) as (k & Hk & _ & _ & _ & Hl).
  destruct (callOpenAIWithRetry provider 2) as [delays [c|err]]; cbn [snd] in *.
  - intros _. destruct (provider k) as [c'|e'] eqn:P.
    + exists k, c'. injection Hl as ->. auto.
    + destruct Hl as [Hl _]. discriminate.
  - unfold chatFailure. rewrite Hstub. cbn [status].
    destruct (provider k) as [c'|e'] eqn:P; [discriminate|].
    destruct Hl as [Hl _]. injection Hl as ->.
    destruct (errStatus e') as [n|] eqn:Es.
    + destruct (N.eqb n 0); [discriminate|].
      intros ->. exfalso. exact (Herr k e' P Es).
    + discriminate.
Qed.

End ProxyMore.

(** * Word documents through the upload route *)

Section UploadMore.
Variable Tesseract : bool.
Variable unicodeLower : jsstring -> jsstring.
Variable numberToString : float -> jsstring.
Variable recognizeImage : file -> option jsstring.
(** The upload the backend receives for a file of the page. *)
Variable toUpload : file -> upload.

Lemma jeqb_neq a b : a <> b -> JsString.eqb a b = false.
Proof. intros H. unfold JsString.eqb. now destruct (list_eq_dec N.eq_dec a b). Qed.

Lemma jeqb_refl a : JsString.eqb a a = true.
Proof. unfold JsString.eqb. now destruct (list_eq_dec N.eq_dec a a). Qed.

Lemma isWordFile_docx f : fileType f = docxMime -> isWordFile unicodeLower f = true.
Proof.
  intros H. unfold isWordFile. rewrite H.
  assert (E : JsString.eqb (toLowerCase unicodeLower docxMime)
                (js "application/vnd.openxmlformats-officedocument.wordprocessingml.document")
              = true) by (vm_compute; reflexivity).
  now rewrite E.
Qed.

(** What the route answers to a file whose MIME type is none of PDF, DOCX
    and image. *)
Lemma route_rejects_mime f :
  mimetype (toUpload f) = fileType f ->
  fileType f <> pdfMime -> fileType f <> docxMime ->
  startsWith (js "image/") (fileType f) = false ->
  viaUploadRoute toUpload f
    = Fetched 400 (Some (errorBody (js "Unsupported file type: " ++ fileType f))).
Proof.
  intros Hm Hpdf Hdocx Himg.
  unfold viaUploadRoute, postUploadExtract, uploadExtractRoute. cbn [dispatch].
  unfold uploadExtractFirst. rewrite Hm.
  change (js "application/pdf") with pdfMime.
  now rewrite (jeqb_neq _ _ Hpdf), (jeqb_neq _ _ Hdocx), Himg.
Qed.

Lemma extractWord_rejected f :
  mimetype (toUpload f) = fileType f ->
  fileType f <> pdfMime -> fileType f <> docxMime ->
  startsWith (js "image/") (fileType f) = false ->
  extractWordViaServer numberToString (viaUploadRoute toUpload) f
    = ([], Err (mkError (js "Unsupported file type: " ++ fileType f))).
Proof.
  intros Hm Hpdf Hdocx Himg. unfold extractWordViaServer.
  rewrite (route_rejects_mime f Hm Hpdf Hdocx Himg). reflexivity.
Qed.

(** A Word file whose MIME type is none of PDF, DOCX and image (a legacy
    [.doc], or a file recognized as Word only by its name) is refused by the
    upload route, so [processFile] makes no pdf.js or OCR request, sets
    "Failed to process document" and stores no text. *)
Theorem word_file_refused_by_route f st :
  isWordFile unicodeLower f = true ->
  mimetype (toUpload f) = fileType f ->
  fileType f <> pdfMime -> fileType f <> docxMime ->
  startsWith (js "image/") (fileType f) = false ->
  let run := processFile Tesseract unicodeLower numberToString
               (viaUploadRoute toUpload) f st in
  snd run = []
  /\ error (fst run) = js "Failed to process document"
  /\ extracted (fst run) = extracted st
  /\ loading (fst run) = false.
Proof.
  intros Hword Hm Hpdf Hdocx Himg. cbv zeta.
  unfold processFile, extractFor. rewrite Hword.
  rewrite (extractWord_rejected f Hm Hpdf Hdocx Himg). cbn. repeat split.
Qed.

(** The same file chosen in the file input: when it passes the type
    check, [onFileChange] surfaces the route's refusal as
    "Error processing file: Unsupported file type: ..." and resets the
    input: no file becomes pending and the shown name is cleared. *)
Theorem selected_word_file_refused f v :
  (existsb (JsString.eqb (fileType f)) Intake.validTypes
   || Intake.hasUploadExtension (fileName f))%bool = true ->
  isWordFile unicodeLower f = true ->
  mimetype (toUpload f) = fileType f ->
  fileType f <> pdfMime -> fileType f <> docxMime ->
  startsWith (js "image/") (fileType f) = false ->
  let run := Intake.onFileChange Tesseract unicodeLower numberToString
               (viaUploadRoute toUpload) recognizeImage (Some f) v in
  snd run = ([], [])
  /\ error (Intake.cells (fst run))
     = js "Error processing file: Unsupported file type: " ++ fileType f
  /\ Intake.chosen (fst run) = Intake.mkSelection None []
  /\ loading (Intake.cells (fst run)) = false.
Proof.
  intros Hvalid Hword Hm Hpdf Hdocx Himg. cbv zeta.
  unfold Intake.onFileChange.
  assert (Hv : (negb (existsb (JsString.eqb (fileType f)) Intake.validTypes)
                && negb (Intake.hasUploadExtension (fileName f)))%bool = false).
  { rewrite <- negb_orb, Hvalid. reflexivity. }
  rewrite Hv. unfold Intake.extractSelected.
  change (js "application/pdf") with pdfMime.
  rewrite (jeqb_neq _ _ Hpdf), Hword.
  rewrite (extractWord_rejected f Hm Hpdf Hdocx Himg). cbn.
  repeat split.
Qed.

(** A DOCX file reaches the first handler of the route, which answers with
    mammoth's raw text or, when that is empty, with the placeholder "No text
    could be extracted"; [processFile] stores that answer trimmed, so an
    empty document ends with the placeholder as its extracted text, and
    chosen in the file input it is turned away as not a circular. *)
Theorem docx_text_through_route f st v t :
  fileType f = docxMime ->
  mimetype (toUpload f) = docxMime ->
  mammothText (toUpload f) = Some t ->
  let run := processFile Tesseract unicodeLower numberToString
               (viaUploadRoute toUpload) f st in
  let chosenRun := Intake.onFileChange Tesseract unicodeLower numberToString
                     (viaUploadRoute toUpload) recognizeImage (Some f) v in
  snd run = []
  /\ error (fst run) = []
  /\ extracted (fst run)
     = trim (if isEmpty t then js "No text could be extracted" else t)
  /\ (t = [] ->
      extracted (fst run) = js "No text could be extracted"
      /\ error (Intake.cells (fst chosenRun)) = Intake.notCircularMessage
      /\ Intake.pendingFile (Intake.chosen (fst chosenRun))
         = Intake.pendingFile (Intake.chosen v)).
Proof.
  intros Htype Hm Hmam. cbv zeta.
  assert (Hx : extractWordViaServer numberToString (viaUploadRoute toUpload) f
               = ([], Ok (trim (if isEmpty t then js "No text could be extracted" else t)))).
  { unfold extractWordViaServer, viaUploadRoute, postUploadExtract, uploadExtractRoute.
    cbn [dispatch]. unfold uploadExtractFirst. rewrite Hm.
    change (JsString.eqb docxMime (js "application/pdf")) with false.
    rewrite jeqb_refl, Hmam. cbv iota. unfold extractedBody.
    cbn [status body isOk N.leb N.compare Pos.compare Pos.compare_cont negb andb bodyOrEmpty].
    cbn [optProp prop lookup].
    change (JsString.eqb (js "text") (js "ok")) with false.
    change (JsString.eqb (js "text") (js "filename")) with false.
    change (JsString.eqb (js "text") (js "text")) with true. cbv iota.
    destruct t as [|c0 t0]; reflexivity. }
  assert (Hrun : processFile Tesseract unicodeLower numberToString
                   (viaUploadRoute toUpload) f st
                 = (setLoading false
                      (setExtracted
                         (trim (if isEmpty t then js "No text could be extracted" else t))
                         (resetFor st)), [])).
  { unfold processFile, extractFor. rewrite (isWordFile_docx f Htype), Hx. reflexivity. }
  rewrite Hrun. cbn [fst snd].
  split; [reflexivity|]. split; [reflexivity|]. split; [reflexivity|].
  intros ->. split; [vm_compute; reflexivity|].
  unfold Intake.onFileChange. rewrite Htype.
  assert (Hv : existsb (JsString.eqb docxMime) Intake.validTypes = true)
    by (vm_compute; reflexivity).
  rewrite Hv. cbn [negb andb]. unfold Intake.extractSelected. rewrite Htype.
  change (JsString.eqb docxMime (js "application/pdf")) with false. cbv iota.
  rewrite (isWordFile_docx f Htype), Hx. cbn [isEmpty].
  assert (Hc : isLikelyCircular unicodeLower (trim (js "No text could be extracted")) = false)
    by (vm_compute; reflexivity).
  rewrite Hc. cbn. split; reflexivity.
Qed.

End UploadMore.

(** * Further properties of the extraction *)

Section ExtractionMore.
Variable unicodeLower : jsstring -> jsstring.
Variable numberToString : float -> jsstring.
Variable fetchUploadExtract : file -> fetchOutcome.

Lemma bind_trace A B (m : IO A) (k : A -> IO B) :
  fst (bind m k) = fst m ++ match snd m with Ok a => fst (k a) | Err _ => [] end.
Proof.
  destruct m as [t [a|e]]; cbn.
  - now destruct (k a).
  - now rewrite app_nil_r.
Qed.

Lemma bind_result A B (m : IO A) (k : A -> IO B) :
  snd (bind m k) = match snd m with Ok a => snd (k a) | Err e => Err e end.
Proof. destruct m as [t [a|e]]; cbn; [now destruct (k a) | reflexivity]. Qed.

Lemma ocrBacked_nil : ocrBacked [] /\ noOcr [].
Proof.
  split; [split|].
  - intros p s H. destruct H.
  - intros before p after H. destruct before; discriminate.
  - intros p H. destruct H.
Qed.

Lemma ocrBacked_app a b : ocrBacked a -> ocrBacked b -> ocrBacked (a ++ b).
Proof.
  intros [Ha1 Ha2] [Hb1 Hb2]. split.
  - intros p s H. apply in_app_or in H as [H|H]; eauto.
  - intros before p after H.
    apply app_eq_app in H as (l & [[Ea Eb]|[Ea Eb]]).
    + destruct l as [|x l].
      * cbn in Eb. destruct (Hb2 [] p after (eq_sym Eb)) as (earlier & He).
        destruct earlier; discriminate.
      * cbn in Eb. injection Eb as <- _. exact (Ha2 before p l Ea).
    + destruct (Hb2 l p after Eb) as (earlier & ->).
      exists (a ++ earlier). now rewrite Ea, app_assoc.
Qed.

Lemma noOcr_app a b : noOcr a -> noOcr b -> noOcr (a ++ b).
Proof. intros Ha Hb p H. apply in_app_or in H as [H|H]; [exact (Ha p H) | exact (Hb p H)]. Qed.

Lemma ocrBacked_text p t : ocrBacked t -> ocrBacked (TextLayer p :: t).
Proof.
  intros H. apply (ocrBacked_app [TextLayer p] t); [|exact H]. split.
  - intros q s [E|[]]. discriminate.
  - intros [|x before] q after E; [discriminate|].
    injection E as _ E. destruct before; discriminate.
Qed.

Lemma ocrBacked_render p t : ocrBacked t -> ocrBacked (RenderPage p 2 :: t).
Proof.
  intros H. apply (ocrBacked_app [RenderPage p 2] t); [|exact H]. split.
  - intros q s [E|[]]. now injection E.
  - intros [|x before] q after E; [discriminate|].
    injection E as _ E. destruct before; discriminate.
Qed.

Lemma ocrBacked_recognized p t : ocrBacked t -> ocrBacked (RenderPage p 2 :: OcrPage p :: t).
Proof.
  intros H. apply (ocrBacked_app [RenderPage p 2; OcrPage p] t); [|exact H]. split.
  - intros q s [E|[E|[]]]; [now injection E | discriminate].
  - intros [|x [|y before]] q after E; [discriminate | |].
    + injection E as <- <-. now exists [].
    + injection E as _ _ E. destruct before; discriminate.
Qed.

Lemma noOcr_cons e t : (forall p, e <> OcrPage p) -> noOcr t -> noOcr (e :: t).
Proof. intros He Ht p [H|H]; [exact (He p H) | exact (Ht p H)]. Qed.

Lemma directPass_trace pages : forall p acc,
  ocrBacked (fst (directPass p pages acc)) /\ noOcr (fst (directPass p pages acc)).
Proof.
  induction pages as [|pg rest IH]; intros p acc; cbn [directPass].
  - apply ocrBacked_nil.
  - unfold getPage, getTextContent.
    destruct (getPageOk pg); [|apply ocrBacked_nil].
    destruct (textContent pg) as [items|]; cbn [bind emit ret throw app fst snd].
    + destruct (Nat.ltb (List.length (pageTextOf items)) 50); cbn [bind ret app fst].
      * split; [apply ocrBacked_text, ocrBacked_nil | apply noOcr_cons; [discriminate|]];
          apply ocrBacked_nil.
      * destruct (IH (S p) (acc ++ pageTextOf items ++ nl2)) as [H1 H2].
        destruct (directPass (S p) rest _) as [t r]. cbn [fst app] in *.
        split; [now apply ocrBacked_text | apply noOcr_cons; [discriminate | exact H2]].
    + split; [apply ocrBacked_text, ocrBacked_nil | apply noOcr_cons; [discriminate|]];
        apply ocrBacked_nil.
Qed.

Lemma ocrPass_trace Tesseract pages : forall p acc,
  ocrBacked (fst (ocrPass Tesseract p pages acc))
  /\ (Tesseract = false -> noOcr (fst (ocrPass Tesseract p pages acc))).
Proof.
  induction pages as [|pg rest IH]; intros p acc; cbn [ocrPass].
  - split; [|intros _]; apply ocrBacked_nil.
  - unfold getPage, render, ocrCanvas.
    destruct (getPageOk pg); [|split; [|intros _]; apply ocrBacked_nil].
    destruct (canvasContext pg); cbn [negb bind ret app emit];
      [|specialize (IH (S p) acc); destruct (ocrPass Tesseract (S p) rest acc); exact IH].
    destruct (renderOk pg); cbn.
    2:{ split; [apply ocrBacked_render, ocrBacked_nil|].
        intros _. apply noOcr_cons; [discriminate | apply ocrBacked_nil]. }
    destruct Tesseract; cbn.
    + destruct (recognized pg) as [text|]; cbn.
      * destruct (IH (S p) (acc ++ trim text ++ nl2)) as [H1 _].
        destruct (ocrPass true (S p) rest _) as [t r]. cbn in *.
        split; [now apply ocrBacked_recognized | discriminate].
      * split; [apply ocrBacked_recognized, ocrBacked_nil | discriminate].
    + split; [apply ocrBacked_render, ocrBacked_nil|].
      intros _. apply noOcr_cons; [discriminate | apply ocrBacked_nil].
Qed.

Lemma ocrParts_trace Tesseract pages : forall p parts,
  ocrBacked (fst (ocrParts Tesseract p pages parts))
  /\ (Tesseract = false -> noOcr (fst (ocrParts Tesseract p pages parts))).
Proof.
  induction pages as [|pg rest IH]; intros p parts; cbn [ocrParts].
  - split; [|intros _]; apply ocrBacked_nil.
  - unfold getPage, render, ocrCanvas.
    destruct (getPageOk pg); [|split; [|intros _]; apply ocrBacked_nil].
    destruct (canvasContext pg); cbn [negb bind ret app emit throw];
      [|split; [|intros _]; apply ocrBacked_nil].
    destruct (renderOk pg); cbn.
    2:{ split; [apply ocrBacked_render, ocrBacked_nil|].
        intros _. apply noOcr_cons; [discriminate | apply ocrBacked_nil]. }
    destruct Tesseract; cbn.
    + destruct (recognized pg) as [text|]; cbn.
      * destruct (IH (S p) (if isEmpty (trim text) then parts else parts ++ [trim text]))
          as [H1 _].
        destruct (ocrParts true (S p) rest _) as [t r]. cbn in *.
        split; [now apply ocrBacked_recognized | discriminate].
      * split; [apply ocrBacked_recognized, ocrBacked_nil | discriminate].
    + split; [apply ocrBacked_render, ocrBacked_nil|].
      intros _. apply noOcr_cons; [discriminate | apply ocrBacked_nil].
Qed.

Lemma tryCatch_trace A (m : IO A) (h : jsError -> IO A) :
  (forall e, fst (h e) = []) -> fst (tryCatch m h) = fst m.
Proof.
  intros H. destruct m as [t [a|e]]; cbn; [reflexivity|].
  specialize (H e). destruct (h e) as [t' r]. cbn in *. subst. apply app_nil_r.
Qed.

Lemma extractPdfText_trace Tesseract f :
  ocrBacked (fst (Client.extractPdfText Tesseract f))
  /\ (Tesseract = false -> noOcr (fst (Client.extractPdfText Tesseract f))).
Proof.
  unfold Client.extractPdfText. rewrite tryCatch_trace by reflexivity.
  rewrite bind_trace. unfold getDocument.
  destruct (document f) as [pages|]; cbn [fst snd ret throw app];
    [|split; [|intros _]; apply ocrBacked_nil].
  rewrite bind_trace.
  destruct (directPass_trace pages 1 []) as [D1 D2].
  destruct (snd (directPass 1 pages [])) as [[isScanned fullText]|e].
  2:{ rewrite app_nil_r. split; [exact D1 | intros _; exact D2]. }
  destruct (negb isScanned && Nat.ltb 0 (List.length (trim fullText)))%bool.
  - cbn [ret fst]. rewrite app_nil_r. split; [exact D1 | intros _; exact D2].
  - rewrite bind_trace.
    destruct (ocrPass_trace Tesseract pages 1 []) as [O1 O2].
    assert (E : fst (ocrPass Tesseract 1 pages []) ++
                match snd (ocrPass Tesseract 1 pages []) with
                | Ok a => fst (ret (trim a) : IO jsstring)
                | Err _ => []
                end = fst (ocrPass Tesseract 1 pages [])).
    { destruct (snd (ocrPass Tesseract 1 pages [])); cbn; apply app_nil_r. }
    rewrite E.
    split; [now apply ocrBacked_app | intros HT; apply noOcr_app; auto].
Qed.

Lemma ocrHelper_trace Tesseract f :
  ocrBacked (fst (extractTextFromPdfViaOCR Tesseract f))
  /\ (Tesseract = false -> noOcr (fst (extractTextFromPdfViaOCR Tesseract f))).
Proof.
  unfold extractTextFromPdfViaOCR. rewrite tryCatch_trace by reflexivity.
  unfold ocrAllPages, arrayBuffer, getDocument. rewrite bind_trace.
  destruct (arrayBufferOk f); cbn [fst snd ret throw app];
    [|split; [|intros _]; apply ocrBacked_nil].
  rewrite bind_trace.
  destruct (document f) as [pages|]; cbn [fst snd ret throw app];
    [|split; [|intros _]; apply ocrBacked_nil].
  rewrite bind_trace.
  destruct (ocrParts_trace Tesseract pages 1 []) as [O1 O2].
  assert (E : fst (ocrParts Tesseract 1 pages []) ++
              match snd (ocrParts Tesseract 1 pages []) with
              | Ok a => fst (ret (trim (join nl2 a)) : IO jsstring)
              | Err _ => []
              end = fst (ocrParts Tesseract 1 pages [])).
  { destruct (snd (ocrParts Tesseract 1 pages [])); cbn; apply app_nil_r. }
  rewrite E. split; assumption.
Qed.

Lemma extractWord_no_trace f :
  fst (extractWordViaServer numberToString fetchUploadExtract f) = [].
Proof.
  unfold extractWordViaServer.
  destruct (fetchUploadExtract f) as [e|status body]; [reflexivity|].
  destruct (negb (isOk status)); [reflexivity|].
  now destruct (orElse _ _).
Qed.

(** Whatever the file and whatever pdf.js and the OCR engine answer or
    refuse, [processFile] only ever renders pages at scale 2 and recognizes a
    page only directly after rendering that page; and when the OCR engine is
    not loaded it recognizes no page at all. *)
Theorem processFile_ocr_discipline Tesseract f st :
  ocrBacked (snd (processFile Tesseract unicodeLower numberToString fetchUploadExtract f st))
  /\ (Tesseract = false ->
      noOcr (snd (processFile Tesseract unicodeLower numberToString
                    fetchUploadExtract f st))).
Proof.
  unfold processFile.
  assert (H : ocrBacked (fst (extractFor Tesseract unicodeLower numberToString
                                fetchUploadExtract f))
              /\ (Tesseract = false ->
                  noOcr (fst (extractFor Tesseract unicodeLower numberToString
                                fetchUploadExtract f)))).
  { unfold extractFor. destruct (isWordFile unicodeLower f).
    - rewrite extractWord_no_trace. split; [|intros _]; apply ocrBacked_nil.
    - destruct (JsString.eqb (fileType f) (js "application/pdf"));
        [|split; [|intros _]; apply ocrBacked_nil].
      unfold arrayBuffer. destruct (arrayBufferOk f);
        [|split; [|intros _]; apply ocrBacked_nil].
      rewrite bind_trace. cbn [fst snd ret app].
      rewrite bind_trace.
      destruct (extractPdfText_trace Tesseract f) as [X1 X2].
      destruct (ocrHelper_trace Tesseract f) as [H1 H2].
      destruct (snd (Client.extractPdfText Tesseract f)) as [text|e].
      + destruct (Nat.ltb (List.length (trim text)) 100).
        * split; [now apply ocrBacked_app | intros HT; apply noOcr_app; auto].
        * cbn. rewrite app_nil_r. split; assumption.
      + rewrite app_nil_r. split; assumption. }
  destruct (extractFor Tesseract unicodeLower numberToString fetchUploadExtract f)
    as [t r]. exact H.
Qed.

Lemma tryCatch_result A (m : IO A) (h : jsError -> IO A) a :
  snd (tryCatch m h) = Ok a ->
  snd m = Ok a \/ exists e, snd m = Err e /\ snd (h e) = Ok a.
Proof.
  destruct m as [t [x|e]]; cbn; [now left|].
  intros H. right. exists e. split; [reflexivity|]. now destruct (h e).
Qed.

Lemma extractPdfText_trimmed Tesseract f text :
  snd (Client.extractPdfText Tesseract f) = Ok text -> trim text = text.
Proof.
  unfold Client.extractPdfText. intros H.
  apply tryCatch_result in H as [H|(e & _ & H)]; [|discriminate].
  rewrite bind_result in H. unfold getDocument in H.
  destruct (document f) as [pages|]; cbn [snd ret throw] in H; [|discriminate].
  rewrite bind_result in H.
  destruct (snd (directPass 1 pages [])) as [[isScanned fullText]|e]; [|discriminate].
  destruct (negb isScanned && Nat.ltb 0 (List.length (trim fullText)))%bool.
  - cbn in H. injection H as <-. apply trim_idem.
  - rewrite bind_result in H.
    destruct (snd (ocrPass Tesseract 1 pages [])) as [x|e]; [|discriminate].
    cbn in H. injection H as <-. apply trim_idem.
Qed.

Lemma ocrHelper_trimmed Tesseract f text :
  snd (extractTextFromPdfViaOCR Tesseract f) = Ok text -> trim text = text.
Proof.
  unfold extractTextFromPdfViaOCR. intros H.
  apply tryCatch_result in H as [H|(e & _ & H)];
    [|cbn in H; injection H as <-; reflexivity].
  unfold ocrAllPages, arrayBuffer, getDocument in H. rewrite bind_result in H.
  destruct (arrayBufferOk f); cbn [snd ret throw] in H; [|discriminate].
  rewrite bind_result in H.
  destruct (document f) as [pages|]; cbn [snd ret throw] in H; [|discriminate].
  rewrite bind_result in H.
  destruct (snd (ocrParts Tesseract 1 pages [])) as [x|e]; [|discriminate].
  cbn in H. injection H as <-. apply trim_idem.
Qed.

(** Whatever [processFile] stores as extracted text has no leading and no
    trailing white space: every path of the extraction (Word through the
    server, direct PDF text, either OCR pass, other files) ends in [trim] or
    in the empty string. *)
Theorem extracted_text_is_trimmed Tesseract f st trace text :
  extractFor Tesseract unicodeLower numberToString fetchUploadExtract f = (trace, Ok text) ->
  trim text = text
  /\ extracted (fst (processFile Tesseract unicodeLower numberToString
                       fetchUploadExtract f st)) = text.
Proof.
  intros Hx. split.
  - revert Hx. unfold extractFor. destruct (isWordFile unicodeLower f).
    + unfold extractWordViaServer.
      destruct (fetchUploadExtract f) as [e|status body]; [discriminate|].
      destruct (negb (isOk status)); [discriminate|].
      destruct (orElse _ _); try discriminate.
      intros H; injection H as _ <-. apply trim_idem.
    + destruct (JsString.eqb (fileType f) (js "application/pdf"));
        [|intros H; injection H as _ <-; reflexivity].
      unfold arrayBuffer. destruct (arrayBufferOk f); [|discriminate].
      cbn [bind ret app].
      destruct (Client.extractPdfText Tesseract f) as [t [x|e]] eqn:Ex; [|discriminate].
      cbn [bind].
      destruct (Nat.ltb (List.length (trim x)) 100).
      * destruct (extractTextFromPdfViaOCR Tesseract f) as [t' [y|e]] eqn:Ey;
          [|discriminate].
        intros H; injection H as _ <-.
        apply (ocrHelper_trimmed Tesseract f). now rewrite Ey.
      * cbn. intros H; injection H as _ <-.
        apply (extractPdfText_trimmed Tesseract f). now rewrite Ex.
  - unfold processFile. now rewrite Hx.
Qed.

(** On a document whose text layers can all be read, the first pass of
    [extractPdfText] reads the text layers up to and including the first page
    under 50 characters and no further; it flags the document as scanned
    exactly when there is such a page, and has collected the texts of the
    pages before it. *)
Theorem directPass_stops_at_first_short_page pages : forall p acc,
  forallb readable pages = true ->
  directPass p pages acc =
    (map TextLayer (List.seq p (Nat.min (List.length pages) (S (leadingNative pages)))),
     Ok (negb (forallb nativePage pages),
         acc ++ suffixed nl2 (map pageText (firstn (leadingNative pages) pages)))).
Proof.
  exact (directPass_first_short pages).
Qed.

End ExtractionMore.

(** * Further properties of the circular heuristic *)

Section ClassifierMore.
Variable unicodeLower : jsstring -> jsstring.

(** Only the first 2000 code units of a text are looked at: whatever
    follows them never changes the answer of [isLikelyCircular]. *)
Theorem isLikelyCircular_ignores_tail pre rest :
  List.length pre = 2000 ->
  isLikelyCircular unicodeLower (pre ++ rest) = isLikelyCircular unicodeLower pre.
Proof.
  intros H. unfold isLikelyCircular, sampleText, slice0.
  assert (Hs : firstn 2000 (pre ++ rest) = firstn 2000 pre).
  { rewrite firstn_app, H, Nat.sub_diag, firstn_O. apply app_nil_r. }
  rewrite Hs. destruct pre as [|c pre']; [discriminate H | reflexivity].
Qed.

Lemma canonicalize_lower c : canonicalize (lowerAsciiUnit c) = canonicalize c.
Proof.
  unfold canonicalize, lowerAsciiUnit.
  destruct (N.leb 65 c && N.leb c 90)%bool eqn:E.
  - apply andb_true_iff in E as [E1 E2]. apply N.leb_le in E1, E2.
    assert (H1 : (N.leb 97 (c + 32) && N.leb (c + 32) 122)%bool = true).
    { apply andb_true_iff. split; apply N.leb_le; lia. }
    assert (H2 : (N.leb 97 c && N.leb c 122)%bool = false).
    { apply andb_false_iff. left. apply N.leb_gt. lia. }
    rewrite H1, H2. lia.
  - reflexivity.
Qed.

Lemma Infix_map (g : N -> N) w s : Infix w s -> Infix (map g w) (map g s).
Proof. intros (a & b & ->). exists (map g a), (map g b). now rewrite !map_app. Qed.

Lemma keyword_pattern kw :
  In kw circularKeywords ->
  exists r, In r circularIndicators /\ caseBlind r = true /\ accepts r kw = true.
Proof.
  intros H.
  assert (E : existsb (fun r => caseBlind r && accepts r kw)%bool circularIndicators = true).
  { repeat (destruct H as [<-|H]; [vm_compute; reflexivity|]). destruct H. }
  apply existsb_exists in E as (r & Hr & E). apply andb_true_iff in E as [E1 E2].
  exists r. auto.
Qed.

(** A text whose first 2000 code units are ASCII and contain, in any
    letter case, one of the words the indicators spell out ("circular",
    "rbi", "all banks", "master direction", ...) is taken for a circular. *)
Theorem isLikelyCircular_keyword text kw w :
  In kw circularKeywords ->
  map canonicalize w = map canonicalize kw ->
  Infix w (slice0 2000 text) ->
  forallb isAsciiUnit (slice0 2000 text) = true ->
  isLikelyCircular unicodeLower text = true.
Proof.
  intros Hkw Hw Hinf Hascii.
  destruct (keyword_pattern kw Hkw) as (r & Hr & Hblind & Hacc).
  assert (Hne : w <> []).
  { intros ->. destruct kw; [|discriminate Hw].
    revert Hkw. unfold circularKeywords.
    intros H; repeat (destruct H as [H|H]; [discriminate H|]); destruct H. }
  unfold isLikelyCircular.
  destruct text as [|c0 t0] eqn:Et.
  { destruct Hinf as (a & b & E). unfold slice0 in E. rewrite firstn_nil in E.
    destruct a; [|discriminate]. destruct w; [contradiction | discriminate]. }
  cbn [isEmpty]. apply existsb_exists. exists r. split; [exact Hr|].
  unfold sampleText, toLowerCase. rewrite Hascii.
  apply (test_Infix r (map lowerAsciiUnit w)).
  - apply (accepts_same_case r _ kw Hblind); [|exact Hacc].
    rewrite map_map. rewrite <- Hw. apply map_ext. apply canonicalize_lower.
  - apply Infix_map. exact Hinf.
Qed.

Lemma opensWithLetter_dead r :
  opensWithLetter r = true ->
  nullable r = false \/ r = Never.
Proof.
  induction r as [| |k|r1 IH1 r2 IH2|r1 IH1 r2 IH2|r1 IH1]; cbn; intros H;
    try discriminate; auto.
  - destruct (IH1 H) as [E| ->]; [left; now rewrite E | left; reflexivity].
  - apply andb_true_iff in H as [H1 H2].
    destruct (IH1 H1) as [E1| ->]; destruct (IH2 H2) as [E2| ->]; cbn;
      rewrite ?E1, ?E2; auto.
Qed.

Lemma opensWithLetter_deriv c r :
  isAsciiLetter c = false -> opensWithLetter r = true -> deriv c r = Never.
Proof.
  intros Hc. unfold isAsciiLetter in Hc.
  apply orb_false_iff in Hc as [Hu Hl].
  induction r as [| |k|r1 IH1 r2 IH2|r1 IH1 r2 IH2|r1 IH1]; cbn; intros H;
    try discriminate; auto.
  - destruct k as [p|p| |lo hi| |cs]; try discriminate.
    + assert (E : N.eqb (canonicalize c) (canonicalize p) = false).
      { apply N.eqb_neq. unfold canonicalize. rewrite Hl.
        unfold isAsciiLetter in H.
        apply andb_false_iff in Hu. 
        destruct (N.leb 97 p && N.leb p 122)%bool eqn:Ep.
        - apply andb_true_iff in Ep as [E1 E2]. apply N.leb_le in E1, E2.
          destruct Hu as [Hu|Hu]; apply N.leb_gt in Hu; lia.
        - rewrite orb_false_r in H. apply andb_true_iff in H as [E1 E2].
          apply N.leb_le in E1, E2.
          destruct Hu as [Hu|Hu]; apply N.leb_gt in Hu; lia. }
      cbn. now rewrite E.
    + apply andb_true_iff in H as [E1 E2]. apply N.leb_le in E1, E2.
      assert (E : (N.leb lo c && N.leb c hi)%bool = false).
      { apply andb_false_iff. apply andb_false_iff in Hu.
        destruct Hu as [Hu|Hu]; apply N.leb_gt in Hu;
          [left | right]; apply N.leb_gt; lia. }
      cbn. now rewrite E.
  - rewrite (IH1 H).
    destruct (opensWithLetter_dead r1 H) as [E| ->]; [now rewrite E | reflexivity].
  - apply andb_true_iff in H as [H1 H2]. now rewrite (IH1 H1), (IH2 H2).
Qed.

Lemma test_needs_letter r s :
  opensWithLetter r = true -> forallb (fun c => negb (isAsciiLetter c)) s = true ->
  test r s = false.
Proof.
  intros Hr. induction s as [|c s IH]; cbn [forallb test matchesPrefix]; intros H.
  - destruct (opensWithLetter_dead r Hr) as [E| ->]; [now rewrite E | reflexivity].
  - apply andb_true_iff in H as [Hc Hs]. apply negb_true_iff in Hc.
    rewrite (opensWithLetter_deriv c r Hc Hr), matchesPrefix_Never, (IH Hs).
    destruct (opensWithLetter_dead r Hr) as [E| ->]; [now rewrite E | reflexivity].
Qed.

(** A text whose first 2000 code units are ASCII and hold no letter
    (digits, punctuation, white space only) is never taken for a circular:
    every indicator starts with a letter. *)
Theorem isLikelyCircular_needs_letter text :
  forallb (fun c => isAsciiUnit c && negb (isAsciiLetter c))%bool (slice0 2000 text) = true ->
  isLikelyCircular unicodeLower text = false.
Proof.
  intros H. unfold isLikelyCircular. destruct (isEmpty text); [reflexivity|].
  assert (Hascii : forallb isAsciiUnit (slice0 2000 text) = true).
  { rewrite forallb_forall in *. intros c Hc. specialize (H c Hc).
    now apply andb_true_iff in H as [H _]. }
  assert (Hplain : forallb (fun c => negb (isAsciiLetter c))
                     (map lowerAsciiUnit (slice0 2000 text)) = true).
  { rewrite forallb_forall in *. intros c Hc.
    apply in_map_iff in Hc as (d & <- & Hd). specialize (H d Hd).
    apply andb_true_iff in H as [_ H]. apply negb_true_iff in H.
    apply negb_true_iff. unfold lowerAsciiUnit, isAsciiLetter in *.
    apply orb_false_iff in H as [H1 H2]. now rewrite H1, H1, H2. }
  unfold sampleText, toLowerCase. rewrite Hascii.
  assert (Hall : forallb opensWithLetter circularIndicators = true)
    by (vm_compute; reflexivity).
  rewrite forallb_forall in Hall.
  destruct (existsb _ circularIndicators) eqn:E; [|reflexivity].
  apply existsb_exists in E as (r & Hr & Ht).
  rewrite (test_needs_letter r _ (Hall r Hr) Hplain) in Ht. discriminate.
Qed.

End ClassifierMore.

(** * Properties of the file input *)

Section IntakeMore.
Variable Tesseract : bool.
Variable unicodeLower : jsstring -> jsstring.
Variable numberToString : float -> jsstring.
Variable fetchUploadExtract : file -> fetchOutcome.
Variable recognizeImage : file -> option jsstring.

(** The classifier is a gate: starting with no pending file,
    [onFileChange] makes a file pending only if it is the chosen file, it
    passed the type check, its text was extracted without an error and
    [isLikelyCircular] accepted that text. *)
Theorem onFileChange_gate selected v g :
  Intake.pendingFile (Intake.chosen v) = None ->
  Intake.pendingFile
    (Intake.chosen
       (fst (Intake.onFileChange Tesseract unicodeLower numberToString
               fetchUploadExtract recognizeImage selected v))) = Some g ->
  selected = Some g
  /\ (existsb (JsString.eqb (fileType g)) Intake.validTypes
      || Intake.hasUploadExtension (fileName g))%bool = true
  /\ exists trace text,
       Intake.extractSelected Tesseract unicodeLower numberToString
         fetchUploadExtract recognizeImage g = (trace, Ok text)
       /\ isLikelyCircular unicodeLower text = true.
Proof.
  intros Hnone. unfold Intake.onFileChange.
  destruct selected as [f|]; [|cbn; congruence].
  destruct (negb (existsb (JsString.eqb (fileType f)) Intake.validTypes)
            && negb (Intake.hasUploadExtension (fileName f)))%bool eqn:Ev;
    [cbn; congruence|].
  destruct (Intake.extractSelected Tesseract unicodeLower numberToString
              fetchUploadExtract recognizeImage f) as [trace [text|err]] eqn:Ex.
  - destruct (isLikelyCircular unicodeLower text) eqn:Ec; cbn; [|congruence].
    intros H; injection H as <-. split; [reflexivity|]. split.
    + rewrite <- negb_orb in Ev. now apply negb_false_iff in Ev.
    + exists trace, text. auto.
  - cbn. discriminate.
Qed.

(** A file that passes the type check only by its extension, with a MIME
    type that is none of PDF, Word and image (an empty type, say), is never
    read: [onFileChange] makes no request at all and turns it away as not a
    circular, leaving the pending file as it was. *)
Theorem extension_only_file_never_read f v :
  Intake.hasUploadExtension (fileName f) = true ->
  fileType f <> pdfMime ->
  isWordFile unicodeLower f = false ->
  startsWith (js "image/") (fileType f) = false ->
  let run := Intake.onFileChange Tesseract unicodeLower numberToString
               fetchUploadExtract recognizeImage (Some f) v in
  snd run = ([], [])
  /\ error (Intake.cells (fst run)) = Intake.notCircularMessage
  /\ Intake.pendingFile (Intake.chosen (fst run)) = Intake.pendingFile (Intake.chosen v)
  /\ Intake.shownName (Intake.chosen (fst run)) = fileName f.
Proof.
  intros Hext Hpdf Hword Himg. cbv zeta. unfold Intake.onFileChange.
  rewrite Hext, andb_false_r. unfold Intake.extractSelected.
  change (js "application/pdf") with pdfMime.
  rewrite (jeqb_neq _ _ Hpdf), Hword, Himg. cbn. repeat split.
Qed.

(** Whatever is chosen, [onFileChange] creates at most one object URL and
    revokes it, whether recognition succeeds or throws; it creates none when
    the OCR engine is not loaded, and none for a file it reads through pdf.js. *)
Theorem onFileChange_revokes_object_url selected v :
  let run := Intake.onFileChange Tesseract unicodeLower numberToString
               fetchUploadExtract recognizeImage selected v in
  (snd (snd run) = []
   \/ snd (snd run)
      = [Intake.CreateObjectURL; Intake.RecognizeImage; Intake.RevokeObjectURL])
  /\ (Tesseract = false -> snd (snd run) = [])
  /\ (snd (snd run) <> [] -> fst (snd run) = []).
Proof.
  cbv zeta. unfold Intake.onFileChange.
  destruct selected as [f|]; [|cbn; auto].
  destruct (negb (existsb (JsString.eqb (fileType f)) Intake.validTypes)
            && negb (Intake.hasUploadExtension (fileName f)))%bool; [cbn; auto|].
  assert (H : let x := Intake.extractSelected Tesseract unicodeLower numberToString
                         fetchUploadExtract recognizeImage f in
              (snd (fst x) = []
               \/ snd (fst x)
                  = [Intake.CreateObjectURL; Intake.RecognizeImage; Intake.RevokeObjectURL])
              /\ (Tesseract = false -> snd (fst x) = [])
              /\ (snd (fst x) <> [] -> fst (fst x) = [])).
  { cbv zeta. unfold Intake.extractSelected.
    destruct (JsString.eqb (fileType f) (js "application/pdf")).
    { destruct (arrayBuffer f ;;; Client.extractPdfText Tesseract f) as [t r].
      cbn. repeat split; auto; congruence. }
    destruct (isWordFile unicodeLower f).
    { destruct (extractWordViaServer numberToString fetchUploadExtract f) as [t r].
      cbn. repeat split; auto; congruence. }
    destruct (startsWith (js "image/") (fileType f)); [|cbn; repeat split; auto; congruence].
    unfold Intake.ocrImageBlob. destruct Tesseract; cbn [negb].
    - destruct (recognizeImage f); cbn; repeat split; auto; discriminate.
    - cbn. repeat split; auto; congruence. }
  destruct (Intake.extractSelected Tesseract unicodeLower numberToString
              fetchUploadExtract recognizeImage f) as [[t u] r].
  cbn [fst snd] in *. exact H.
Qed.

(** For a PDF all of whose pages are native, [onFileChange] reads the text
    layers only (no page is rendered or recognized, however short the text,
    since the 100-character fallback belongs to [processFile] alone) and
    makes the file pending exactly when [isLikelyCircular] accepts the page
    texts joined by blank lines. *)
Theorem selected_native_pdf f v pages :
  fileType f = pdfMime ->
  arrayBufferOk f = true ->
  document f = Some pages -> pages <> [] ->
  forallb nativePage pages = true ->
  let run := Intake.onFileChange Tesseract unicodeLower numberToString
               fetchUploadExtract recognizeImage (Some f) v in
  snd run = (map TextLayer (List.seq 1 (List.length pages)), [])
  /\ Intake.pendingFile (Intake.chosen (fst run))
     = (if isLikelyCircular unicodeLower (join nl2 (map pageText pages)) then Some f
        else Intake.pendingFile (Intake.chosen v)).
Proof.
  intros Htype Hbuf Hdoc Hne Hnat. cbv zeta. unfold Intake.onFileChange.
  rewrite Htype.
  assert (Hv : existsb (JsString.eqb pdfMime) Intake.validTypes = true)
    by (vm_compute; reflexivity).
  rewrite Hv. cbn [negb andb]. unfold Intake.extractSelected. rewrite Htype.
  change (JsString.eqb pdfMime (js "application/pdf")) with true. cbv iota.
  unfold arrayBuffer. rewrite Hbuf.
  rewrite (extractPdfText_native Tesseract f pages Hdoc Hne Hnat).
  cbn [bind ret app].
  destruct (isLikelyCircular unicodeLower (join nl2 (map pageText pages)));
    cbn; split; reflexivity.
Qed.

End IntakeMore.

(** * Properties of the banks and users routes *)

Import Backoffice.

Section BackofficeMore.
Variable unicodeLower : jsstring -> jsstring.
Variable numberToString : float -> jsstring.

Lemma jeqb_eq a b : JsString.eqb a b = true -> a = b.
Proof. unfold JsString.eqb. now destruct (list_eq_dec N.eq_dec a b). Qed.

Lemma trimStart_length s : List.length (trimStart s) <= List.length s.
Proof.
  induction s as [|c s IH]; cbn [trimStart]; [lia|].
  destruct (isTrimmable c); cbn [List.length] in *; lia.
Qed.

Lemma trimEnd_length s : List.length (trimEnd s) <= List.length s.
Proof.
  induction s as [|c s IH]; cbn [trimEnd]; [lia|].
  destruct (trimEnd s) as [|d t].
  - destruct (isTrimmable c); cbn [List.length] in *; lia.
  - cbn [List.length] in *. lia.
Qed.

Lemma trim_length s : List.length (trim s) <= List.length s.
Proof.
  unfold trim. etransitivity; [apply trimEnd_length | apply trimStart_length].
Qed.

Lemma safeString_cut x max :
  safeString numberToString x max
    = firstn max (match x with
                  | None | Some JNull => []
                  | Some v => toJsString numberToString v
                  end)
  /\ List.length (safeString numberToString x max) <= max.
Proof.
  unfold safeString, slice0.
  set (s := match x with None | Some JNull => [] | Some v => toJsString numberToString v end).
  destruct (Nat.ltb_spec max (List.length s)) as [Hlt|Hge].
  - split; [reflexivity|]. rewrite length_firstn. lia.
  - split; [symmetry; apply firstn_all2; lia | lia].
Qed.

Lemma textField_stored k d body :
  textField numberToString k d body <> [] ->
  storedField (textField numberToString k d body).
Proof.
  intros H. split; [exact H|]. unfold textField in *. split; [apply trim_idem|].
  etransitivity; [apply trim_length | apply safeString_cut].
Qed.

Lemma postBank_outcome newId reqBody st :
  let run := postBank numberToString newId reqBody st in
  (status (snd run) = 400%N /\ fst run = st)
  \/ (status (snd run) = 201%N
      /\ defaultBankId (fst run) = defaultBankId st
      /\ exists b,
           banks (fst run) = b :: banks st
           /\ bankId b = newId
           /\ storedField (bankName b) /\ storedField (bankType b)
           /\ storedField (bankState b)).
Proof.
  cbv zeta. unfold postBank.
  destruct (textFieldThrows "name" [] (bodyOf reqBody)
            || textFieldThrows "type" [] (bodyOf reqBody)
            || textFieldThrows "state" [] (bodyOf reqBody))%bool;
    [left; split; reflexivity|].
  destruct (textField numberToString "name" [] (bodyOf reqBody)) as [|n0 nt] eqn:En;
    [left; split; reflexivity|].
  destruct (textField numberToString "type" [] (bodyOf reqBody)) as [|t0 tt] eqn:Ety;
    [left; split; reflexivity|].
  destruct (textField numberToString "state" [] (bodyOf reqBody)) as [|s0 sx] eqn:Es;
    [left; split; reflexivity|].
  right. cbn [isEmpty fst snd status banks defaultBankId].
  split; [reflexivity|]. split; [reflexivity|].
  eexists. split; [reflexivity|]. cbn [bankId bankName bankType bankState].
  split; [reflexivity|].
  rewrite <- En, <- Ety, <- Es.
  repeat split; apply textField_stored; congruence.
Qed.


Lemma existsb_hasId d l :
  existsb (hasId d) l = existsb (fun i => JsString.eqb i d) (map bankId l).
Proof. induction l as [|b l IH]; cbn; [reflexivity | now rewrite IH]. Qed.

Lemma updateFirst_ids id g : forall l l',
  (forall b, bankId (g b) = bankId b) ->
  updateFirst id g l = Some l' -> map bankId l' = map bankId l.
Proof.
  induction l as [|b l IH]; intros l' Hg; cbn [updateFirst]; [discriminate|].
  destruct (hasId id b).
  - intros H; injection H as <-. cbn. now rewrite Hg.
  - destruct (updateFirst id g l) as [l0|] eqn:E; [|discriminate].
    cbn. intros H; injection H as <-. cbn. now rewrite (IH l0 Hg eq_refl).
Qed.

Lemma updateFirst_found id g : forall l l',
  updateFirst id g l = Some l' -> existsb (hasId id) l = true.
Proof.
  induction l as [|b l IH]; intros l'; cbn [updateFirst existsb]; [discriminate|].
  destruct (hasId id b); [reflexivity|].
  destruct (updateFirst id g l) as [l0|]; [|discriminate].
  intros _. apply (IH l0 eq_refl).
Qed.

Lemma putBank_ids id reqBody st :
  let st' := fst (putBank numberToString id reqBody st) in
  map bankId (banks st') = map bankId (banks st)
  /\ defaultBankId st' = defaultBankId st.
Proof.
  cbv zeta. unfold putBank.
  destruct (updateFirst id _ (banks st)) as [banks'|] eqn:E.
  - destruct (patchedThrows "name" (bodyOf reqBody)
              || patchedThrows "type" (bodyOf reqBody)
              || patchedThrows "state" (bodyOf reqBody))%bool;
      cbn [fst banks defaultBankId]; (split; [|reflexivity]); [reflexivity|].
    eapply updateFirst_ids; [|exact E]. reflexivity.
  - split; reflexivity.
Qed.

(** [PUT /api/banks/:id] never changes which banks exist: the ids of the
    store, in order, and the default bank are the same before and after,
    whether the bank was found or not. *)
Theorem putBank_keeps_ids id reqBody st :
  let st' := fst (putBank numberToString id reqBody st) in
  map bankId (banks st') = map bankId (banks st)
  /\ defaultBankId st' = defaultBankId st.
Proof.
  exact (putBank_ids id reqBody st).
Qed.

Lemma filter_keeps_length A (g : A -> bool) l :
  Nat.eqb (List.length (filter g l)) (List.length l) = forallb g l.
Proof.
  induction l as [|a l IH]; [reflexivity|]. cbn [filter forallb].
  pose proof (filter_length_le g l) as Hle.
  destruct (g a); cbn [List.length andb].
  - exact IH.
  - apply Nat.eqb_neq. lia.
Qed.

(** [DELETE /api/banks/:id] answers 200 exactly when some bank has the
    id; then every bank with that id is gone, the others are kept in order,
    and the id is no longer the default; otherwise it answers 404 and the
    store is as before. *)
Theorem deleteBank_removes_id id st :
  let run := deleteBank id st in
  (existsb (hasId id) (banks st) = true ->
   status (snd run) = 200%N
   /\ banks (fst run) = filter (fun b => negb (hasId id b)) (banks st)
   /\ existsb (hasId id) (banks (fst run)) = false
   /\ defaultBankId (fst run) <> Some id)
  /\ (existsb (hasId id) (banks st) = false ->
      status (snd run) = 404%N /\ fst run = st).
Proof.
  cbv zeta. unfold deleteBank. rewrite filter_keeps_length.
  assert (E : forallb (fun b => negb (hasId id b)) (banks st)
              = negb (existsb (hasId id) (banks st))).
  { induction (banks st) as [|b l IH]; cbn; [reflexivity|].
    rewrite IH. now destruct (hasId id b). }
  rewrite E. split; intros H; rewrite H; cbn [negb fst snd status banks defaultBankId].
  - split; [reflexivity|]. split; [reflexivity|]. split.
    + clear. induction (banks st) as [|b l IH]; cbn; [reflexivity|].
      destruct (hasId id b) eqn:Eb; cbn; [exact IH | now rewrite Eb].
    + destruct (defaultBankId st) as [d|]; [|discriminate].
      destruct (JsString.eqb d id) eqn:Ed; [discriminate|].
      intros H'; injection H' as ->. now rewrite jeqb_refl in Ed.
  - split; reflexivity.
Qed.

Lemma serveBank_keeps_default r st :
  defaultExists st -> defaultExists (fst (serveBank numberToString r st)).
Proof.
  unfold defaultExists. intros H. destruct r as [newId reqBody|id reqBody|id|id]; cbn [serveBank].
  - destruct (postBank_outcome newId reqBody st) as [[_ ->]|(_ & Hd & b & Hb & _)];
      [exact H|].
    rewrite Hd, Hb. destruct (defaultBankId st) as [d|]; [|exact I].
    cbn [existsb]. rewrite H. apply orb_true_r.
  - destruct (putBank_ids id reqBody st) as [Hi Hd]. rewrite Hd.
    destruct (defaultBankId st) as [d|]; [|exact I].
    now rewrite existsb_hasId, Hi, <- existsb_hasId.
  - unfold deleteBank.
    destruct (Nat.eqb _ _); cbn [fst banks defaultBankId]; [exact H|].
    destruct (defaultBankId st) as [d|]; [|exact I].
    destruct (JsString.eqb d id) eqn:Ed; [exact I|].
    apply existsb_exists in H as (b & Hb & Hbd).
    apply existsb_exists. exists b. split; [|exact Hbd].
    apply filter_In. split; [exact Hb|].
    unfold hasId in *. apply jeqb_eq in Hbd. rewrite Hbd, Ed. reflexivity.
  - unfold setDefaultBank.
    destruct (existsb (hasId id) (banks st)) eqn:E; cbn [fst banks defaultBankId];
      [exact E | exact H].
Qed.

(** Whatever requests the banks API serves, in whatever order, the
    default bank stays a bank of the store: deleting the default bank clears
    the default, and a bank can only be made the default while it exists. *)
Theorem default_bank_always_exists requests st :
  defaultExists st -> defaultExists (serveBanks numberToString requests st).
Proof.
  unfold serveBanks. revert st.
  induction requests as [|r rs IH]; intros st H; cbn [fold_left]; [exact H|].
  apply IH, serveBank_keeps_default, H.
Qed.

(** The routes of the banks API that write to the store answer with no
    other status than 200, 201, 400, 404 and 500 (the last only from [PUT],
    when a field of the body cannot be converted to a string), and a request
    they refuse (status 400, 404 or 500) changes nothing in the store. *)
Theorem refused_bank_request_changes_nothing r st :
  let run := serveBank numberToString r st in
  In (status (snd run)) [200; 201; 400; 404; 500]%N
  /\ ((400 <= status (snd run))%N -> fst run = st)
  /\ (status (snd run) = 500%N ->
      exists id reqBody,
        r = PutBank id reqBody
        /\ existsb (hasId id) (banks st) = true
        /\ (patchedThrows "name" (bodyOf reqBody)
            || patchedThrows "type" (bodyOf reqBody)
            || patchedThrows "state" (bodyOf reqBody))%bool = true).
Proof.
  cbv zeta. destruct r as [newId reqBody|id reqBody|id|id]; cbn [serveBank].
  - destruct (postBank_outcome newId reqBody st) as [[Hs ->]|(Hs & _)];
      rewrite Hs; (split; [cbn; auto|]);
      (split; [try reflexivity; lia | discriminate]).
  - unfold putBank. destruct (updateFirst id _ (banks st)) as [banks'|] eqn:E.
    + destruct (patchedThrows "name" (bodyOf reqBody)
                || patchedThrows "type" (bodyOf reqBody)
                || patchedThrows "state" (bodyOf reqBody))%bool eqn:Et;
        cbn [fst snd status failure]; (split; [cbn; auto 6|]);
        (split; [try reflexivity; lia|]); [|discriminate].
      intros _. exists id, reqBody. split; [reflexivity|]. split; [|exact Et].
      eapply updateFirst_found, E.
    + cbn [fst snd status failure]. split; [cbn; auto|].
      split; [reflexivity | discriminate].
  - unfold deleteBank. destruct (Nat.eqb _ _);
      cbn [fst snd status failure]; (split; [cbn; auto|]);
      (split; [try reflexivity; lia | discriminate]).
  - unfold setDefaultBank. destruct (existsb _ _);
      cbn [fst snd status failure]; (split; [cbn; auto|]);
      (split; [try reflexivity; lia | discriminate]).
Qed.

(** [POST /api/users] keeps e-mail addresses unique up to letter case:
    when no two users of the list share an address (compared lower-cased), the
    same holds after the request; an address already taken is answered 409
    and the list stays as it was. *)
Theorem postUser_keeps_emails_unique newId reqBody users :
  NoDup (map (emailKey unicodeLower) users) ->
  let run := postUser unicodeLower numberToString newId reqBody users in
  NoDup (map (emailKey unicodeLower) (fst run))
  /\ (status (snd run) <> 201%N -> fst run = users)
  /\ (existsb (sameEmail unicodeLower
                 (textField numberToString "email" [] (bodyOf reqBody))) users = true ->
      status (snd run) = 201%N -> False).
Proof.
  intros Hnd. cbv zeta. unfold postUser.
  destruct (textFieldThrows "name" [] (bodyOf reqBody)
            || textFieldThrows "email" [] (bodyOf reqBody)
            || textFieldThrows "role" (js "Maker") (bodyOf reqBody)
            || textFieldThrows "avatar" [] (bodyOf reqBody))%bool;
    [cbn; repeat split; auto; discriminate|].
  destruct (isEmpty (textField numberToString "name" [] (bodyOf reqBody)));
    [cbn; repeat split; auto; discriminate|].
  destruct (isEmpty (textField numberToString "email" [] (bodyOf reqBody)));
    [cbn; repeat split; auto; discriminate|].
  destruct (existsb (sameEmail unicodeLower
                       (textField numberToString "email" [] (bodyOf reqBody))) users) eqn:E;
    [cbn; repeat split; auto; discriminate|].
  cbn [fst snd status map]. split; [|split; [congruence | discriminate]].
  constructor; [|exact Hnd].
  unfold emailKey at 1. cbn [userEmail]. intros Hin.
  apply in_map_iff in Hin as (u & Hu & Hin).
  assert (Hsame : sameEmail unicodeLower
                    (textField numberToString "email" [] (bodyOf reqBody)) u = true).
  { unfold sameEmail. unfold emailKey in Hu. rewrite Hu. apply jeqb_refl. }
  assert (Hex : existsb (sameEmail unicodeLower
                           (textField numberToString "email" [] (bodyOf reqBody))) users = true).
  { apply existsb_exists. exists u. auto. }
  congruence.
Qed.

End BackofficeMore.

(** * The further properties on concrete runs *)

Section MoreRuns.

Lemma handleAnalyze_blank_text_witness :
  handleAnalyze noNumbers (fun _ => None) rejecting (Some (js "   ")) freshState
    = (setAiLoading false (setError (js "No text to analyze") freshState), JStr []).
Proof.
  apply (handleAnalyze_blank_text noNumbers (fun _ => None) rejecting). reflexivity.
Defined.

Lemma handleAnalyze_unstructured_witness :
  let run := handleAnalyze noNumbers (fun _ => None) (replyWith 200 (js " Plain summary "))
               (Some (js "RBI circular")) freshState in
  analysisJson (fst run) = None
  /\ aiResult (fst run) = trim (js " Plain summary ")
  /\ error (fst run) = []
  /\ applicable (fst run) = applicable freshState
  /\ snd run = JStr (if isEmpty (trim (js " Plain summary "))
                     then js "Analysis complete (unstructured)"
                     else trim (js " Plain summary ")).
Proof.
  cbv zeta.
  apply (handleAnalyze_unstructured noNumbers (fun _ => None)
           (replyWith 200 (js " Plain summary ")) (Some (js "RBI circular")) freshState 200
           (JObj [ (js "message",
                    JObj [ (js "role", JStr (js "assistant"));
                           (js "content", JStr (js " Plain summary ")) ]) ])
           (JObj [ (js "role", JStr (js "assistant"));
                   (js "content", JStr (js " Plain summary ")) ])
           (js " Plain summary ")); try reflexivity.
  vm_compute. discriminate.
Defined.

Lemma createAiTasksNow_after_failure_witness :
  exists failure,
    noteTitle failure = js "AI analysis failed"
    /\ notifications
         (Intake.createAiTasksNow
            (fst (handleAnalyze noNumbers (fun _ => None) rejecting
                    (Some (js "RBI circular")) freshState)))
       = mkNote (js "Run analysis first")
           (JStr (js "Click Action to analyze the document before creating tasks."))
         :: failure
         :: notifications (setAiLoading true (setAiResult [] (setError [] freshState)))
    /\ analysisJson
         (Intake.createAiTasksNow
            (fst (handleAnalyze noNumbers (fun _ => None) rejecting
                    (Some (js "RBI circular")) freshState))) = None.
Proof.
  apply (createAiTasksNow_after_failure noNumbers (fun _ => None) rejecting
           (Some (js "RBI circular")) freshState
           (setAiLoading true (setAiResult [] (setError [] freshState)))
           (mkError (js "Failed to fetch"))).
  reflexivity.
Defined.

Lemma missing_key_reaches_page_witness :
  (forall req,
     fst (chatHandler sameCase noNumbers noCircularId keylessEnv alwaysDown req) = []
     /\ status (snd (chatHandler sameCase noNumbers noCircularId keylessEnv alwaysDown req))
        = 400%N)
  /\ handleAnalyze noNumbers (fun _ => None)
       (viaBackend sameCase noNumbers noCircularId keylessEnv alwaysDown)
       (Some (js "RBI circular")) freshState
     = (failedWith (js "OpenAI API key is not configured")
          (setAiLoading true (setAiResult [] (setError [] freshState))),
        JStr (js "Analysis failed")).
Proof.
  apply (missing_key_reaches_page sameCase noNumbers (fun _ => None) noCircularId
           keylessEnv alwaysDown (Some (js "RBI circular")) freshState).
  - reflexivity.
  - vm_compute. discriminate.
Defined.

Lemma rate_limit_exhausted_reaches_page_witness :
  chatHandler sameCase noNumbers noCircularId (devEnv "false") alwaysLimited
    (analysisPayload (contentToAnalyze (Some (js "RBI circular")) freshState))
    = ([2000%N; 4000%N], mkResponse 429 (errorBody (js "Too Many Requests")))
  /\ handleAnalyze noNumbers (fun _ => None)
       (viaBackend sameCase noNumbers noCircularId (devEnv "false") alwaysLimited)
       (Some (js "RBI circular")) freshState
     = (failedWith (js "Too Many Requests")
          (addNotification (mkNote (js "OpenAI rate limit") (JStr (js "Too Many Requests")))
             (setAiLoading true (setAiResult [] (setError [] freshState)))),
        JStr (js "Analysis failed")).
Proof.
  apply (rate_limit_exhausted_reaches_page sameCase noNumbers (fun _ => None) noCircularId
           (devEnv "false") alwaysLimited tooManyRequests tooManyRequests tooManyRequests
           (Some (js "RBI circular")) freshState); try reflexivity.
  vm_compute. discriminate.
Defined.

Lemma ok_only_with_completion_witness :
  exists k c,
    k <= 2 /\ limitedOnce k = Completed c
    /\ body (snd (chatHandler sameCase noNumbers noCircularId (devEnv "false") limitedOnce
                    (analysisPayload (js "RBI circular"))))
       = completionBody c.
Proof.
  apply (ok_only_with_completion sameCase noNumbers noCircularId (devEnv "false")
           limitedOnce (analysisPayload (js "RBI circular"))).
  - reflexivity.
  - intros [|i] err H; cbn in H; [|discriminate H].
    injection H as <-. discriminate.
  - reflexivity.
Defined.

Lemma word_file_refused_by_route_witness :
  let run := processFile true sameCase noNumbers (viaUploadRoute asUpload) legacyDoc freshState in
  snd run = []
  /\ error (fst run) = js "Failed to process document"
  /\ extracted (fst run) = extracted freshState
  /\ loading (fst run) = false.
Proof.
  cbv zeta.
  apply (word_file_refused_by_route true sameCase noNumbers asUpload legacyDoc freshState);
    try reflexivity; vm_compute; discriminate.
Defined.

Lemma selected_word_file_refused_witness :
  let run := Intake.onFileChange true sameCase noNumbers (viaUploadRoute asUpload) noImages
               (Some legacyDoc) emptyView in
  snd run = ([], [])
  /\ error (Intake.cells (fst run))
     = js "Error processing file: Unsupported file type: " ++ fileType legacyDoc
  /\ Intake.chosen (fst run) = Intake.mkSelection None []
  /\ loading (Intake.cells (fst run)) = false.
Proof.
  cbv zeta.
  apply (selected_word_file_refused true sameCase noNumbers noImages asUpload
           legacyDoc emptyView); try reflexivity; vm_compute; discriminate.
Defined.

Lemma docx_text_through_route_witness :
  let run := processFile true sameCase noNumbers (viaUploadRoute asUpload) emptyDocx freshState in
  let chosenRun := Intake.onFileChange true sameCase noNumbers (viaUploadRoute asUpload)
                     noImages (Some emptyDocx) emptyView in
  snd run = []
  /\ error (fst run) = []
  /\ extracted (fst run)
     = trim (if isEmpty (@nil N) then js "No text could be extracted" else [])
  /\ (@nil N = [] ->
      extracted (fst run) = js "No text could be extracted"
      /\ error (Intake.cells (fst chosenRun)) = Intake.notCircularMessage
      /\ Intake.pendingFile (Intake.chosen (fst chosenRun))
         = Intake.pendingFile (Intake.chosen emptyView)).
Proof.
  cbv zeta.
  apply (docx_text_through_route true sameCase noNumbers noImages asUpload
           emptyDocx freshState emptyView []); reflexivity.
Defined.

Lemma extracted_text_is_trimmed_witness :
  trim (join nl2 (map pageText twoNativePages)) = join nl2 (map pageText twoNativePages)
  /\ extracted (fst (processFile true sameCase noNumbers offline
                       (pdfOf twoNativePages) freshState))
     = join nl2 (map pageText twoNativePages).
Proof.
  apply (extracted_text_is_trimmed sameCase noNumbers offline true
           (pdfOf twoNativePages) freshState [TextLayer 1; TextLayer 2]).
  vm_compute. reflexivity.
Defined.

Lemma directPass_stops_at_first_short_page_witness :
  directPass 1 [textPage 60 "x"; textPage 10 "y"; textPage 70 "z"] []
    = ([TextLayer 1; TextLayer 2], Ok (true, repeat 97%N 60 ++ nl2)).
Proof.
  assert (H := directPass_stops_at_first_short_page
                 [textPage 60 "x"; textPage 10 "y"; textPage 70 "z"] 1 [] eq_refl).
  rewrite H. vm_compute. reflexivity.
Defined.

Lemma isLikelyCircular_ignores_tail_witness :
  isLikelyCircular sameCase (repeat 48%N 2000 ++ js " RBI circular")
    = isLikelyCircular sameCase (repeat 48%N 2000).
Proof.
  apply (isLikelyCircular_ignores_tail sameCase). apply repeat_length.
Defined.

Lemma isLikelyCircular_keyword_witness :
  isLikelyCircular sameCase (js "The Master Direction on KYC") = true.
Proof.
  apply (isLikelyCircular_keyword sameCase (js "The Master Direction on KYC")
           (js "master direction") (js "Master Direction")).
  - vm_compute. tauto.
  - reflexivity.
  - exists (js "The "), (js " on KYC"). reflexivity.
  - reflexivity.
Defined.

Lemma isLikelyCircular_needs_letter_witness :
  isLikelyCircular sameCase (js "2024-25: 1,234.50 (100%)") = false.
Proof.
  apply (isLikelyCircular_needs_letter sameCase). reflexivity.
Defined.

Lemma onFileChange_gate_witness :
  Some (pdfOf [circularPage]) = Some (pdfOf [circularPage])
  /\ (existsb (JsString.eqb (fileType (pdfOf [circularPage]))) Intake.validTypes
      || Intake.hasUploadExtension (fileName (pdfOf [circularPage])))%bool = true
  /\ exists trace text,
       Intake.extractSelected true sameCase noNumbers offline noImages (pdfOf [circularPage])
         = (trace, Ok text)
       /\ isLikelyCircular sameCase text = true.
Proof.
  apply (onFileChange_gate true sameCase noNumbers offline noImages
           (Some (pdfOf [circularPage])) emptyView (pdfOf [circularPage])).
  - reflexivity.
  - vm_compute. reflexivity.
Defined.

Lemma extension_only_file_never_read_witness :
  let run := Intake.onFileChange true sameCase noNumbers offline noImages
               (Some untypedPdf) emptyView in
  snd run = ([], [])
  /\ error (Intake.cells (fst run)) = Intake.notCircularMessage
  /\ Intake.pendingFile (Intake.chosen (fst run)) = Intake.pendingFile (Intake.chosen emptyView)
  /\ Intake.shownName (Intake.chosen (fst run)) = fileName untypedPdf.
Proof.
  cbv zeta.
  apply (extension_only_file_never_read true sameCase noNumbers offline noImages
           untypedPdf emptyView); try reflexivity.
  vm_compute. discriminate.
Defined.

Lemma selected_native_pdf_witness :
  let run := Intake.onFileChange true sameCase noNumbers offline noImages
               (Some (pdfOf [circularPage])) emptyView in
  snd run = (map TextLayer (List.seq 1 (List.length [circularPage])), [])
  /\ Intake.pendingFile (Intake.chosen (fst run))
     = (if isLikelyCircular sameCase (join nl2 (map pageText [circularPage]))
        then Some (pdfOf [circularPage])
        else Intake.pendingFile (Intake.chosen emptyView)).
Proof.
  cbv zeta.
  apply (selected_native_pdf true sameCase noNumbers offline noImages
           (pdfOf [circularPage]) emptyView [circularPage]); try reflexivity.
  discriminate.
Defined.

Lemma default_bank_always_exists_witness :
  defaultExists
    (serveBanks noNumbers
       [ SetDefaultBank (js "b2"); DeleteBank (js "b2");
         PostBank (js "b-9") (Some (JObj [ (js "name", JStr (js " Axis Bank "));
                                           (js "type", JStr (js "Private"));
                                           (js "state", JStr (js "Gujarat")) ]));
         SetDefaultBank (js "b-9"); PutBank (js "b-9") None ]
       bankSeed).
Proof.
  apply (default_bank_always_exists noNumbers). exact I.
Defined.

Lemma refused_bank_request_changes_nothing_witness :
  let r := PutBank (js "b1")
             (Some (JObj [ (js "name", JObj [ (js "toString", JNum 1%float) ]) ])) in
  status (snd (serveBank noNumbers r bankSeed)) = 500%N
  /\ fst (serveBank noNumbers r bankSeed) = bankSeed.
Proof.
  cbv zeta. split; [reflexivity|].
  apply (refused_bank_request_changes_nothing noNumbers). vm_compute. discriminate.
Defined.

Lemma postUser_keeps_emails_unique_witness :
  let run := postUser sameCase noNumbers (js "u-2")
               (Some (JObj [ (js "name", JStr (js "Maker One"));
                             (js "email", JStr (js "NILESH@patil.io")) ])) oneUser in
  NoDup (map (emailKey sameCase) (fst run))
  /\ (status (snd run) <> 201%N -> fst run = oneUser)
  /\ (existsb (sameEmail sameCase
                 (textField noNumbers "email" []
                    (bodyOf (Some (JObj [ (js "name", JStr (js "Maker One"));
                                          (js "email", JStr (js "NILESH@patil.io")) ])))))
        oneUser = true ->
      status (snd run) = 201%N -> False).
Proof.
  cbv zeta.
  apply (postUser_keeps_emails_unique sameCase noNumbers).
  constructor; [intros [] | constructor].
Defined.

End MoreRuns.
